(** * Workflow controller of the enrollment assistant

    A shallow embedding of [app/core/workflow_controller.py]: the session and
    event model, the keyword dispatcher, the five command handlers, the
    session registry and listener notification, followed by the properties
    of the orchestration layer.

    Conventions of the embedding.
    - Python objects are values of [PyVal]; a Python [dict] with string keys
      is an association list in insertion order.
    - A coroutine of the controller is a function from the object it mutates
      to a result (a value or a raised exception), the mutated object and the
      trace of the observable effects it performed, in program order.
    - The collaborators ([browser_service], [email_service]) and
      [uuid.uuid4()] are inputs supplied by the environment; a collaborator
      returns a dict or raises.
    - Operations of the controller run to completion one at a time.
    - Text is ASCII: [str.lower] is modelled on the 26 Latin capitals. *)

From Stdlib Require Import String Ascii List ZArith Bool Lia.
Import ListNotations.
Open Scope string_scope.
Open Scope list_scope.

(** ** Python values *)

Module Py.

#[warnings="-register-all"]
Inductive PyVal : Type :=
| PNone
| PBool (b : bool)
| PInt (z : Z)
| PStr (s : string)
| PDict (d : list (string * PyVal))
| PList (l : list PyVal).

Definition PyDict := list (string * PyVal).

(** [bool(v)]: the truth value used by [if not v] and [bool(v)]. *)
Definition truthy (v : PyVal) : bool :=
  match v with
  | PNone => false
  | PBool b => b
  | PInt z => negb (Z.eqb z 0)
  | PStr s => negb (String.eqb s "")
  | PDict d => match d with [] => false | _ => true end
  | PList l => match l with [] => false | _ => true end
  end.

(** [v == "text"] for a string literal on the right. *)
Definition eq_str (v : PyVal) (text : string) : bool :=
  match v with
  | PStr s => String.eqb s text
  | _ => false
  end.

(** Exceptions, all subclasses of [Exception].  [Fault msg] is what a
    collaborator or a listener raises, [msg] being [str(e)]. *)
Inductive PyExc : Type :=
| Fault (msg : string)
| KeyError (key : string)
| IndexError
| TypeError (v : PyVal).

(** ** Dictionaries in insertion order *)

Section Dict.
Context {V : Type}.

Fixpoint dict_get (k : string) (d : list (string * V)) : option V :=
  match d with
  | [] => None
  | (k', v) :: rest => if String.eqb k k' then Some v else dict_get k rest
  end.

(** [k in d] *)
Definition dict_in (k : string) (d : list (string * V)) : bool :=
  match dict_get k d with Some _ => true | None => false end.

(** [d[k] = v]: an existing key keeps its position, a new key goes last. *)
Fixpoint dict_set (k : string) (v : V) (d : list (string * V)) : list (string * V) :=
  match d with
  | [] => [(k, v)]
  | (k', v') :: rest =>
      if String.eqb k k' then (k, v) :: rest else (k', v') :: dict_set k v rest
  end.

(** [del d[k]] for a key that is present. *)
Fixpoint dict_del (k : string) (d : list (string * V)) : list (string * V) :=
  match d with
  | [] => []
  | (k', v') :: rest =>
      if String.eqb k k' then rest else (k', v') :: dict_del k rest
  end.

Definition dict_keys (d : list (string * V)) : list string := map fst d.
End Dict.

(** ** Strings *)

(** [str.lower()] on ASCII text. *)
Definition lower_ascii (c : ascii) : ascii :=
  let n := nat_of_ascii c in
  if andb (Nat.leb 65 n) (Nat.leb n 90) then ascii_of_nat (n + 32) else c.

Fixpoint lower (s : string) : string :=
  match s with
  | EmptyString => EmptyString
  | String c rest => String (lower_ascii c) (lower rest)
  end.

(** [needle in hay] for strings. *)
Fixpoint contains (needle hay : string) : bool :=
  if String.prefix needle hay then true
  else match hay with
       | EmptyString => false
       | String _ rest => contains needle rest
       end.

(** [xs[-1]] *)
Definition last_item {A} (xs : list A) : option A :=
  match rev xs with
  | [] => None
  | x :: _ => Some x
  end.

(** [sorted(xs, key=key, reverse=True)]: stable, so elements with equal keys
    keep their original relative order also when the order is reversed. *)
Section Sorted.
Context {A : Type} (key : A -> Z).

Fixpoint insert_desc (x : A) (sorted : list A) : list A :=
  match sorted with
  | [] => [x]
  | y :: rest =>
      if Z.leb (key y) (key x) then x :: y :: rest
      else y :: insert_desc x rest
  end.

Fixpoint sorted_reverse (xs : list A) : list A :=
  match xs with
  | [] => []
  | x :: rest => insert_desc x (sorted_reverse rest)
  end.
End Sorted.

End Py.
Import Py.

(** ** Data model *)

Definition datetime := Z.

Inductive WorkflowState : Type :=
| IDLE
| LISTENING
| PROCESSING_COMMAND
| AUTHENTICATING
| NAVIGATING
| READING_EMAIL
| GENERATING_RESPONSE
| REVIEWING
| SUBMITTING
| ERROR.

Definition WorkflowState_eqb (a b : WorkflowState) : bool :=
  match a, b with
  | IDLE, IDLE | LISTENING, LISTENING
  | PROCESSING_COMMAND, PROCESSING_COMMAND
  | AUTHENTICATING, AUTHENTICATING | NAVIGATING, NAVIGATING
  | READING_EMAIL, READING_EMAIL
  | GENERATING_RESPONSE, GENERATING_RESPONSE
  | REVIEWING, REVIEWING | SUBMITTING, SUBMITTING | ERROR, ERROR => true
  | _, _ => false
  end.

Record WorkflowEvent : Type := mkEvent {
  state : WorkflowState;
  timestamp : datetime;
  data : option PyDict;
  message : option string
}.

Record WorkflowSession : Type := mkSession {
  session_id : string;
  browser_session_id : PyVal;
  current_email_id : PyVal;
  current_state : WorkflowState;
  draft_response : PyVal;
  start_time : datetime;
  events : list WorkflowEvent
}.

(** What is fixed when the module is imported.  A class body runs once, so a
    field default written [datetime.now()] is the clock reading of that
    moment, shared by every instance; [settings] is read from the
    environment at import as well. *)
Record Globals : Type := mkGlobals {
  WorkflowEvent_timestamp : datetime;
  WorkflowSession_start_time : datetime;
  SLATE_USERNAME : string;
  SLATE_PASSWORD : string
}.

(** Importing the module when the clock reads [now_event] at the body of
    [WorkflowEvent] and [now_session] at the body of [WorkflowSession]. *)
Definition import_module (now_event now_session : datetime)
    (username password : string) : Globals :=
  mkGlobals now_event now_session username password.

(** A registered callback.  [is_coroutine] is
    [asyncio.iscoroutinefunction(listener)]; [call] is the outcome of calling
    it on an event: [None] when it returns, [Some e] when it raises [e].
    A listener observes: it does not call back into the controller. *)
Record Listener : Type := mkListener {
  listener_name : string;
  is_coroutine : bool;
  call : WorkflowEvent -> option PyExc
}.

Record WorkflowController : Type := mkController {
  sessions : list (string * WorkflowSession);
  event_listeners : list Listener
}.

(** ** Collaborators *)

Inductive Outcome : Type :=
| Returns (result : PyDict)
| Raises (e : PyExc).

(** How the external services answer while one controller operation runs. *)
Record Services : Type := mkServices {
  login_to_crm : string -> string -> string -> Outcome;
  navigate_to_inbox : PyVal -> Outcome;
  manage_session : string -> PyVal -> Outcome;
  process_email : PyVal -> PyVal -> Outcome;
  submit_draft : PyVal -> PyVal -> PyVal -> bool -> Outcome
}.

Inductive ServiceCall : Type :=
| Call_login_to_crm (username password security_answer : string)
| Call_navigate_to_inbox (session_id : PyVal)
| Call_manage_session (action : string) (session_id : PyVal)
| Call_process_email (session_id email_id : PyVal)
| Call_submit_draft (email_id session_id response_text : PyVal) (send : bool).

(** ** Observable effects, in program order *)

Inductive Effect : Type :=
| Appended (sid : string) (event : WorkflowEvent)
| Notified (listener : string) (event : WorkflowEvent)
| ListenerError (listener : string) (e : PyExc)
| Called (c : ServiceCall)
| Stored (sid : string)
| Deleted (sid : string).

(** ** Coroutines as state, exception and trace passing *)

Inductive Res (A : Type) : Type :=
| Val (a : A)
| Exn (e : PyExc).
Arguments Val {A} a.
Arguments Exn {A} e.

Definition M (S A : Type) : Type := S -> Res A * S * list Effect.

Definition ret {S A} (a : A) : M S A := fun s => (Val a, s, []).

Definition raise {S A} (e : PyExc) : M S A := fun s => (Exn e, s, []).

Definition bind {S A B} (m : M S A) (f : A -> M S B) : M S B :=
  fun s =>
    let '(r, s1, t1) := m s in
    match r with
    | Val a => let '(r2, s2, t2) := f a s1 in (r2, s2, t1 ++ t2)
    | Exn e => (Exn e, s1, t1)
    end.

(** [try: body  except Exception as e: handler(e)] *)
Definition try_except {S A} (body : M S A) (handler : PyExc -> M S A) : M S A :=
  fun s =>
    let '(r, s1, t1) := body s in
    match r with
    | Val a => (Val a, s1, t1)
    | Exn e => let '(r2, s2, t2) := handler e s1 in (r2, s2, t1 ++ t2)
    end.

Definition get {S} : M S S := fun s => (Val s, s, []).
Definition modify {S} (f : S -> S) : M S unit := fun s => (Val tt, f s, []).
Definition emit {S} (t : list Effect) : M S unit := fun s => (Val tt, s, t).

Declare Scope py_scope.
Delimit Scope py_scope with py.
Notation "x <- m ;; k" := (bind m (fun x => k))
  (at level 61, m at next level, right associativity) : py_scope.
Notation "m ;; k" := (bind m (fun _ => k))
  (at level 61, right associativity) : py_scope.
Open Scope py_scope.

(** String concatenation, as in an f-string. *)
Notation "a +++ b" := (String.append a b)
  (at level 60, right associativity) : py_scope.

(** [d[key]] on a dict, and on an arbitrary value. *)
Definition subscript {S} (d : PyDict) (key : string) : M S PyVal :=
  match dict_get key d with
  | Some v => ret v
  | None => raise (KeyError key)
  end.

Definition subscript_val {S} (v : PyVal) (key : string) : M S PyVal :=
  match v with
  | PDict d => subscript d key
  | _ => raise (TypeError v)
  end.

(** [d.get(key)] *)
Definition dict_get_or_none (d : PyDict) (key : string) : PyVal :=
  match dict_get key d with
  | Some v => v
  | None => PNone
  end.

(** Events sent by the voice activator to [_handle_voice_event]. *)
Inductive VoiceEvent : Type :=
| wake_word_detected
| command_detected (command : string)
| other_event.

(** ** Sessions and handlers *)

Section Controller.

(** The module's globals, and the text the interpreter produces for
    [str(v)] on numbers and containers and for the [TypeError] raised by
    subscripting a value that is not a dict. *)
Variable G : Globals.
Variable repr : PyVal -> string.
Variable type_error_text : PyVal -> string.

(** [str(v)], as used by f-strings. *)
Definition py_str (v : PyVal) : string :=
  match v with
  | PStr s => s
  | PNone => "None"
  | PBool true => "True"
  | PBool false => "False"
  | _ => repr v
  end.

(** [str(e)] *)
Definition exc_str (e : PyExc) : string :=
  match e with
  | Fault msg => msg
  | KeyError key => "'" +++ key +++ "'"
  | IndexError => "list index out of range"
  | TypeError v => type_error_text v
  end.

(** [WorkflowSession(session_id=session_id)]; [__post_init__] replaces the
    [None] event list by an empty one. *)
Definition WorkflowSession_new (session_id : string) : WorkflowSession :=
  mkSession session_id PNone PNone IDLE PNone (WorkflowSession_start_time G) [].

(** [WorkflowEvent(state=state, data=data, message=message)] *)
Definition WorkflowEvent_new (st : WorkflowState) (data : option PyDict)
    (message : option string) : WorkflowEvent :=
  mkEvent st (WorkflowEvent_timestamp G) data message.

(** [WorkflowSession.add_event] *)
Definition add_event (st : WorkflowState) (data : option PyDict)
    (message : option string) : M WorkflowSession WorkflowEvent :=
  fun self =>
    let event := WorkflowEvent_new st data message in
    (Val event,
     mkSession (session_id self) (browser_session_id self)
       (current_email_id self) st (draft_response self) (start_time self)
       (events self ++ [event]),
     [Appended (session_id self) event]).

Definition set_browser_session_id (v : PyVal) : M WorkflowSession unit :=
  modify (fun s =>
    mkSession (session_id s) v (current_email_id s) (current_state s)
      (draft_response s) (start_time s) (events s)).

Definition set_current_email_id (v : PyVal) : M WorkflowSession unit :=
  modify (fun s =>
    mkSession (session_id s) (browser_session_id s) v (current_state s)
      (draft_response s) (start_time s) (events s)).

Definition set_draft_response (v : PyVal) : M WorkflowSession unit :=
  modify (fun s =>
    mkSession (session_id s) (browser_session_id s) (current_email_id s)
      (current_state s) v (start_time s) (events s)).

(** [session.events[-1]] *)
Definition events_last : M WorkflowSession WorkflowEvent :=
  fun session =>
    match last_item (events session) with
    | Some event => (Val event, session, [])
    | None => (Exn IndexError, session, [])
    end.

(** [WorkflowController._notify_listeners]: the loop over
    [self.event_listeners], one [try] per listener. *)
Fixpoint notify_loop (listeners : list Listener) (event : WorkflowEvent)
    : list Effect :=
  match listeners with
  | [] => []
  | listener :: rest =>
      let outcome :=
        if is_coroutine listener then call listener event
        else call listener event in
      Notified (listener_name listener) event ::
      match outcome with
      | None => []
      | Some e => [ListenerError (listener_name listener) e]
      end ++ notify_loop rest event
  end.

Definition _notify_listeners {S} (self : WorkflowController)
    (event : WorkflowEvent) : M S unit :=
  emit (notify_loop (event_listeners self) event).

(** [await self._notify_listeners(session.events[-1])] *)
Definition notify_last (self : WorkflowController) : M WorkflowSession unit :=
  event <- events_last ;; _notify_listeners self event.

(** [await service.method(...)] *)
Definition await {S} (c : ServiceCall) (o : Outcome) : M S PyDict :=
  fun s =>
    (match o with Returns r => Val r | Raises e => Exn e end, s, [Called c]).

Definition error_result (msg : string) : PyDict :=
  [("status", PStr "error"); ("message", PStr msg)].

Definition success_result (msg : string) : PyDict :=
  [("status", PStr "success"); ("message", PStr msg)].

Section Handlers.
Variable self : WorkflowController.
Variable svc : Services.

Definition _handle_login_command : M WorkflowSession PyDict :=
  add_event AUTHENTICATING None (Some "Authenticating to Slate CRM") ;;
  notify_last self ;;
  try_except
    (result <- await
        (Call_login_to_crm (SLATE_USERNAME G) (SLATE_PASSWORD G) "tanki online")
        (login_to_crm svc (SLATE_USERNAME G) (SLATE_PASSWORD G) "tanki online") ;;
     status <- subscript result "status" ;;
     if eq_str status "success" then
       sid <- subscript result "session_id" ;;
       set_browser_session_id sid ;;
       add_event LISTENING None
         (Some "Authentication successful, listening for next command") ;;
       notify_last self ;;
       ret (success_result "Authentication successful")
     else
       add_event ERROR None
         (Some ("Authentication failed: "
                +++ py_str (dict_get_or_none result "error"))) ;;
       notify_last self ;;
       ret (error_result "Authentication failed"))
    (fun e =>
       add_event ERROR None
         (Some ("Error during authentication: " +++ exc_str e)) ;;
       notify_last self ;;
       ret (error_result (exc_str e))).

Definition _handle_inbox_command : M WorkflowSession PyDict :=
  session <- get ;;
  if negb (truthy (browser_session_id session)) then
    add_event ERROR None
      (Some "Cannot navigate to inbox: Not authenticated") ;;
    notify_last self ;;
    ret (error_result "Not authenticated")
  else
    add_event NAVIGATING None (Some "Navigating to inbox") ;;
    notify_last self ;;
    try_except
      (result <- await
          (Call_navigate_to_inbox (browser_session_id session))
          (navigate_to_inbox svc (browser_session_id session)) ;;
       status <- subscript result "status" ;;
       if eq_str status "success" then
         add_event LISTENING None
           (Some "Navigation successful, listening for next command") ;;
         notify_last self ;;
         ret (success_result "Navigation successful")
       else
         add_event ERROR None
           (Some ("Navigation failed: "
                  +++ py_str (dict_get_or_none result "error"))) ;;
         notify_last self ;;
         ret (error_result "Navigation failed"))
      (fun e =>
         add_event ERROR None
           (Some ("Error during navigation: " +++ exc_str e)) ;;
         notify_last self ;;
         ret (error_result (exc_str e))).

Definition _handle_read_email_command : M WorkflowSession PyDict :=
  session <- get ;;
  if negb (truthy (browser_session_id session)) then
    add_event ERROR None (Some "Cannot read email: Not authenticated") ;;
    notify_last self ;;
    ret (error_result "Not authenticated")
  else
    add_event READING_EMAIL None (Some "Reading email") ;;
    notify_last self ;;
    try_except
      (result <- await
          (Call_process_email (browser_session_id session) PNone)
          (process_email svc (browser_session_id session) PNone) ;;
       email <- subscript result "email" ;;
       email_id <- subscript_val email "email_id" ;;
       set_current_email_id email_id ;;
       subject <- subscript_val email "subject" ;;
       add_event LISTENING (Some [("email", email)])
         (Some ("Email read: " +++ py_str subject)) ;;
       notify_last self ;;
       ret [("status", PStr "success");
            ("message", PStr "Email read successfully");
            ("email", email)])
      (fun e =>
         add_event ERROR None
           (Some ("Error reading email: " +++ exc_str e)) ;;
         notify_last self ;;
         ret (error_result (exc_str e))).

Definition _handle_generate_response_command : M WorkflowSession PyDict :=
  session <- get ;;
  if negb (truthy (current_email_id session)) then
    add_event ERROR None
      (Some "Cannot generate response: No email selected") ;;
    notify_last self ;;
    ret (error_result "No email selected")
  else
    add_event GENERATING_RESPONSE None (Some "Generating email response") ;;
    notify_last self ;;
    try_except
      (result <- await
          (Call_process_email (browser_session_id session)
             (current_email_id session))
          (process_email svc (browser_session_id session)
             (current_email_id session)) ;;
       suggested <- subscript result "suggested_response" ;;
       set_draft_response suggested ;;
       add_event REVIEWING (Some [("draft_response", suggested)])
         (Some "Response generated, ready for review") ;;
       notify_last self ;;
       ret [("status", PStr "success");
            ("message", PStr "Response generated");
            ("draft_response", suggested)])
      (fun e =>
         add_event ERROR None
           (Some ("Error generating response: " +++ exc_str e)) ;;
         notify_last self ;;
         ret (error_result (exc_str e))).

Definition _handle_submit_response_command (send : bool)
    : M WorkflowSession PyDict :=
  session <- get ;;
  if negb (truthy (current_email_id session)) then
    add_event ERROR None
      (Some "Cannot submit response: No email selected") ;;
    notify_last self ;;
    ret (error_result "No email selected")
  else if negb (truthy (draft_response session)) then
    add_event ERROR None
      (Some "Cannot submit response: No draft response created") ;;
    notify_last self ;;
    ret (error_result "No draft response created")
  else
    add_event SUBMITTING None
      (Some ("Submitting response as "
             +++ (if send then "email" else "draft"))) ;;
    notify_last self ;;
    try_except
      (result <- await
          (Call_submit_draft (current_email_id session)
             (browser_session_id session) (draft_response session) send)
          (submit_draft svc (current_email_id session)
             (browser_session_id session) (draft_response session) send) ;;
       let action := if send then "sent" else "saved as draft" in
       add_event LISTENING None
         (Some ("Response " +++ action +++ " successfully")) ;;
       notify_last self ;;
       set_current_email_id PNone ;;
       set_draft_response PNone ;;
       ret (success_result ("Response " +++ action +++ " successfully")))
      (fun e =>
         add_event ERROR None
           (Some ("Error submitting response: " +++ exc_str e)) ;;
         notify_last self ;;
         ret (error_result (exc_str e))).

(** [WorkflowController._process_command] *)
Definition _process_command (command : string) : M WorkflowSession PyDict :=
  add_event PROCESSING_COMMAND (Some [("command", PStr command)])
    (Some ("Processing command: " +++ command)) ;;
  notify_last self ;;
  let command_lower := lower command in
  try_except
    (if contains "login" command_lower || contains "log in" command_lower
     then _handle_login_command
     else if contains "inbox" command_lower
             || contains "emails" command_lower
     then _handle_inbox_command
     else if contains "read" command_lower
             && (contains "email" command_lower
                 || contains "message" command_lower)
     then _handle_read_email_command
     else if contains "generate" command_lower
             || contains "respond" command_lower
             || contains "reply" command_lower
     then _handle_generate_response_command
     else if contains "submit" command_lower
             || contains "send" command_lower
     then _handle_submit_response_command true
     else if contains "save" command_lower
             && contains "draft" command_lower
     then _handle_submit_response_command false
     else
       add_event ERROR None (Some ("Unknown command: " +++ command)) ;;
       notify_last self ;;
       ret (error_result "Unknown command"))
    (fun e =>
       add_event ERROR None
         (Some ("Error processing command: " +++ exc_str e)) ;;
       notify_last self ;;
       ret (error_result (exc_str e))).
End Handlers.

(** *** The registry *)

(** Run a coroutine on the session object stored under [key].  The
    registry holds a reference to that object, so what the coroutine does
    to it is seen through the registry, at the same position. *)
Definition zoom {A} (key : string) (m : M WorkflowSession A)
    : M WorkflowController A :=
  fun self =>
    match dict_get key (sessions self) with
    | None => (Exn (KeyError key), self, [])
    | Some session =>
        let '(r, session', t) := m session in
        (r,
         mkController (dict_set key session' (sessions self))
           (event_listeners self),
         t)
    end.

(** [self.sessions[key]], read only. *)
Definition session_at (key : string) : M WorkflowController WorkflowSession :=
  fun self =>
    match dict_get key (sessions self) with
    | None => (Exn (KeyError key), self, [])
    | Some session => (Val session, self, [])
    end.

(** Run a coroutine on an object that only the caller holds. *)
Definition on_object {S A} (m : M WorkflowSession A) (obj : WorkflowSession)
    : M S (A * WorkflowSession) :=
  fun s =>
    let '(r, obj', t) := m obj in
    (match r with Val a => Val (a, obj') | Exn e => Exn e end, s, t).

(** [self.sessions[session_id] = session] *)
Definition store (session_id : string) (session : WorkflowSession)
    : M WorkflowController unit :=
  modify (fun self =>
    mkController (dict_set session_id session (sessions self))
      (event_listeners self)) ;;
  emit [Stored session_id].

(** [del self.sessions[session_id]] *)
Definition remove (session_id : string) : M WorkflowController unit :=
  self <- get ;;
  if dict_in session_id (sessions self) then
    modify (fun self =>
      mkController (dict_del session_id (sessions self))
        (event_listeners self)) ;;
    emit [Deleted session_id]
  else raise (KeyError session_id).

(** [WorkflowController.create_session]; [uuid4] is [str(uuid.uuid4())]. *)
Definition create_session (uuid4 : string) : M WorkflowController PyDict :=
  let session_id := uuid4 in
  created <- on_object
    (add_event LISTENING None
       (Some "Session created, listening for commands"))
    (WorkflowSession_new session_id) ;;
  let session := snd created in
  store session_id session ;;
  last <- on_object events_last session ;;
  self <- get ;;
  _notify_listeners self (fst last) ;;
  ret [("session_id", PStr session_id); ("status", PStr "created")].

(** [WorkflowController.end_session] *)
Definition end_session (svc : Services) (session_id : string)
    : M WorkflowController PyDict :=
  self <- get ;;
  if negb (dict_in session_id (sessions self)) then
    ret (error_result "Session not found")
  else
    session <- session_at session_id ;;
    (if truthy (browser_session_id session) then
       try_except
         (await (Call_manage_session "end" (browser_session_id session))
            (manage_session svc "end" (browser_session_id session)) ;;
          ret tt)
         (fun e => ret tt)
     else ret tt) ;;
    zoom session_id (add_event IDLE None (Some "Session ended")) ;;
    event <- zoom session_id events_last ;;
    _notify_listeners self event ;;
    remove session_id ;;
    ret [("status", PStr "ended"); ("session_id", PStr session_id)].

(** [end_session] as far as its [await self._notify_listeners(...)]: the
    statements that have run when the listeners are called.  The result is
    the event about to be delivered, [None] when the session was not found
    and the coroutine has returned already. *)
Definition end_session_until_notify (svc : Services) (session_id : string)
    : M WorkflowController (option WorkflowEvent) :=
  self <- get ;;
  if negb (dict_in session_id (sessions self)) then ret None
  else
    session <- session_at session_id ;;
    (if truthy (browser_session_id session) then
       try_except
         (await (Call_manage_session "end" (browser_session_id session))
            (manage_session svc "end" (browser_session_id session)) ;;
          ret tt)
         (fun e => ret tt)
     else ret tt) ;;
    zoom session_id (add_event IDLE None (Some "Session ended")) ;;
    event <- zoom session_id events_last ;;
    ret (Some event).

(** The statements of [end_session] that follow: the listeners are awaited,
    and only then is the session deleted. *)
Definition end_session_from_notify (session_id : string)
    (event : option WorkflowEvent) : M WorkflowController PyDict :=
  match event with
  | None => ret (error_result "Session not found")
  | Some event =>
      self <- get ;;
      _notify_listeners self event ;;
      remove session_id ;;
      ret [("status", PStr "ended"); ("session_id", PStr session_id)]
  end.

(** [WorkflowController._get_active_session].  The result is the registry
    entry whose value is the chosen object, so that the caller can reach
    the object in place. *)
Definition _get_active_session (self : WorkflowController)
    : option (string * WorkflowSession) :=
  match sessions self with
  | [] => None
  | _ =>
      let active_sessions :=
        filter (fun entry =>
                  negb (WorkflowState_eqb (current_state (snd entry)) IDLE))
               (sessions self) in
      match active_sessions with
      | [] => None
      | _ =>
          hd_error
            (sorted_reverse (fun entry => start_time (snd entry))
               active_sessions)
      end
  end.

(** [WorkflowController.register_event_listener] *)
Definition register_event_listener (callback : Listener)
    : M WorkflowController unit :=
  modify (fun self =>
    mkController (sessions self) (event_listeners self ++ [callback])).

(** [WorkflowController.process_voice_command] *)
Definition process_voice_command (svc : Services) (uuid4 : string)
    (command : string) : M WorkflowController PyDict :=
  self <- get ;;
  match _get_active_session self with
  | Some (key, _) => zoom key (_process_command self svc command)
  | None =>
      result <- create_session uuid4 ;;
      sid <- subscript result "session_id" ;;
      match sid with
      | PStr key =>
          self <- get ;; zoom key (_process_command self svc command)
      | _ => raise (TypeError sid)
      end
  end.

(** [WorkflowController._handle_voice_event] *)
Definition _handle_voice_event (svc : Services) (uuid4 : string)
    (event : VoiceEvent) : M WorkflowController unit :=
  match event with
  | wake_word_detected => create_session uuid4 ;; ret tt
  | command_detected command =>
      self <- get ;;
      match _get_active_session self with
      | Some (key, _) =>
          zoom key (_process_command self svc command) ;; ret tt
      | None => ret tt
      end
  | other_event => ret tt
  end.

(** *** Operations of the controller, as its callers invoke them *)

Inductive Op : Type :=
| Op_create_session (uuid4 : string)
| Op_end_session (svc : Services) (session_id : string)
| Op_process_voice_command (svc : Services) (uuid4 : string)
    (command : string)
| Op_handle_voice_event (svc : Services) (uuid4 : string)
    (event : VoiceEvent)
| Op_register_event_listener (callback : Listener).

Definition perform (op : Op) : M WorkflowController (option PyDict) :=
  match op with
  | Op_create_session uuid4 =>
      r <- create_session uuid4 ;; ret (Some r)
  | Op_end_session svc sid =>
      r <- end_session svc sid ;; ret (Some r)
  | Op_process_voice_command svc uuid4 command =>
      r <- process_voice_command svc uuid4 command ;; ret (Some r)
  | Op_handle_voice_event svc uuid4 event =>
      _handle_voice_event svc uuid4 event ;; ret None
  | Op_register_event_listener callback =>
      register_event_listener callback ;; ret None
  end.

Definition result_of {S A} (x : Res A * S * list Effect) : Res A :=
  fst (fst x).
Definition state_of {S A} (x : Res A * S * list Effect) : S :=
  snd (fst x).
Definition trace_of {S A} (x : Res A * S * list Effect) : list Effect :=
  snd x.

(** A schedule lists the calls made on the controller with the clock
    reading at each call.  No operation reads the clock, so the readings
    do not enter the computation. *)
Fixpoint run (schedule : list (datetime * Op)) (self : WorkflowController)
    : WorkflowController :=
  match schedule with
  | [] => self
  | (now, op) :: rest => run rest (state_of (perform op self))
  end.

(** The controller states at rest: between two operations. *)
Inductive reachable : WorkflowController -> Prop :=
| reachable_init : reachable (mkController [] [])
| reachable_step self op :
    reachable self -> reachable (state_of (perform op self)).

End Controller.

(** The projection returned by [get_session]. *)
Record SessionInfo : Type := mkInfo {
  info_session_id : string;
  info_browser_session_id : PyVal;
  info_current_state : WorkflowState;
  info_current_email_id : PyVal;
  info_has_draft : bool;
  info_start_time : datetime;
  info_events : nat;
  info_last_event : option WorkflowEvent
}.

(** [WorkflowController.get_session]; [start_time] is kept as the instant
    that [isoformat()] prints. *)
Definition get_session (self : WorkflowController) (sid : string)
    : option SessionInfo :=
  if negb (dict_in sid (sessions self)) then None
  else
    match dict_get sid (sessions self) with
    | None => None
    | Some session =>
        Some (mkInfo (session_id session) (browser_session_id session)
                (current_state session) (current_email_id session)
                (truthy (draft_response session)) (start_time session)
                (length (events session))
                (match events session with
                 | [] => None
                 | _ => last_item (events session)
                 end))
    end.

(** [WorkflowController.get_all_sessions] *)
Definition get_all_sessions (self : WorkflowController)
    : list (option SessionInfo) :=
  map (get_session self) (dict_keys (sessions self)).

(** [WorkflowController()] *)
Definition WorkflowController_init : WorkflowController := mkController [] [].

(** ** The dispatch table as the specification words it *)

Inductive Intent : Type :=
| Login
| Inbox
| ReadEmail
| Generate
| Submit (send : bool)
| Unknown.

(** The ordered keyword groups; each predicate is applied to the command
    in lower case. *)
Definition spec_rules : list ((string -> bool) * Intent) :=
  [ (fun c => contains "login" c || contains "log in" c, Login);
    (fun c => contains "inbox" c || contains "emails" c, Inbox);
    (fun c => contains "read" c
              && (contains "email" c || contains "message" c), ReadEmail);
    (fun c => contains "generate" c || contains "respond" c
              || contains "reply" c, Generate);
    (fun c => contains "submit" c || contains "send" c, Submit true);
    (fun c => contains "save" c && contains "draft" c, Submit false) ].

(** Top to bottom, the first rule that matches wins. *)
Fixpoint first_match (rules : list ((string -> bool) * Intent))
    (text : string) : Intent :=
  match rules with
  | [] => Unknown
  | (matches, intent) :: rest =>
      if matches text then intent else first_match rest text
  end.

Definition spec_classify (command : string) : Intent :=
  first_match spec_rules (lower command).

(** The handler each intent is routed to. *)
Definition spec_dispatch (G : Globals) (repr type_error_text : PyVal -> string)
    (self : WorkflowController) (svc : Services) (command : string)
    (intent : Intent) : M WorkflowSession PyDict :=
  match intent with
  | Login => _handle_login_command G repr type_error_text self svc
  | Inbox => _handle_inbox_command G repr type_error_text self svc
  | ReadEmail => _handle_read_email_command G repr type_error_text self svc
  | Generate =>
      _handle_generate_response_command G type_error_text self svc
  | Submit send =>
      _handle_submit_response_command G type_error_text self svc send
  | Unknown =>
      add_event G ERROR None (Some ("Unknown command: " +++ command)) ;;
      notify_last self ;;
      ret (error_result "Unknown command")
  end.

(** ** Assertions used by the proofs *)

(** The part of a trace that concerns the event log and the listeners. *)
Definition observe (t : list Effect) : list Effect :=
  filter (fun eff =>
            match eff with
            | Appended _ _ | Notified _ _ => true
            | _ => false
            end) t.

(** Every appended event followed by its delivery to each listener, in the
    order of the listener list. *)
Definition deliveries (listeners : list Listener) (event : WorkflowEvent)
    : list Effect :=
  map (fun l => Notified (listener_name l) event) listeners.

Definition expected (listeners : list Listener) (t : list Effect)
    : list Effect :=
  flat_map (fun eff =>
              match eff with
              | Appended sid event =>
                  Appended sid event :: deliveries listeners event
              | _ => []
              end) t.

(** The session at rest: its state is that of its last event. *)
Definition session_ok (s : WorkflowSession) : Prop :=
  exists event,
    last_item (events s) = Some event /\ current_state s = state event.

(** What holds of the session stored under [key] between two operations. *)
Definition Inv (G : Globals) (key : string) (s : WorkflowSession) : Prop :=
  session_id s = key
  /\ current_state s <> IDLE
  /\ session_ok s
  /\ start_time s = WorkflowSession_start_time G
  /\ Forall (fun e => timestamp e = WorkflowEvent_timestamp G) (events s).

Definition RegInv (G : Globals) (self : WorkflowController) : Prop :=
  NoDup (dict_keys (sessions self))
  /\ forall key s, In (key, s) (sessions self) -> Inv G key s.

(** Hoare triples over coroutines: the assertions speak of the object and of
    the trace so far; [Q] is for a normal return, [E] for a raised
    exception. *)
Definition Assertion (S : Type) : Type := S -> list Effect -> Prop.

Definition triple {S A} (P : Assertion S) (m : M S A)
    (Q : A -> Assertion S) (E : PyExc -> Assertion S) : Prop :=
  forall s t0, P s t0 ->
    match m s with
    | (Val a, s', t) => Q a s' (t0 ++ t)
    | (Exn e, s', t) => E e s' (t0 ++ t)
    end.

(** Same result and same final object; the traces may differ. *)
Definition sim {S A} (m1 m2 : M S A) : Prop :=
  forall s, fst (m1 s) = fst (m2 s).

(** Between an append and its notification the session is settled again once
    the listeners have been told about the pending event. *)
Definition Settled (I : WorkflowSession -> Prop) (listeners : list Listener)
    : Assertion WorkflowSession :=
  fun s t => I s /\ observe t = expected listeners t.

Definition Pending (I : WorkflowSession -> Prop) (listeners : list Listener)
    : Assertion WorkflowSession :=
  fun s t =>
    I s /\ exists t0 sid event,
      t = t0 ++ [Appended sid event]
      /\ last_item (events s) = Some event
      /\ observe t0 = expected listeners t0.

(** An invariant of sessions that the primitive steps of the handlers
    maintain: appending an event whose state is not [IDLE], and assigning
    one of the three optional fields. *)
Definition stable (G : Globals) (I : WorkflowSession -> Prop) : Prop :=
  (forall st d m s, st <> IDLE -> I s -> I (state_of (add_event G st d m s)))
  /\ (forall v s, I s -> I (state_of (set_browser_session_id v s)))
  /\ (forall v s, I s -> I (state_of (set_current_email_id v s)))
  /\ (forall v s, I s -> I (state_of (set_draft_response v s))).

(** The first event of a session and the session as [create_session]
    registers it. *)
Definition created_event (G : Globals) : WorkflowEvent :=
  WorkflowEvent_new G LISTENING None
    (Some "Session created, listening for commands").

Definition created_session (G : Globals) (uuid4 : string) : WorkflowSession :=
  mkSession uuid4 PNone PNone LISTENING PNone (WorkflowSession_start_time G)
    [created_event G].

(** The last event of a session, appended by [end_session]. *)
Definition ended_event (G : Globals) : WorkflowEvent :=
  WorkflowEvent_new G IDLE None (Some "Session ended").

(** What the proofs need to know about the outcome of an operation. *)
Definition well_behaved {A} (G : Globals) (self : WorkflowController)
    (x : Res A * WorkflowController * list Effect) : Prop :=
  (exists a, result_of x = Val a)
  /\ observe (trace_of x) = expected (event_listeners self) (trace_of x)
  /\ event_listeners (state_of x) = event_listeners self
  /\ (RegInv G self -> RegInv G (state_of x)).

(** ** Concrete scenarios *)

(** The module imported when the clock read 0. *)
Definition example_globals : Globals :=
  import_module 0%Z 0%Z "operator" "secret".

Definition example_text (v : PyVal) : string := "<object>".

(** Collaborators that succeed, except that the mail agent reports that the
    draft could not be submitted. *)
Definition example_services : Services :=
  mkServices
    (fun _ _ _ =>
       Returns [("status", PStr "success"); ("session_id", PStr "browser-1")])
    (fun _ => Returns [("status", PStr "success")])
    (fun _ _ => Returns [("status", PStr "success")])
    (fun _ _ =>
       Returns [("email",
                 PDict [("email_id", PStr "email-1");
                        ("subject", PStr "Application status")]);
                ("suggested_response", PStr "Dear applicant")])
    (fun _ _ _ _ =>
       Returns [("status", PStr "error");
                ("error", PStr "SMTP connection refused")]).

(** A listener that raises on every event, and one that returns. *)
Definition failing_listener : Listener :=
  mkListener "failing" false (fun _ => Some (Fault "listener failed")).

Definition recording_listener : Listener :=
  mkListener "recording" true (fun _ => None).

(** Two sessions, "A" created when the clock read 100 and "B" when it read
    200, with both listeners registered beforehand. *)
Definition two_sessions : WorkflowController :=
  run example_globals example_text example_text
    [ (50%Z, Op_register_event_listener failing_listener);
      (60%Z, Op_register_event_listener recording_listener);
      (100%Z, Op_create_session "A");
      (200%Z, Op_create_session "B") ]
    WorkflowController_init.

(** The registry after a login command has been processed on
    [two_sessions], when the clock read 300. *)
Definition after_login : WorkflowController :=
  run example_globals example_text example_text
    [ (300%Z, Op_process_voice_command example_services "C" "Please log in") ]
    two_sessions.

(** ** Outcome of a command *)

(** The result of a command and the state it leaves the session in agree:
    "success" with [LISTENING] or [REVIEWING], "error" with [ERROR]. *)
Definition outcome_consistent (result : PyDict) (s : WorkflowSession) : Prop :=
  (dict_get "status" result = Some (PStr "success")
   /\ (current_state s = LISTENING \/ current_state s = REVIEWING))
  \/ (dict_get "status" result = Some (PStr "error")
      /\ current_state s = ERROR).

(** The session has just entered state [st]: an event was appended. *)
Definition Entered (st : WorkflowState) : Assertion WorkflowSession :=
  fun s _ => current_state s = st /\ last_item (events s) <> None.

(** The collaborator calls of a trace, in order. *)
Definition service_calls (t : list Effect) : list ServiceCall :=
  flat_map (fun eff => match eff with Called c => [c] | _ => [] end) t.

(** What a successful answer of [login_to_crm] grants: the browser session
    identifier, when the answer has status "success" and a "session_id". *)
Definition granted_session (o : Outcome) : option PyVal :=
  match o with
  | Returns d =>
      match dict_get "status" d with
      | Some st => if eq_str st "success" then dict_get "session_id" d else None
      | None => None
      end
  | Raises _ => None
  end.

(** What a refusal leaves behind. *)
Definition refused (G : Globals) (text msg : string) (s : WorkflowSession)
    (outcome : Res PyDict * WorkflowSession * list Effect) : Prop :=
  result_of outcome = Val (error_result msg)
  /\ current_state (state_of outcome) = ERROR
  /\ events (state_of outcome)
     = events s ++ [WorkflowEvent_new G ERROR None (Some text)]
  /\ browser_session_id (state_of outcome) = browser_session_id s
  /\ current_email_id (state_of outcome) = current_email_id s
  /\ draft_response (state_of outcome) = draft_response s
  /\ service_calls (trace_of outcome) = [].


(** The reply text in an answer of [process_email], when there is one. *)
Definition suggested_response (o : Outcome) : option PyVal :=
  match o with
  | Returns d => dict_get "suggested_response" d
  | Raises _ => None
  end.

(** Whether an answer of [navigate_to_inbox] reports success. *)
Definition navigated (o : Outcome) : bool :=
  match o with
  | Returns d =>
      match dict_get "status" d with
      | Some st => eq_str st "success"
      | None => false
      end
  | Raises _ => false
  end.

(** The snapshot [get_session] builds from a session. *)
Definition snapshot_of (session : WorkflowSession) : SessionInfo :=
  mkInfo (session_id session) (browser_session_id session)
    (current_state session) (current_email_id session)
    (truthy (draft_response session)) (start_time session)
    (length (events session)) (last_item (events session)).

(** ** The routes of [app/api/routes/workflow.py] *)

Inductive HTTP (A : Type) : Type :=
| Response (body : A)
| HTTPException (status_code : nat) (detail : string).
Arguments Response {A} body.
Arguments HTTPException {A} status_code detail.

(** The request model of the command route. *)
Record CommandRequest : Type := mkCommandRequest {
  request_command : string;
  request_session_id : option string
}.

Section Routes.
Variable G : Globals.
Variables repr type_error_text : PyVal -> string.

(** [try: return await op] with
    [except Exception as e: raise HTTPException(500, prefix + str(e))]. *)
Definition guarded {A} (prefix : string) (op : M WorkflowController A)
    : WorkflowController -> HTTP A * WorkflowController * list Effect :=
  fun self =>
    let '(r, self', t) := op self in
    (match r with
     | Val a => Response a
     | Exn e => HTTPException 500 (prefix +++ exc_str type_error_text e)
     end, self', t).

(** [POST /command]; the branch on [request.session_id] is [pass]. *)
Definition route_process_command (svc : Services) (uuid4 : string)
    (request : CommandRequest) :=
  guarded "Error processing command: "
    ((match request_session_id request with
      | Some sid => if negb (String.eqb sid "") then ret tt else ret tt
      | None => ret tt
      end) ;;
     process_voice_command G repr type_error_text svc uuid4
       (request_command request)).

(** [POST /session] *)
Definition route_create_session (uuid4 : string) :=
  guarded "Error creating session: " (create_session G uuid4).

(** [DELETE /session/{session_id}] *)
Definition route_end_session (svc : Services) (session_id : string) :=
  guarded "Error ending session: " (end_session G svc session_id).

(** [GET /session/{session_id}]: a missing session is answered with 404. *)
Definition route_get_session (session_id : string) (self : WorkflowController)
    : HTTP SessionInfo :=
  match get_session self session_id with
  | None => HTTPException 404 ("Session " +++ session_id +++ " not found")
  | Some session => Response session
  end.

(** [GET /sessions] *)
Definition route_get_all_sessions (self : WorkflowController)
    : HTTP (list (option SessionInfo)) :=
  Response (get_all_sessions self).

End Routes.

(** ** The placeholder services of [app/services] *)

From Stdlib Require DecimalString.

(** [str(i)] for an integer. *)
Definition str_int (i : Z) : string :=
  DecimalString.NilZero.string_of_int (Z.to_int i).

(** [range(start, stop)] *)
Definition range (start stop : Z) : list Z :=
  map (fun k => (start + Z.of_nat k)%Z) (seq 0 (Z.to_nat (stop - start))).

Section Placeholders.
(** The float 0.89, which the values of the embedding do not include. *)
Variable confidence_0_89 : PyVal.

(** [BrowserService.manage_session]; [url], [selector], [text] and
    [timeout] are not used by the body.  [uuid4] is drawn only when a
    session is started without identifier. *)
Definition BrowserService_manage_session (uuid4 : string) (action : string)
    (session_id : PyVal) : PyDict :=
  let session_id :=
    if negb (truthy session_id) && String.eqb action "start"
    then PStr uuid4 else session_id in
  [("session_id", session_id);
   ("status", PStr "success");
   ("content", PStr ("Browser action " +++ action +++ " completed"));
   ("screenshot", PNone);
   ("error", PNone)].

(** [BrowserService.login_to_crm] *)
Definition BrowserService_login_to_crm (uuid4 : string)
    (username password security_answer : string) : PyDict :=
  let session_id := PStr uuid4 in
  [("session_id", session_id);
   ("status", PStr "success");
   ("content", PStr "Login successful");
   ("screenshot", PNone);
   ("error", PNone)].

(** [BrowserService.navigate_to_inbox] *)
Definition BrowserService_navigate_to_inbox (session_id : PyVal) : PyDict :=
  [("session_id", session_id);
   ("status", PStr "success");
   ("content", PStr "Navigated to inbox");
   ("screenshot", PNone);
   ("error", PNone)].

(** [EmailService.process_email] *)
Definition EmailService_process_email (session_id email_id : PyVal) : PyDict :=
  [("email",
    PDict
      [("email_id", if truthy email_id then email_id else PStr "email123");
       ("subject", PStr "Application Status Inquiry");
       ("sender", PStr "student@example.com");
       ("recipient", PStr "admissions@illinoistech.edu");
       ("date", PStr "2023-09-15T14:30:00Z");
       ("body",
        PStr "Hello, I submitted my application last week and was wondering about its status. Can you please provide an update? Thank you.");
       ("attachments", PNone)]);
   ("suggested_response",
    PStr "Thank you for your inquiry. I can confirm that we have received your application and it is currently being reviewed by our admissions committee. You can expect to hear back from us within the next 2-3 weeks. If you have any other questions, please don't hesitate to ask.");
   ("intent", PStr "status_inquiry");
   ("confidence", confidence_0_89)].

(** [EmailService.submit_draft] *)
Definition EmailService_submit_draft (email_id session_id response_text : PyVal)
    (send : bool) : PyDict :=
  let action := if send then "sent" else "saved as draft" in
  [("email_id", email_id);
   ("status", PStr "success");
   ("action", PStr action);
   ("timestamp", PStr "2023-09-15T15:45:00Z")].

(** [EmailService.list_emails] *)
Definition EmailService_list_emails (session_id : PyVal) (limit : Z)
    : list PyDict :=
  map (fun i =>
         [("email_id", PStr ("email" +++ str_int i));
          ("subject", PStr ("Sample Email " +++ str_int i));
          ("sender", PStr ("student" +++ str_int i +++ "@example.com"));
          ("date", PStr "2023-09-15T14:30:00Z");
          ("read", PBool (Z.eqb (i mod 2) 0))])
      (range 1 (Z.min (limit + 1) 6)).

(** The collaborators as delivered; [login_uuid] and [start_uuid] are the
    identifiers [uuid4] yields inside them. *)
Definition placeholder_services (login_uuid start_uuid : string) : Services :=
  mkServices
    (fun username password security_answer =>
       Returns (BrowserService_login_to_crm login_uuid username password
                  security_answer))
    (fun session_id => Returns (BrowserService_navigate_to_inbox session_id))
    (fun action session_id =>
       Returns (BrowserService_manage_session start_uuid action session_id))
    (fun session_id email_id =>
       Returns (EmailService_process_email session_id email_id))
    (fun email_id session_id response_text send =>
       Returns (EmailService_submit_draft email_id session_id response_text
                  send)).

End Placeholders.

(** What a route answers. *)
Definition response_of {A} (x : HTTP A * WorkflowController * list Effect)
    : HTTP A :=
  fst (fst x).

(** ** Service monitoring ([app/core/monitoring.py]) *)

Module Monitoring.

Section Metrics.
(** Python floats.  The code stores, sums and divides them; what the
    arithmetic yields is left to these operations:
    [mean xs] is [sum(xs) / len(xs)], [percent a b] is [(a / b) * 100],
    [elapsed_ms t0 t1] is [(t1 - t0) * 1000] and [seconds_between a b] is
    [(b - a).total_seconds()]. *)
Variable float : Type.
Variable mean : list float -> float.
Variable percent : Z -> Z -> float.
Variable elapsed_ms : float -> float -> float.
Variable seconds_between : datetime -> datetime -> float.

Record ServiceMetrics : Type := mkMetrics {
  service_name : string;
  start_time : datetime;
  requests_total : Z;
  requests_success : Z;
  requests_error : Z;
  response_times : list float;
  last_error : option string;
  last_error_time : option datetime
}.

(** [ServiceMetrics(service_name=name)] when the clock reads [now]: the
    start time has a default factory, so it is read at construction. *)
Definition ServiceMetrics_new (now : datetime) (name : string)
    : ServiceMetrics :=
  mkMetrics name now 0 0 0 [] None None.

(** [ServiceMetrics.avg_response_time] *)
Definition avg_response_time (self : ServiceMetrics) : option float :=
  match response_times self with
  | [] => None
  | _ => Some (mean (response_times self))
  end.

(** [ServiceMetrics.success_rate] *)
Definition success_rate (self : ServiceMetrics) : option float :=
  if Z.eqb (requests_total self) 0 then None
  else Some (percent (requests_success self) (requests_total self)).

(** [ServiceMetrics.record_request]; [now] is the clock reading, consulted
    only when the request failed. *)
Definition ServiceMetrics_record_request (now : datetime) (success : bool)
    (response_time : float) (error : option string) (self : ServiceMetrics)
    : ServiceMetrics :=
  let total := (requests_total self + 1)%Z in
  let times := response_times self ++ [response_time] in
  let times := if Nat.ltb 100 (length times) then tl times else times in
  if success then
    mkMetrics (service_name self) (start_time self) total
      (requests_success self + 1)%Z (requests_error self) times
      (last_error self) (last_error_time self)
  else
    mkMetrics (service_name self) (start_time self) total
      (requests_success self) (requests_error self + 1)%Z times
      error (Some now).

Record ServiceMonitor : Type := mkMonitor {
  services : list (string * ServiceMetrics);
  monitor_start_time : datetime
}.

(** [ServiceMonitor()] when the clock reads [now]. *)
Definition ServiceMonitor_new (now : datetime) : ServiceMonitor :=
  mkMonitor [] now.

(** [ServiceMonitor.register_service]: the monitor afterwards and the
    metrics returned. *)
Definition register_service (now : datetime) (name : string)
    (self : ServiceMonitor) : ServiceMonitor * option ServiceMetrics :=
  if dict_in name (services self) then
    (self, dict_get name (services self))
  else
    let self' :=
      mkMonitor (dict_set name (ServiceMetrics_new now name) (services self))
        (monitor_start_time self) in
    (self', dict_get name (services self')).

(** [ServiceMonitor.get_service_metrics] *)
Definition get_service_metrics (name : string) (self : ServiceMonitor)
    : option ServiceMetrics :=
  dict_get name (services self).

(** [ServiceMonitor.record_request]; [registered_at] is the clock reading
    when the service has to be registered first, [now] the reading when the
    request failed. *)
Definition ServiceMonitor_record_request (registered_at now : datetime)
    (name : string) (success : bool) (response_time : float)
    (error : option string) (self : ServiceMonitor) : ServiceMonitor :=
  let self1 :=
    if negb (dict_in name (services self))
    then fst (register_service registered_at name self) else self in
  match dict_get name (services self1) with
  | Some metrics =>
      mkMonitor
        (dict_set name
           (ServiceMetrics_record_request now success response_time error
              metrics)
           (services self1))
        (monitor_start_time self1)
  | None => self1
  end.

(** The counts of [ServiceMonitor.get_system_metrics]. *)
Record SystemMetrics : Type := mkSystemMetrics {
  system_start_time : datetime;
  uptime : float;
  services_count : nat;
  total_requests : Z
}.

Definition get_system_metrics (now : datetime) (self : ServiceMonitor)
    : SystemMetrics :=
  mkSystemMetrics (monitor_start_time self)
    (seconds_between (monitor_start_time self) now)
    (length (services self))
    (fold_right Z.add 0%Z (map (fun e => requests_total (snd e)) (services self))).

(** The module-level monitor: created when the clock reads [created], then
    the four core services registered at the readings that follow. *)
Definition service_monitor (created voice_at browser_at email_at workflow_at
    : datetime) : ServiceMonitor :=
  let m := ServiceMonitor_new created in
  let m := fst (register_service voice_at "voice" m) in
  let m := fst (register_service browser_at "browser" m) in
  let m := fst (register_service email_at "email" m) in
  fst (register_service workflow_at "workflow" m).

(** The wrapper built by [monitor_service(name)] around a coroutine whose
    outcome is [outcome]: [t0] and [t1] are the readings of [time.time()]
    before the call and in the [finally] clause, [registered_at] and [now]
    the readings of the clock that recording may take.  The outcome is
    passed on (a raised exception is raised again) once the request is
    recorded. *)
Definition monitor_service {A} (type_error_text : PyVal -> string)
    (name : string) (t0 t1 : float) (registered_at now : datetime)
    (outcome : Res A) (monitor : ServiceMonitor) : Res A * ServiceMonitor :=
  let success := match outcome with Val _ => true | Exn _ => false end in
  let error :=
    match outcome with
    | Val _ => None
    | Exn e => Some (exc_str type_error_text e)
    end in
  let response_time := elapsed_ms t0 t1 in
  (outcome,
   ServiceMonitor_record_request registered_at now name success response_time
     error monitor).

(** A request as [ServiceMetrics.record_request] receives it, with the
    reading of the clock at that moment. *)
Record Request : Type := mkRequest {
  request_now : datetime;
  request_success : bool;
  request_response_time : float;
  request_error : option string
}.

Definition request_failed (r : Request) : bool := negb (request_success r).

(** The requests recorded one after the other on the same metrics. *)
Definition record_requests (requests : list Request) (self : ServiceMetrics)
    : ServiceMetrics :=
  fold_left
    (fun m r =>
       ServiceMetrics_record_request (request_now r) (request_success r)
         (request_response_time r) (request_error r) m)
    requests self.

(** The requests of several services recorded one after the other on the
    same monitor: the service, the reading of the clock should it have to be
    registered, and the request. *)
Definition monitor_requests (requests : list (string * datetime * Request))
    (self : ServiceMonitor) : ServiceMonitor :=
  fold_left
    (fun m c =>
       let '(name, registered_at, r) := c in
       ServiceMonitor_record_request registered_at (request_now r) name
         (request_success r) (request_response_time r) (request_error r) m)
    requests self.

(** The requests counted for a service, none while it is not registered. *)
Definition requests_counted (name : string) (self : ServiceMonitor) : Z :=
  match get_service_metrics name self with
  | Some metrics => requests_total metrics
  | None => 0%Z
  end.

(** The services that the requests name. *)
Definition requested (requests : list (string * datetime * Request))
    : list string :=
  map (fun c => fst (fst c)) requests.

End Metrics.

Arguments service_name {float}.
Arguments start_time {float}.
Arguments requests_total {float}.
Arguments requests_success {float}.
Arguments requests_error {float}.
Arguments response_times {float}.
Arguments last_error {float}.
Arguments last_error_time {float}.
Arguments services {float}.
Arguments monitor_start_time {float}.
Arguments system_start_time {float}.
Arguments uptime {float}.
Arguments services_count {float}.
Arguments total_requests {float}.
Arguments request_now {float}.
Arguments request_success {float}.
Arguments request_response_time {float}.
Arguments request_error {float}.
Arguments request_failed {float}.
Arguments mkMetrics {float}.
Arguments mkMonitor {float}.
Arguments mkRequest {float}.
Arguments ServiceMetrics_new {float}.
Arguments ServiceMonitor_new {float}.
Arguments service_monitor {float}.
Arguments avg_response_time {float}.
Arguments success_rate {float}.
Arguments ServiceMetrics_record_request {float}.
Arguments register_service {float}.
Arguments get_service_metrics {float}.
Arguments ServiceMonitor_record_request {float}.
Arguments get_system_metrics {float}.
Arguments monitor_service {float} elapsed_ms {A}.
Arguments record_requests {float}.
Arguments monitor_requests {float}.
Arguments requests_counted {float}.
Arguments requested {float}.

End Monitoring.

(** * Properties *)

(** ** Lists, dictionaries and sorting *)

Lemma last_item_snoc {A} (xs : list A) (x : A) :
  last_item (xs ++ [x]) = Some x.
Proof. unfold last_item. rewrite rev_app_distr. reflexivity. Qed.

Lemma last_item_length {A} (xs : list A) (x : A) :
  last_item xs = Some x -> 1 <= length xs.
Proof.
  destruct xs as [|y ys]; [discriminate|]. intros _. simpl. lia.
Qed.

Section DictFacts.
Context {V : Type}.
Implicit Types (d : list (string * V)) (k : string) (v : V).

Lemma dict_get_In k d v : dict_get k d = Some v -> In (k, v) d.
Proof.
  induction d as [|[k' v'] d IH]; simpl; [discriminate|].
  destruct (String.eqb_spec k k') as [->|Hne].
  - intros [= ->]. now left.
  - intros H. right. auto.
Qed.

Lemma dict_get_None k d : dict_get k d = None <-> ~ In k (dict_keys d).
Proof.
  induction d as [|[k' v'] d IH]; simpl.
  - split; [intros _ []|reflexivity].
  - destruct (String.eqb_spec k k') as [->|Hne].
    + split; [discriminate|]. intros H. exfalso. apply H. now left.
    + rewrite IH. split.
      * intros H [Heq|Hin]; [congruence|contradiction].
      * intros H Hin. apply H. now right.
Qed.

Lemma dict_in_false k d : dict_in k d = false <-> ~ In k (dict_keys d).
Proof.
  unfold dict_in. rewrite <- dict_get_None.
  destruct (dict_get k d); split; congruence.
Qed.

Lemma dict_get_set_same k v d : dict_get k (dict_set k v d) = Some v.
Proof.
  induction d as [|[k' v'] d IH]; simpl.
  - now rewrite String.eqb_refl.
  - destruct (String.eqb_spec k k') as [->|Hne]; simpl.
    + now rewrite String.eqb_refl.
    + destruct (String.eqb_spec k k'); [contradiction|assumption].
Qed.

Lemma dict_set_In k v d k' v' :
  In (k', v') (dict_set k v d) -> (k' = k /\ v' = v) \/ In (k', v') d.
Proof.
  induction d as [|[k0 v0] d IH]; simpl.
  - intros [[= <- <-]|[]]. now left.
  - destruct (String.eqb_spec k k0) as [->|Hne]; simpl.
    + intros [[= <- <-]|H]; [now left|right; now right].
    + intros [H|H]; [right; now left|].
      destruct (IH H) as [?|?]; [now left|right; now right].
Qed.

Lemma dict_set_keys k v d :
  dict_keys (dict_set k v d)
  = if dict_in k d then dict_keys d else dict_keys d ++ [k].
Proof.
  unfold dict_in.
  induction d as [|[k0 v0] d IH]; simpl; [reflexivity|].
  destruct (String.eqb_spec k k0) as [->|Hne]; simpl; [reflexivity|].
  rewrite IH. now destruct (dict_get k d).
Qed.

Lemma dict_set_NoDup k v d :
  NoDup (dict_keys d) -> NoDup (dict_keys (dict_set k v d)).
Proof.
  intros Hnd. rewrite dict_set_keys.
  destruct (dict_in k d) eqn:Hin; [assumption|].
  apply dict_in_false in Hin.
  apply NoDup_rev in Hnd. rewrite <- (rev_involutive (_ ++ _)).
  apply NoDup_rev. rewrite rev_app_distr. simpl.
  constructor; [|assumption]. now rewrite <- in_rev.
Qed.

Lemma dict_del_set k v d : dict_del k (dict_set k v d) = dict_del k d.
Proof.
  induction d as [|[k0 v0] d IH]; simpl.
  - now rewrite String.eqb_refl.
  - destruct (String.eqb_spec k k0) as [->|Hne]; simpl.
    + now rewrite String.eqb_refl.
    + destruct (String.eqb_spec k k0); [contradiction|]. now rewrite IH.
Qed.

Lemma dict_del_In k d k' v' : In (k', v') (dict_del k d) -> In (k', v') d.
Proof.
  induction d as [|[k0 v0] d IH]; simpl; [tauto|].
  destruct (String.eqb k k0); simpl; [now right|].
  intros [H|H]; [now left|right; auto].
Qed.

Lemma dict_del_keys_In k d k' :
  In k' (dict_keys (dict_del k d)) -> In k' (dict_keys d).
Proof.
  induction d as [|[k0 v0] d IH]; simpl; [tauto|].
  destruct (String.eqb k k0); simpl; [now right|].
  intros [H|H]; [now left|right; auto].
Qed.

Lemma dict_del_NoDup k d :
  NoDup (dict_keys d) -> NoDup (dict_keys (dict_del k d)).
Proof.
  induction d as [|[k0 v0] d IH]; simpl; [trivial|].
  intros Hnd. inversion Hnd as [|? ? Hnotin Hnd']; subst.
  destruct (String.eqb k k0); simpl; [assumption|].
  constructor; [|auto]. intros Hin. apply Hnotin.
  now apply dict_del_keys_In in Hin.
Qed.

Lemma dict_del_absent k d :
  NoDup (dict_keys d) -> ~ In k (dict_keys (dict_del k d)).
Proof.
  induction d as [|[k0 v0] d IH]; simpl; [tauto|].
  intros Hnd. inversion Hnd as [|? ? Hnotin Hnd']; subst.
  destruct (String.eqb_spec k k0) as [->|Hne]; simpl; [assumption|].
  intros [H|H]; [congruence|]. now apply IH.
Qed.
End DictFacts.

(** With all keys equal, the stable sort returns its input. *)
Lemma sorted_reverse_constant {A} (key : A -> Z) (c : Z) (xs : list A) :
  Forall (fun x => key x = c) xs -> sorted_reverse key xs = xs.
Proof.
  induction 1 as [|x xs Hx Hxs IH]; simpl; [reflexivity|].
  rewrite IH. destruct xs as [|y ys]; simpl; [reflexivity|].
  inversion Hxs; subst. replace (key y) with (key x) by congruence.
  now rewrite Z.leb_refl.
Qed.

(** ** Rules of the coroutine logic *)

Section Rules.
Context {S : Type}.
Implicit Types (P : Assertion S).

Lemma triple_ret {A} P (a : A) E : triple P (ret a) (fun _ => P) E.
Proof. intros s t0 H. simpl. now rewrite app_nil_r. Qed.

Lemma triple_get P E : triple P get (fun _ => P) E.
Proof. intros s t0 H. simpl. now rewrite app_nil_r. Qed.

Lemma triple_bind {A B} P (R : A -> Assertion S) (Q : B -> Assertion S) E
    (m : M S A) (f : A -> M S B) :
  triple P m R E -> (forall a, triple (R a) (f a) Q E) ->
  triple P (bind m f) Q E.
Proof.
  intros Hm Hf s t0 HP. unfold bind. specialize (Hm s t0 HP).
  destruct (m s) as [[[a|e] s1] t1]; [|assumption].
  specialize (Hf a s1 (t0 ++ t1) Hm).
  destruct (f a s1) as [[[b|e] s2] t2]; now rewrite app_assoc.
Qed.

Lemma triple_try_except {A} P (Q : A -> Assertion S) (R E : PyExc -> Assertion S)
    (m : M S A) (h : PyExc -> M S A) :
  triple P m Q R -> (forall e, triple (R e) (h e) Q E) ->
  triple P (try_except m h) Q E.
Proof.
  intros Hm Hh s t0 HP. unfold try_except. specialize (Hm s t0 HP).
  destruct (m s) as [[[a|e] s1] t1]; [assumption|].
  specialize (Hh e s1 (t0 ++ t1) Hm).
  destruct (h e s1) as [[[b|e'] s2] t2]; now rewrite app_assoc.
Qed.

Lemma triple_if {A} P (Q : A -> Assertion S) E (b : bool) (m1 m2 : M S A) :
  triple P m1 Q E -> triple P m2 Q E ->
  triple P (if b then m1 else m2) Q E.
Proof. now destruct b. Qed.

Lemma triple_subscript P E (d : PyDict) (key : string) :
  (forall e s t, P s t -> E e s t) ->
  triple P (subscript d key) (fun _ => P) E.
Proof.
  intros HE s t0 HP. unfold subscript.
  destruct (dict_get key d); simpl; rewrite app_nil_r; auto.
Qed.

Lemma triple_subscript_val P E (v : PyVal) (key : string) :
  (forall e s t, P s t -> E e s t) ->
  triple P (subscript_val v key) (fun _ => P) E.
Proof.
  intros HE.
  destruct v as [| | | |d|]; simpl; try (now apply triple_subscript);
    intros s0 t0 HP; simpl; rewrite app_nil_r; now auto.
Qed.

Lemma sim_refl {A} (m : M S A) : sim m m.
Proof. now intros s. Qed.

Lemma sim_bind {A B} (m1 m2 : M S A) (f1 f2 : A -> M S B) :
  sim m1 m2 -> (forall a, sim (f1 a) (f2 a)) ->
  sim (bind m1 f1) (bind m2 f2).
Proof.
  intros Hm Hf s. unfold bind. specialize (Hm s).
  destruct (m1 s) as [[r1 s1] t1], (m2 s) as [[r2 s2] t2].
  simpl in Hm. injection Hm as -> ->.
  destruct r2 as [a|e]; [|reflexivity].
  specialize (Hf a s2).
  destruct (f1 a s2) as [[r1' s1'] t1'], (f2 a s2) as [[r2' s2'] t2'].
  simpl in *. congruence.
Qed.

Lemma sim_try_except {A} (m1 m2 : M S A) (h1 h2 : PyExc -> M S A) :
  sim m1 m2 -> (forall e, sim (h1 e) (h2 e)) ->
  sim (try_except m1 h1) (try_except m2 h2).
Proof.
  intros Hm Hh s. unfold try_except. specialize (Hm s).
  destruct (m1 s) as [[r1 s1] t1], (m2 s) as [[r2 s2] t2].
  simpl in Hm. injection Hm as -> ->.
  destruct r2 as [a|e]; [reflexivity|].
  specialize (Hh e s2).
  destruct (h1 e s2) as [[r1' s1'] t1'], (h2 e s2) as [[r2' s2'] t2'].
  simpl in *. congruence.
Qed.

Lemma sim_if {A} (b : bool) (m1 m2 n1 n2 : M S A) :
  sim m1 n1 -> sim m2 n2 ->
  sim (if b then m1 else m2) (if b then n1 else n2).
Proof. now destruct b. Qed.

End Rules.

(** ** Traces *)

Lemma observe_app (t1 t2 : list Effect) :
  observe (t1 ++ t2) = observe t1 ++ observe t2.
Proof. apply filter_app. Qed.

Lemma expected_app (ls : list Listener) (t1 t2 : list Effect) :
  expected ls (t1 ++ t2) = expected ls t1 ++ expected ls t2.
Proof. apply flat_map_app. Qed.

Lemma observe_notify_loop (ls : list Listener) (event : WorkflowEvent) :
  observe (notify_loop ls event) = deliveries ls event.
Proof.
  induction ls as [|l ls IH]; simpl; [reflexivity|].
  rewrite <- IH.
  destruct (is_coroutine l), (call l event); reflexivity.
Qed.

Lemma expected_notify_loop (ls ls' : list Listener) (event : WorkflowEvent) :
  expected ls (notify_loop ls' event) = [].
Proof.
  induction ls' as [|l ls' IH]; simpl; [reflexivity|].
  destruct (is_coroutine l), (call l event); simpl; exact IH.
Qed.

(** An append followed by the notification of the appended event. *)
Lemma observe_append_notify (ls : list Listener) (sid : string)
    (event : WorkflowEvent) (t0 : list Effect) :
  observe t0 = expected ls t0 ->
  observe ((t0 ++ [Appended sid event]) ++ notify_loop ls event)
  = expected ls ((t0 ++ [Appended sid event]) ++ notify_loop ls event).
Proof.
  intros H. rewrite !observe_app, !expected_app, H.
  rewrite observe_notify_loop, expected_notify_loop. simpl.
  rewrite !app_nil_r, <- app_assoc. reflexivity.
Qed.

(** ** The primitive steps of a handler *)

Section Steps.
Variable G : Globals.
Variable I : WorkflowSession -> Prop.
Variable self : WorkflowController.
Hypothesis I_stable : stable G I.

Let ls := event_listeners self.

Lemma triple_add_event st d m E :
  st <> IDLE ->
  triple (Settled I ls) (add_event G st d m) (fun _ => Pending I ls) E.
Proof.
  intros Hst s t0 [HI Hobs]. simpl. split.
  - now apply (proj1 I_stable st d m s).
  - exists t0, (session_id s), (WorkflowEvent_new G st d m).
    repeat split; [apply last_item_snoc | assumption].
Qed.

Lemma triple_notify_last E :
  triple (Pending I ls) (notify_last self) (fun _ => Settled I ls) E.
Proof.
  intros s t0 [HI (t1 & sid & event & -> & Hlast & Hobs)].
  unfold notify_last, bind, events_last. rewrite Hlast. simpl.
  split; [assumption|].
  now apply observe_append_notify.
Qed.

Lemma triple_set_browser_session_id v E :
  triple (Settled I ls) (set_browser_session_id v) (fun _ => Settled I ls) E.
Proof.
  intros s t0 [HI Hobs]. simpl. rewrite app_nil_r. split; [|assumption].
  now apply (proj1 (proj2 I_stable) v s).
Qed.

Lemma triple_set_current_email_id v E :
  triple (Settled I ls) (set_current_email_id v) (fun _ => Settled I ls) E.
Proof.
  intros s t0 [HI Hobs]. simpl. rewrite app_nil_r. split; [|assumption].
  now apply (proj1 (proj2 (proj2 I_stable)) v s).
Qed.

Lemma triple_set_draft_response v E :
  triple (Settled I ls) (set_draft_response v) (fun _ => Settled I ls) E.
Proof.
  intros s t0 [HI Hobs]. simpl. rewrite app_nil_r. split; [|assumption].
  now apply (proj2 (proj2 (proj2 I_stable)) v s).
Qed.

Lemma triple_await c o (E : PyExc -> Assertion WorkflowSession) :
  (forall e s t, Settled I ls s t -> E e s t) ->
  triple (Settled I ls) (await c o) (fun _ => Settled I ls) E.
Proof.
  intros HE s t0 [HI Hobs].
  assert (Settled I ls s (t0 ++ [Called c])) as H.
  { split; [assumption|]. rewrite observe_app, expected_app. simpl.
    now rewrite !app_nil_r. }
  unfold await. destruct o; auto.
Qed.

End Steps.

(** One step of a handler body, then the rest. *)
Ltac handler_step :=
  first
    [ apply triple_ret
    | apply triple_if
    | match goal with
      | |- triple ?P (try_except _ _) _ _ =>
          apply triple_try_except with (R := fun _ => P); [ | intros ? ]
      end
    | eapply triple_bind;
      [ first
          [ apply triple_add_event; [assumption | discriminate]
          | apply triple_notify_last
          | apply triple_get
          | eapply triple_set_browser_session_id; eassumption
          | eapply triple_set_current_email_id; eassumption
          | eapply triple_set_draft_response; eassumption
          | apply triple_await; now intros
          | apply triple_subscript; now intros
          | apply triple_subscript_val; now intros ]
      | intros ? ] ].

Ltac handler_triple := cbv zeta; repeat (cbv beta; handler_step).

Section HandlerTriples.
Variable G : Globals.
Variables repr type_error_text : PyVal -> string.
Variable I : WorkflowSession -> Prop.
Variable self : WorkflowController.
Variable svc : Services.
Hypothesis I_stable : stable G I.

Let ls := event_listeners self.
Let rest : Assertion WorkflowSession := Settled I ls.

Lemma triple_login E :
  triple rest (_handle_login_command G repr type_error_text self svc)
    (fun _ => rest) E.
Proof.
  unfold _handle_login_command, rest, ls. handler_triple.
Qed.

Lemma triple_inbox E :
  triple rest (_handle_inbox_command G repr type_error_text self svc)
    (fun _ => rest) E.
Proof.
  unfold _handle_inbox_command, rest, ls. handler_triple.
Qed.

Lemma triple_read_email E :
  triple rest (_handle_read_email_command G repr type_error_text self svc)
    (fun _ => rest) E.
Proof.
  unfold _handle_read_email_command, rest, ls. handler_triple.
Qed.

Lemma triple_generate_response E :
  triple rest (_handle_generate_response_command G type_error_text self svc)
    (fun _ => rest) E.
Proof.
  unfold _handle_generate_response_command, rest, ls. handler_triple.
Qed.

Lemma triple_submit_response send E :
  triple rest
    (_handle_submit_response_command G type_error_text self svc send)
    (fun _ => rest) E.
Proof.
  unfold _handle_submit_response_command, rest, ls. handler_triple.
Qed.

(** [_process_command] keeps the invariant, pairs every append with its
    notification, and lets no exception escape. *)
Lemma triple_process_command command :
  triple rest (_process_command G repr type_error_text self svc command)
    (fun _ => rest) (fun _ _ _ => False).
Proof.
  unfold _process_command, rest, ls. cbv zeta.
  eapply triple_bind;
    [apply triple_add_event; [assumption|discriminate]|intros ?].
  eapply triple_bind; [apply triple_notify_last|intros ?].
  apply triple_try_except with (R := fun _ => Settled I (event_listeners self)).
  - repeat apply triple_if.
    + apply triple_login.
    + apply triple_inbox.
    + apply triple_read_email.
    + apply triple_generate_response.
    + apply triple_submit_response.
    + apply triple_submit_response.
    + handler_triple.
  - intros e. handler_triple.
Qed.

End HandlerTriples.

(** ** Listeners do not influence results *)

Lemma sim_notify_last (self1 self2 : WorkflowController) :
  sim (notify_last self1) (notify_last self2).
Proof.
  intros s. unfold notify_last, bind, events_last.
  destruct (last_item (events s)); reflexivity.
Qed.

Ltac sim_step self1 self2 :=
  first
    [ apply sim_if
    | apply sim_try_except; [ | intros ? ]
    | apply sim_bind;
      [ first [ apply (sim_notify_last self1 self2) | apply sim_refl ]
      | intros ? ]
    | apply sim_refl ].

Section HandlerSims.
Variable G : Globals.
Variables repr type_error_text : PyVal -> string.
Variables self1 self2 : WorkflowController.
Variable svc : Services.

Lemma sim_login :
  sim (_handle_login_command G repr type_error_text self1 svc)
      (_handle_login_command G repr type_error_text self2 svc).
Proof.
  unfold _handle_login_command. repeat sim_step self1 self2.
Qed.

Lemma sim_inbox :
  sim (_handle_inbox_command G repr type_error_text self1 svc)
      (_handle_inbox_command G repr type_error_text self2 svc).
Proof.
  unfold _handle_inbox_command. repeat sim_step self1 self2.
Qed.

Lemma sim_read_email :
  sim (_handle_read_email_command G repr type_error_text self1 svc)
      (_handle_read_email_command G repr type_error_text self2 svc).
Proof.
  unfold _handle_read_email_command. repeat sim_step self1 self2.
Qed.

Lemma sim_generate_response :
  sim (_handle_generate_response_command G type_error_text self1 svc)
      (_handle_generate_response_command G type_error_text self2 svc).
Proof.
  unfold _handle_generate_response_command. repeat sim_step self1 self2.
Qed.

Lemma sim_submit_response send :
  sim (_handle_submit_response_command G type_error_text self1 svc send)
      (_handle_submit_response_command G type_error_text self2 svc send).
Proof.
  unfold _handle_submit_response_command. cbv zeta.
  repeat sim_step self1 self2.
Qed.

Lemma sim_process_command command :
  sim (_process_command G repr type_error_text self1 svc command)
      (_process_command G repr type_error_text self2 svc command).
Proof.
  unfold _process_command. cbv zeta.
  apply sim_bind; [apply sim_refl|intros ?].
  apply sim_bind; [apply sim_notify_last|intros ?].
  apply sim_try_except.
  - repeat apply sim_if.
    + apply sim_login.
    + apply sim_inbox.
    + apply sim_read_email.
    + apply sim_generate_response.
    + apply sim_submit_response.
    + apply sim_submit_response.
    + repeat sim_step self1 self2.
  - intros e. repeat sim_step self1 self2.
Qed.

End HandlerSims.

(** ** Invariants of a session *)

Lemma Inv_stable (G : Globals) (key : string) : stable G (Inv G key).
Proof.
  repeat split; simpl; try tauto;
    try (destruct H as (? & ? & ? & ? & ?); assumption);
    try (destruct H0 as (? & ? & ? & ? & ?); assumption).
  - exists (WorkflowEvent_new G st d m). split; [apply last_item_snoc|reflexivity].
  - destruct H0 as (_ & _ & _ & _ & Hts).
    apply Forall_app. split; [assumption|]. now constructor.
Qed.

Lemma True_stable (G : Globals) : stable G (fun _ => True).
Proof. now repeat split. Qed.

Lemma Inv_created_session (G : Globals) (uuid4 : string) :
  Inv G uuid4 (created_session G uuid4).
Proof.
  repeat split; simpl; try discriminate.
  - exists (created_event G). now split.
  - now repeat constructor.
Qed.

(** ** Running the operations of the registry *)

Lemma dict_get_is_in {V} (k : string) (d : list (string * V)) (v : V) :
  dict_get k d = Some v -> dict_in k d = true.
Proof. unfold dict_in. now intros ->. Qed.

Lemma zoom_run {A} (key : string) (m : M WorkflowSession A)
    (self : WorkflowController) (session : WorkflowSession) :
  dict_get key (sessions self) = Some session ->
  zoom key m self
  = (result_of (m session),
     mkController (dict_set key (state_of (m session)) (sessions self))
       (event_listeners self),
     trace_of (m session)).
Proof.
  intros H. unfold zoom. rewrite H.
  now destruct (m session) as [[r s'] t].
Qed.

Lemma create_session_run (G : Globals) (uuid4 : string)
    (self : WorkflowController) :
  create_session G uuid4 self
  = (Val [("session_id", PStr uuid4); ("status", PStr "created")],
     mkController (dict_set uuid4 (created_session G uuid4) (sessions self))
       (event_listeners self),
     Appended uuid4 (created_event G) :: Stored uuid4
       :: notify_loop (event_listeners self) (created_event G)).
Proof.
  unfold create_session, bind, on_object, store, get, modify, emit,
    _notify_listeners, ret. simpl.
  now rewrite app_nil_r.
Qed.

Lemma end_session_missing (G : Globals) (svc : Services) (sid : string)
    (self : WorkflowController) :
  dict_in sid (sessions self) = false ->
  end_session G svc sid self = (Val (error_result "Session not found"), self, []).
Proof.
  intros H. unfold end_session, bind, get. simpl. now rewrite H.
Qed.

Lemma end_session_present (G : Globals) (svc : Services) (sid : string)
    (self : WorkflowController) (session : WorkflowSession) :
  dict_get sid (sessions self) = Some session ->
  end_session G svc sid self
  = (Val [("status", PStr "ended"); ("session_id", PStr sid)],
     mkController (dict_del sid (sessions self)) (event_listeners self),
     (if truthy (browser_session_id session)
      then [Called (Call_manage_session "end" (browser_session_id session))]
      else [])
     ++ Appended (session_id session) (ended_event G)
     :: notify_loop (event_listeners self) (ended_event G)
     ++ [Deleted sid]).
Proof.
  intros H. unfold end_session, bind at 1, get. simpl.
  rewrite (dict_get_is_in _ _ _ H). simpl.
  unfold bind at 1, session_at. rewrite H.
  unfold bind at 1.
  set (closing := if truthy (browser_session_id session) then _ else ret tt).
  assert (closing self
          = (Val tt, self,
             if truthy (browser_session_id session)
             then [Called (Call_manage_session "end" (browser_session_id session))]
             else [])) as ->.
  { unfold closing. destruct (truthy (browser_session_id session)).
    - unfold try_except, bind, await.
      now destruct (manage_session svc "end" (browser_session_id session)).
    - reflexivity. }
  unfold bind at 1. rewrite (zoom_run _ _ _ _ H). simpl.
  unfold bind at 1. erewrite zoom_run by apply dict_get_set_same.
  unfold events_last at 1 2 3. simpl. rewrite last_item_snoc. simpl.
  unfold remove, bind, get, modify, emit, ret, raise, _notify_listeners,
    dict_in, state_of.
  cbn. rewrite dict_get_set_same. cbn.
  rewrite !dict_del_set.
  reflexivity.
Qed.

Lemma bind_ret_state {S A B} (m : M S A) (f : A -> B) (s : S) :
  state_of (bind m (fun a => ret (f a)) s) = state_of (m s).
Proof.
  unfold bind, state_of. now destruct (m s) as [[[a|e] s1] t1].
Qed.

Lemma bind_ret_trace {S A B} (m : M S A) (f : A -> B) (s : S) :
  trace_of (bind m (fun a => ret (f a)) s) = trace_of (m s).
Proof.
  unfold bind, trace_of. destruct (m s) as [[[a|e] s1] t1]; simpl;
    [apply app_nil_r|reflexivity].
Qed.

Lemma bind_get_run {S B} (f : S -> M S B) (s : S) : bind get f s = f s s.
Proof. unfold bind, get. now destruct (f s s) as [[r s2] t2]. Qed.

Lemma bind_ret_result {S A B} (m : M S A) (f : A -> B) (s : S) :
  result_of (bind m (fun a => ret (f a)) s)
  = match result_of (m s) with Val a => Val (f a) | Exn e => Exn e end.
Proof.
  unfold bind, result_of. now destruct (m s) as [[[a|e] s1] t1].
Qed.

(** ** The active session *)

Lemma insert_desc_In {A} (key : A -> Z) (x y : A) (xs : list A) :
  In y (insert_desc key x xs) -> y = x \/ In y xs.
Proof.
  induction xs as [|z xs IH]; simpl.
  - intros [->|[]]. now left.
  - destruct (Z.leb (key z) (key x)); simpl.
    + intros [->|H]; [now left|now right].
    + intros [->|H]; [right; now left|].
      destruct (IH H) as [->|?]; [now left|right; now right].
Qed.

Lemma sorted_reverse_In {A} (key : A -> Z) (y : A) (xs : list A) :
  In y (sorted_reverse key xs) -> In y xs.
Proof.
  induction xs as [|x xs IH]; simpl; [tauto|].
  intros H. apply insert_desc_In in H as [->|H]; [now left|right; auto].
Qed.

Lemma hd_error_In {A} (x : A) (xs : list A) : hd_error xs = Some x -> In x xs.
Proof. destruct xs; simpl; [discriminate|]. intros [= ->]. now left. Qed.

Lemma active_session_In (self : WorkflowController) (key : string)
    (s : WorkflowSession) :
  _get_active_session self = Some (key, s) -> In (key, s) (sessions self).
Proof.
  unfold _get_active_session.
  destruct (sessions self) as [|entry rest] eqn:Hs; [discriminate|].
  set (active := filter _ (entry :: rest)).
  destruct active as [|a act] eqn:Ha; [discriminate|].
  intros H. apply hd_error_In, sorted_reverse_In in H.
  rewrite <- Ha in H. unfold active in H.
  now apply filter_In in H as [H _].
Qed.

Lemma dict_get_of_In {V} (k : string) (v : V) (d : list (string * V)) :
  In (k, v) d -> exists v', dict_get k d = Some v'.
Proof.
  induction d as [|[k0 v0] d IH]; simpl; [tauto|].
  destruct (String.eqb_spec k k0) as [->|Hne]; [now eexists|].
  intros [[= -> ->]|H]; [contradiction|auto].
Qed.

(** ** Running a command *)

Section Commands.
Variable G : Globals.
Variables repr type_error_text : PyVal -> string.
Variable svc : Services.

Let pc (self : WorkflowController) (command : string) :=
  _process_command G repr type_error_text self svc command.

(** [_process_command] returns a result, whatever the collaborators and the
    listeners do. *)
Lemma process_command_returns (I : WorkflowSession -> Prop)
    (self : WorkflowController) (command : string) (s : WorkflowSession) :
  stable G I -> I s ->
  exists result,
    result_of (pc self command s) = Val result
    /\ I (state_of (pc self command s))
    /\ observe (trace_of (pc self command s))
       = expected (event_listeners self) (trace_of (pc self command s)).
Proof.
  intros HI Hs.
  pose proof (triple_process_command G repr type_error_text I self svc HI
                command s [] (conj Hs eq_refl)) as H.
  unfold pc. destruct (_process_command _ _ _ _ _ _ s) as [[[r|e] s'] t];
    simpl in H; [|contradiction].
  destruct H as [H1 H2]. exists r. now repeat split.
Qed.

Lemma process_voice_command_active (uuid4 command key : string)
    (self : WorkflowController) (s0 s1 : WorkflowSession) :
  _get_active_session self = Some (key, s0) ->
  dict_get key (sessions self) = Some s1 ->
  process_voice_command G repr type_error_text svc uuid4 command self
  = (result_of (pc self command s1),
     mkController (dict_set key (state_of (pc self command s1)) (sessions self))
       (event_listeners self),
     trace_of (pc self command s1)).
Proof.
  intros Hact Hget. unfold process_voice_command, bind at 1, get.
  rewrite Hact. rewrite (zoom_run _ _ _ _ Hget). fold (pc self command).
  now destruct (result_of (pc self command s1)).
Qed.

Lemma process_voice_command_fresh (uuid4 command : string)
    (self : WorkflowController) :
  _get_active_session self = None ->
  let self1 := state_of (create_session G uuid4 self) in
  let s0 := created_session G uuid4 in
  process_voice_command G repr type_error_text svc uuid4 command self
  = (result_of (pc self1 command s0),
     mkController (dict_set uuid4 (state_of (pc self1 command s0)) (sessions self1))
       (event_listeners self),
     trace_of (create_session G uuid4 self) ++ trace_of (pc self1 command s0)).
Proof.
  intros Hact self1 s0. unfold process_voice_command, bind at 1, get.
  rewrite Hact. unfold bind at 1. subst self1.
  rewrite create_session_run. unfold state_of, trace_of. simpl.
  set (self1 := mkController _ _).
  unfold bind at 1.
  replace (subscript [("session_id", PStr uuid4); ("status", PStr "created")]
             "session_id" self1)
    with (@Val PyVal (PStr uuid4), self1, @nil Effect) by reflexivity.
  cbv beta iota. unfold bind at 1, get.
  rewrite (zoom_run uuid4 _ self1 s0) by apply dict_get_set_same.
  fold (pc self1 command). unfold result_of, state_of, trace_of. simpl.
  reflexivity.
Qed.

End Commands.

(** ** What every operation maintains *)

Lemma RegInv_set (G : Globals) (self : WorkflowController) (key : string)
    (s : WorkflowSession) (listeners : list Listener) :
  RegInv G self -> Inv G key s ->
  RegInv G (mkController (dict_set key s (sessions self)) listeners).
Proof.
  intros [Hnd Hall] Hs. split; simpl.
  - now apply dict_set_NoDup.
  - intros k s' Hin. apply dict_set_In in Hin as [[-> ->]|Hin]; auto.
Qed.

Lemma RegInv_del (G : Globals) (self : WorkflowController) (key : string)
    (listeners : list Listener) :
  RegInv G self ->
  RegInv G (mkController (dict_del key (sessions self)) listeners).
Proof.
  intros [Hnd Hall]. split; simpl.
  - now apply dict_del_NoDup.
  - intros k s' Hin. apply dict_del_In in Hin. auto.
Qed.

Lemma observe_expected_app (ls : list Listener) (t1 t2 : list Effect) :
  observe t1 = expected ls t1 -> observe t2 = expected ls t2 ->
  observe (t1 ++ t2) = expected ls (t1 ++ t2).
Proof. intros H1 H2. now rewrite observe_app, expected_app, H1, H2. Qed.

Lemma observe_expected_notify (ls : list Listener) (sid : string)
    (event : WorkflowEvent) :
  observe (Appended sid event :: notify_loop ls event)
  = expected ls (Appended sid event :: notify_loop ls event).
Proof.
  apply (observe_append_notify ls sid event []). reflexivity.
Qed.

Section Operations.
Variable G : Globals.
Variables repr type_error_text : PyVal -> string.

Lemma create_session_ok (uuid4 : string) (self : WorkflowController) :
  well_behaved G self (create_session G uuid4 self).
Proof.
  rewrite create_session_run.
  unfold well_behaved, result_of, state_of, trace_of.
  cbn [fst snd event_listeners].
  split; [now eexists|]. split; [|split; [reflexivity|]].
  - change (Appended uuid4 (created_event G) :: Stored uuid4
              :: notify_loop (event_listeners self) (created_event G))
      with (([] ++ [Appended uuid4 (created_event G)])
              ++ [Stored uuid4]
              ++ notify_loop (event_listeners self) (created_event G)).
    rewrite !observe_app, !expected_app.
    rewrite observe_notify_loop, expected_notify_loop. simpl.
    now rewrite !app_nil_r.
  - intros H. apply RegInv_set; [assumption|apply Inv_created_session].
Qed.

Lemma end_session_ok (svc : Services) (sid : string)
    (self : WorkflowController) :
  well_behaved G self (end_session G svc sid self).
Proof.
  destruct (dict_get sid (sessions self)) as [session|] eqn:Hget.
  - rewrite (end_session_present _ _ _ _ _ Hget).
    unfold well_behaved, result_of, state_of, trace_of.
    cbn [fst snd event_listeners].
    split; [now eexists|]. split; [|split; [reflexivity|]].
    + apply observe_expected_app.
      * now destruct (truthy (browser_session_id session)).
      * change (Appended (session_id session) (ended_event G)
                  :: notify_loop (event_listeners self) (ended_event G)
                  ++ [Deleted sid])
          with ((Appended (session_id session) (ended_event G)
                   :: notify_loop (event_listeners self) (ended_event G))
                  ++ [Deleted sid]).
        apply observe_expected_app; [apply observe_expected_notify|reflexivity].
    + intros H. now apply RegInv_del.
  - rewrite end_session_missing by (unfold dict_in; now rewrite Hget).
    unfold well_behaved, result_of, state_of, trace_of.
    cbn [fst snd event_listeners].
    split; [now eexists|]. split; [reflexivity|split; [reflexivity|tauto]].
Qed.

Lemma zoom_process_command_ok (svc : Services) (command key : string)
    (self self' : WorkflowController) (s : WorkflowSession) :
  dict_get key (sessions self) = Some s ->
  event_listeners self' = event_listeners self ->
  well_behaved G self
    (zoom key (_process_command G repr type_error_text self' svc command) self).
Proof.
  intros Hget Hls. rewrite (zoom_run _ _ _ _ Hget).
  unfold well_behaved.
  change (result_of (?r, ?c, ?t)) with r.
  change (trace_of (?r, ?c, ?t)) with t.
  change (state_of (?r, ?c, ?t)) with c.
  destruct (process_command_returns G repr type_error_text svc
              (fun _ => True) self' command s (True_stable G) I)
    as (r & Hr & _ & Htr).
  split; [now exists r|]. split; [|split; [reflexivity|]].
  - rewrite Hls in Htr. exact Htr.
  - intros Hreg. apply RegInv_set; [assumption|].
    destruct Hreg as [_ Hall].
    destruct (process_command_returns G repr type_error_text svc
                (Inv G key) self' command s (Inv_stable G key))
      as (_ & _ & Hinv & _); [|exact Hinv].
    apply Hall. now apply dict_get_In.
Qed.

Lemma process_voice_command_ok (svc : Services) (uuid4 command : string)
    (self : WorkflowController) :
  well_behaved G self
    (process_voice_command G repr type_error_text svc uuid4 command self).
Proof.
  destruct (_get_active_session self) as [[key s0]|] eqn:Hact.
  - destruct (dict_get_of_In key s0 (sessions self)
                (active_session_In _ _ _ Hact)) as [s1 Hget].
    rewrite (process_voice_command_active _ _ _ _ _ _ _ _ _ _ Hact Hget).
    rewrite <- (zoom_run _ _ _ _ Hget).
    now apply zoom_process_command_ok with (s := s1).
  - rewrite (process_voice_command_fresh _ _ _ _ _ _ _ Hact).
    pose proof (create_session_ok uuid4 self) as (_ & Htr & Hls & Hreg).
    set (self1 := state_of (create_session G uuid4 self)) in *.
    assert (dict_get uuid4 (sessions self1) = Some (created_session G uuid4))
      as Hget.
    { unfold self1. rewrite create_session_run. apply dict_get_set_same. }
    pose proof (zoom_process_command_ok svc command uuid4 self1 self1 _
                  Hget eq_refl) as (Hr & Htr' & Hls' & Hreg').
    rewrite (zoom_run _ _ _ _ Hget) in Hr, Htr', Hls', Hreg'.
    unfold well_behaved, result_of, state_of, trace_of in *.
    cbn [fst snd event_listeners] in *.
    rewrite Hls in *.
    split; [assumption|]. split; [|split; [reflexivity|]].
    + now apply observe_expected_app.
    + intros H. rewrite <- Hls. auto.
Qed.

Lemma bind_ret_ok {A B} (f : A -> B) (self : WorkflowController)
    (m : M WorkflowController A) :
  well_behaved G self (m self) ->
  well_behaved G self (bind m (fun a => ret (f a)) self).
Proof.
  intros ([a Hr] & Htr & Hls & Hreg). unfold well_behaved.
  rewrite bind_ret_result, bind_ret_state, bind_ret_trace, Hr.
  split; [now eexists|]. auto.
Qed.

Lemma ret_ok {A} (a : A) (self : WorkflowController) :
  well_behaved G self (ret a self).
Proof.
  unfold well_behaved, result_of, state_of, trace_of. simpl.
  split; [now eexists|]. auto.
Qed.

Lemma handle_voice_event_ok (svc : Services) (uuid4 : string)
    (event : VoiceEvent) (self : WorkflowController) :
  well_behaved G self
    (_handle_voice_event G repr type_error_text svc uuid4 event self).
Proof.
  destruct event as [|command|]; simpl.
  - apply (bind_ret_ok (fun _ => tt)), create_session_ok.
  - unfold bind at 1, get.
    destruct (_get_active_session self) as [[key s0]|] eqn:Hact.
    + destruct (dict_get_of_In key s0 (sessions self)
                  (active_session_In _ _ _ Hact)) as [s1 Hget].
      pose proof (zoom_process_command_ok svc command key self self s1
                    Hget eq_refl) as Hz.
      apply (bind_ret_ok (fun _ => tt)) in Hz.
      destruct (bind _ _ self) as [[r c] t]. simpl. exact Hz.
    + apply ret_ok.
  - apply ret_ok.
Qed.

Lemma perform_ok (op : Op) (self : WorkflowController) :
  (exists a, result_of (perform G repr type_error_text op self) = Val a)
  /\ observe (trace_of (perform G repr type_error_text op self))
     = expected (event_listeners self)
         (trace_of (perform G repr type_error_text op self))
  /\ (RegInv G self ->
      RegInv G (state_of (perform G repr type_error_text op self))).
Proof.
  assert (forall A (x : Res A * WorkflowController * list Effect),
             well_behaved G self x ->
             (exists a, result_of x = Val a)
             /\ observe (trace_of x)
                = expected (event_listeners self) (trace_of x)
             /\ (RegInv G self -> RegInv G (state_of x))) as weaken.
  { intros A x (? & ? & ? & ?). auto. }
  destruct op as [uuid4|svc sid|svc uuid4 command|svc uuid4 event|callback];
    cbn [perform].
  - apply weaken, (bind_ret_ok Some), create_session_ok.
  - apply weaken, (bind_ret_ok Some), end_session_ok.
  - apply weaken, (bind_ret_ok Some), process_voice_command_ok.
  - apply weaken, (bind_ret_ok (fun _ => None)), handle_voice_event_ok.
  - unfold result_of, state_of, trace_of. cbn.
    split; [now eexists|]. split; [reflexivity|]. intros [H1 H2]. now split.
Qed.

Lemma reachable_RegInv (self : WorkflowController) :
  reachable G repr type_error_text self -> RegInv G self.
Proof.
  induction 1 as [|self op _ IH].
  - split; simpl; [constructor|tauto].
  - now apply perform_ok.
Qed.

End Operations.

(** ** The listener list does not enter results or sessions *)

Section ListenersIrrelevant.
Variable G : Globals.
Variables repr type_error_text : PyVal -> string.

Lemma active_session_same (self1 self2 : WorkflowController) :
  sessions self1 = sessions self2 ->
  _get_active_session self1 = _get_active_session self2.
Proof. unfold _get_active_session. now intros ->. Qed.

Lemma sim_result_state {S A} (m1 m2 : M S A) (s : S) :
  sim m1 m2 ->
  result_of (m1 s) = result_of (m2 s) /\ state_of (m1 s) = state_of (m2 s).
Proof.
  intros H. specialize (H s). unfold result_of, state_of.
  destruct (m1 s) as [[r1 s1] t1], (m2 s) as [[r2 s2] t2].
  simpl in *. now injection H as -> ->.
Qed.

Lemma zoom_same (svc : Services) (command key : string)
    (self1 self2 h1 h2 : WorkflowController) :
  sessions self1 = sessions self2 ->
  let z h self :=
    zoom key (_process_command G repr type_error_text h svc command) self in
  result_of (z h1 self1) = result_of (z h2 self2)
  /\ sessions (state_of (z h1 self1)) = sessions (state_of (z h2 self2)).
Proof.
  intros Hs z. unfold z, zoom. rewrite <- Hs.
  destruct (dict_get key (sessions self1)) as [s|]; [|now split].
  destruct (sim_result_state _ _ s
              (sim_process_command G repr type_error_text h1 h2 svc command))
    as [Hr Hst].
  unfold result_of, state_of in *.
  destruct (_process_command _ _ _ h1 _ _ s) as [[r1 s1] t1].
  destruct (_process_command _ _ _ h2 _ _ s) as [[r2 s2] t2].
  simpl in *. subst. now split.
Qed.

Lemma create_session_same (uuid4 : string) (self1 self2 : WorkflowController) :
  sessions self1 = sessions self2 ->
  result_of (create_session G uuid4 self1)
  = result_of (create_session G uuid4 self2)
  /\ sessions (state_of (create_session G uuid4 self1))
     = sessions (state_of (create_session G uuid4 self2)).
Proof.
  intros Hs. rewrite !create_session_run. unfold result_of, state_of. simpl.
  now rewrite Hs.
Qed.

Lemma end_session_same (svc : Services) (sid : string)
    (self1 self2 : WorkflowController) :
  sessions self1 = sessions self2 ->
  result_of (end_session G svc sid self1)
  = result_of (end_session G svc sid self2)
  /\ sessions (state_of (end_session G svc sid self1))
     = sessions (state_of (end_session G svc sid self2)).
Proof.
  intros Hs.
  destruct (dict_get sid (sessions self1)) as [s|] eqn:Hget.
  - rewrite (end_session_present _ _ _ self1 s Hget).
    rewrite Hs in Hget. rewrite (end_session_present _ _ _ self2 s Hget).
    unfold result_of, state_of. simpl. now rewrite Hs.
  - assert (dict_in sid (sessions self1) = false) as Hin
      by (unfold dict_in; now rewrite Hget).
    rewrite (end_session_missing _ _ _ self1 Hin).
    rewrite Hs in Hin. rewrite (end_session_missing _ _ _ self2 Hin).
    now split.
Qed.

Lemma process_voice_command_same (svc : Services) (uuid4 command : string)
    (self1 self2 : WorkflowController) :
  sessions self1 = sessions self2 ->
  let pvc := process_voice_command G repr type_error_text svc uuid4 command in
  result_of (pvc self1) = result_of (pvc self2)
  /\ sessions (state_of (pvc self1)) = sessions (state_of (pvc self2)).
Proof.
  intros Hs pvc. unfold pvc.
  pose proof (active_session_same _ _ Hs) as Hact.
  destruct (_get_active_session self1) as [[key s0]|] eqn:Hact1;
    symmetry in Hact.
  - destruct (dict_get_of_In key s0 (sessions self1)
                (active_session_In _ _ _ Hact1)) as [s1 Hget].
    rewrite (process_voice_command_active _ _ _ _ _ _ _ _ _ _ Hact1 Hget).
    rewrite Hs in Hget.
    rewrite (process_voice_command_active _ _ _ _ _ _ _ _ _ _ Hact Hget).
    rewrite <- !(zoom_run _ _ _ _ Hget).
    rewrite <- Hs in Hget. rewrite <- (zoom_run _ _ self1 _ Hget).
    now apply zoom_same.
  - rewrite (process_voice_command_fresh _ _ _ _ _ _ _ Hact1).
    rewrite (process_voice_command_fresh _ _ _ _ _ _ _ Hact).
    rewrite !create_session_run. unfold state_of at 2 3 5 7 8 10. simpl.
    set (c1 := mkController _ (event_listeners self1)).
    set (c2 := mkController _ (event_listeners self2)).
    destruct (sim_result_state _ _ (created_session G uuid4)
                (sim_process_command G repr type_error_text c1 c2 svc command))
      as [Hr Hst].
    unfold result_of, state_of in *. simpl. rewrite Hr, Hst, Hs. now split.
Qed.

Lemma handle_voice_event_same (svc : Services) (uuid4 : string)
    (event : VoiceEvent) (self1 self2 : WorkflowController) :
  sessions self1 = sessions self2 ->
  let hve := _handle_voice_event G repr type_error_text svc uuid4 event in
  result_of (hve self1) = result_of (hve self2)
  /\ sessions (state_of (hve self1)) = sessions (state_of (hve self2)).
Proof.
  intros Hs hve. unfold hve.
  destruct event as [|command|]; cbn [_handle_voice_event].
  - rewrite !(bind_ret_result _ (fun _ => tt)), !(bind_ret_state _ (fun _ => tt)).
    destruct (create_session_same uuid4 _ _ Hs) as [-> ->]. now split.
  - rewrite !bind_get_run, <- (active_session_same _ _ Hs).
    destruct (_get_active_session self1) as [[key s0]|]; [|now split].
    pose proof (zoom_same svc command key self1 self2 self1 self2 Hs)
      as [Hr Hst].
    cbv zeta in Hr, Hst.
    rewrite !(bind_ret_result _ (fun _ => tt)), !(bind_ret_state _ (fun _ => tt)).
    rewrite Hr, Hst. now split.
  - now split.
Qed.

Lemma perform_same (op : Op) (self1 self2 : WorkflowController) :
  sessions self1 = sessions self2 ->
  let go := perform G repr type_error_text op in
  result_of (go self1) = result_of (go self2)
  /\ sessions (state_of (go self1)) = sessions (state_of (go self2)).
Proof.
  intros Hs go. unfold go.
  destruct op as [uuid4|svc sid|svc uuid4 command|svc uuid4 event|callback];
    cbn [perform].
  - rewrite !(bind_ret_result _ Some), !(bind_ret_state _ Some).
    destruct (create_session_same uuid4 _ _ Hs) as [-> ->]. now split.
  - rewrite !(bind_ret_result _ Some), !(bind_ret_state _ Some).
    destruct (end_session_same svc sid _ _ Hs) as [-> ->]. now split.
  - rewrite !(bind_ret_result _ Some), !(bind_ret_state _ Some).
    destruct (process_voice_command_same svc uuid4 command _ _ Hs)
      as [-> ->]. now split.
  - rewrite !(bind_ret_result _ (fun _ => None)),
      !(bind_ret_state _ (fun _ => None)).
    destruct (handle_voice_event_same svc uuid4 event _ _ Hs)
      as [-> ->]. now split.
  - unfold result_of, state_of. cbn. now split.
Qed.

End ListenersIrrelevant.

(** ** Reachable states and snapshots *)

Lemma reachable_run (G : Globals) (repr type_error_text : PyVal -> string)
    (schedule : list (datetime * Op)) (self : WorkflowController) :
  reachable G repr type_error_text self ->
  reachable G repr type_error_text (run G repr type_error_text schedule self).
Proof.
  revert self. induction schedule as [|[now op] rest IH]; intros self H.
  - exact H.
  - simpl. apply IH. now constructor.
Qed.

Lemma get_session_Some (self : WorkflowController) (sid : string)
    (info : SessionInfo) :
  get_session self sid = Some info ->
  exists s,
    dict_get sid (sessions self) = Some s
    /\ info_session_id info = session_id s
    /\ info_current_state info = current_state s.
Proof.
  unfold get_session. destruct (negb (dict_in sid (sessions self)));
    [discriminate|].
  destruct (dict_get sid (sessions self)) as [s|]; [|discriminate].
  intros [= <-]. now exists s.
Qed.

Lemma get_session_of_key (self : WorkflowController) (sid : string) :
  In sid (dict_keys (sessions self)) -> get_session self sid <> None.
Proof.
  intros Hin. unfold get_session, dict_in.
  destruct (dict_get sid (sessions self)) as [s|] eqn:Hget; [discriminate|].
  apply dict_get_None in Hget. contradiction.
Qed.

Lemma get_all_sessions_In (self : WorkflowController) (info : SessionInfo) :
  In (Some info) (get_all_sessions self) ->
  exists sid s,
    In (sid, s) (sessions self)
    /\ info_session_id info = session_id s
    /\ info_current_state info = current_state s.
Proof.
  unfold get_all_sessions. intros Hin.
  apply in_map_iff in Hin as (sid & Hget & _).
  apply get_session_Some in Hget as (s & Hget & ? & ?).
  exists sid, s. split; [now apply dict_get_In|now split].
Qed.

Lemma get_all_sessions_total (self : WorkflowController) :
  ~ In None (get_all_sessions self).
Proof.
  unfold get_all_sessions. intros Hin.
  apply in_map_iff in Hin as (sid & Hget & Hkey).
  now apply (get_session_of_key self sid).
Qed.

Lemma not_idle_filter (registry : list (string * WorkflowSession)) :
  (forall key s, In (key, s) registry -> current_state s <> IDLE) ->
  filter (fun entry =>
            negb (WorkflowState_eqb (current_state (snd entry)) IDLE))
         registry
  = registry.
Proof.
  intros Hidle. apply forallb_filter_id, forallb_forall. intros [key s] Hin.
  specialize (Hidle key s Hin). simpl.
  now destruct (current_state s).
Qed.

(** * The claims *)

(** C5.  [create_session] always yields a session in state [LISTENING] with
    exactly one event, of state [LISTENING]; the session is registered under
    the generated identifier (in place when the identifier is already a key,
    at the end of the registry otherwise); every listener is notified with
    that event, in order; and the identifier is returned with status
    "created". *)
Theorem C5_create_session (G : Globals) (uuid4 : string)
    (self : WorkflowController) :
  let outcome := create_session G uuid4 self in
  result_of outcome
  = Val [("session_id", PStr uuid4); ("status", PStr "created")]
  /\ exists session event,
       dict_get uuid4 (sessions (state_of outcome)) = Some session
       /\ sessions (state_of outcome) = dict_set uuid4 session (sessions self)
       /\ dict_keys (sessions (state_of outcome))
          = (if dict_in uuid4 (sessions self) then dict_keys (sessions self)
             else dict_keys (sessions self) ++ [uuid4])
       /\ session_id session = uuid4
       /\ current_state session = LISTENING
       /\ events session = [event]
       /\ state event = LISTENING
       /\ observe (trace_of outcome)
          = Appended uuid4 event :: deliveries (event_listeners self) event
       /\ trace_of outcome
          = Appended uuid4 event :: Stored uuid4
              :: notify_loop (event_listeners self) event.
Proof.
  cbv zeta. rewrite create_session_run.
  unfold result_of, state_of, trace_of. cbn [fst snd sessions].
  split; [reflexivity|].
  exists (created_session G uuid4), (created_event G).
  split; [apply dict_get_set_same|].
  split; [reflexivity|].
  split; [apply dict_set_keys|].
  repeat (split; [reflexivity|]).
  split; [|reflexivity].
  change (observe (Appended uuid4 (created_event G)
                     :: Stored uuid4
                     :: notify_loop (event_listeners self) (created_event G)))
    with (Appended uuid4 (created_event G)
            :: observe (notify_loop (event_listeners self) (created_event G))).
  now rewrite observe_notify_loop.
Qed.

(** C6.  [end_session] on an identifier that is not a key of the registry
    returns status "error" with the message "Session not found", performs no
    effect and leaves the controller, hence the registry, as it was. *)
Theorem C6_end_unknown_session (G : Globals) (svc : Services) (sid : string)
    (self : WorkflowController) :
  ~ In sid (dict_keys (sessions self)) ->
  let outcome := end_session G svc sid self in
  result_of outcome
  = Val [("status", PStr "error"); ("message", PStr "Session not found")]
  /\ state_of outcome = self
  /\ sessions (state_of outcome) = sessions self
  /\ length (sessions (state_of outcome)) = length (sessions self)
  /\ trace_of outcome = [].
Proof.
  intros Hnot. apply dict_in_false in Hnot. cbv zeta.
  rewrite (end_session_missing G svc sid self Hnot).
  now repeat split.
Qed.

Lemma C6_end_unknown_session_witness :
  let outcome :=
    end_session example_globals example_services "no-such-id" two_sessions in
  result_of outcome
  = Val [("status", PStr "error"); ("message", PStr "Session not found")]
  /\ state_of outcome = two_sessions
  /\ sessions (state_of outcome) = sessions two_sessions
  /\ length (sessions (state_of outcome)) = length (sessions two_sessions)
  /\ trace_of outcome = [].
Proof.
  apply (C6_end_unknown_session example_globals example_services
           "no-such-id" two_sessions).
  vm_compute. intros [H|[H|[]]]; discriminate H.
Defined.

(** C1.  In every state the controller can be in between two operations,
    each registered session has at least one event and its [current_state]
    is the state of the last one. *)
Theorem C1_current_state_is_last_event (G : Globals)
    (repr type_error_text : PyVal -> string) (self : WorkflowController)
    (key : string) (s : WorkflowSession) :
  reachable G repr type_error_text self ->
  In (key, s) (sessions self) ->
  (exists event,
      last_item (events s) = Some event /\ current_state s = state event)
  /\ 1 <= length (events s).
Proof.
  intros Hreach Hin.
  destruct (reachable_RegInv _ _ _ _ Hreach) as [_ Hall].
  destruct (Hall key s Hin) as (_ & _ & (event & Hlast & Hstate) & _).
  split; [now exists event|].
  now apply last_item_length with (x := event).
Qed.

Lemma C1_current_state_is_last_event_witness :
  exists s,
    dict_get "A" (sessions after_login) = Some s
    /\ (exists event,
           last_item (events s) = Some event /\ current_state s = state event)
    /\ 1 <= length (events s).
Proof.
  destruct (dict_get "A" (sessions after_login)) as [s|] eqn:Hget;
    [|vm_compute in Hget; discriminate Hget].
  exists s. split; [reflexivity|].
  apply (C1_current_state_is_last_event example_globals example_text
           example_text after_login "A" s).
  - apply reachable_run, reachable_run, reachable_init.
  - now apply dict_get_In.
Defined.

Lemma get_session_snapshot (self : WorkflowController) (sid : string)
    (s : WorkflowSession) :
  dict_get sid (sessions self) = Some s ->
  get_session self sid = Some (snapshot_of s).
Proof.
  intros H. unfold get_session, dict_in. rewrite H. cbn [negb].
  unfold snapshot_of. now destruct (events s).
Qed.

Lemma dict_get_set_other {V} (k key : string) (v : V)
    (d : list (string * V)) :
  k <> key -> dict_get k (dict_set key v d) = dict_get k d.
Proof.
  intros Hne. induction d as [|[k0 v0] d IH]; simpl.
  - destruct (String.eqb_spec k key); [contradiction|reflexivity].
  - destruct (String.eqb_spec key k0) as [->|Hk]; simpl.
    + destruct (String.eqb_spec k k0); [contradiction|reflexivity].
    + now rewrite IH.
Qed.

(** Between two operations no registered session is in state [IDLE]: no
    snapshot returned by [get_session] or [get_all_sessions] shows [IDLE],
    and the filter of [_get_active_session] keeps every registered
    session. *)
Lemma no_idle_session_at_rest (G : Globals)
    (repr type_error_text : PyVal -> string) (self : WorkflowController) :
  reachable G repr type_error_text self ->
  (forall key s, In (key, s) (sessions self) -> current_state s <> IDLE)
  /\ (forall sid info,
         get_session self sid = Some info -> info_current_state info <> IDLE)
  /\ (forall info,
         In (Some info) (get_all_sessions self) ->
         info_current_state info <> IDLE)
  /\ filter (fun entry =>
               negb (WorkflowState_eqb (current_state (snd entry)) IDLE))
            (sessions self)
     = sessions self.
Proof.
  intros Hreach.
  destruct (reachable_RegInv _ _ _ _ Hreach) as [_ Hall].
  assert (forall key s, In (key, s) (sessions self) -> current_state s <> IDLE)
    as Hidle.
  { intros key s Hin. now destruct (Hall key s Hin) as (_ & ? & _). }
  split; [exact Hidle|]. split; [|split].
  - intros sid info Hget.
    apply get_session_Some in Hget as (s & Hget & _ & ->).
    apply (Hidle sid). now apply dict_get_In.
  - intros info Hin.
    apply get_all_sessions_In in Hin as (sid & s & Hin & _ & ->).
    now apply (Hidle sid).
  - now apply not_idle_filter.
Qed.

Lemma dict_set_set {V} (k : string) (v v' : V) (d : list (string * V)) :
  dict_set k v (dict_set k v' d) = dict_set k v d.
Proof.
  induction d as [|[k0 v0] d IH]; simpl.
  - now rewrite String.eqb_refl.
  - destruct (String.eqb_spec k k0) as [->|Hne]; simpl.
    + now rewrite String.eqb_refl.
    + destruct (String.eqb_spec k k0); [contradiction|]. now rewrite IH.
Qed.

(** The session that is being ended is the only one that the filter of
    [_get_active_session] drops. *)
Lemma filter_set_idle (key : string) (s' : WorkflowSession)
    (registry : list (string * WorkflowSession)) :
  (forall k s, In (k, s) registry -> current_state s <> IDLE) ->
  dict_in key registry = true ->
  current_state s' = IDLE ->
  filter (fun entry =>
            negb (WorkflowState_eqb (current_state (snd entry)) IDLE))
         (dict_set key s' registry)
  = dict_del key registry.
Proof.
  intros Hidle Hin Hs'. unfold dict_in in Hin.
  induction registry as [|[k0 s0] registry IH]; [discriminate|].
  simpl in *. destruct (String.eqb_spec key k0) as [->|Hne]; simpl.
  - rewrite Hs'. simpl. apply not_idle_filter.
    intros k s H. apply (Hidle k s). now right.
  - assert (current_state s0 <> IDLE) as H0 by (apply (Hidle k0); now left).
    destruct (current_state s0); try contradiction; simpl;
      (rewrite IH; [reflexivity| |assumption]);
      intros k s H; apply (Hidle k s); now right.
Qed.

Lemma end_session_until_notify_present (G : Globals) (svc : Services)
    (sid : string) (self : WorkflowController) (session : WorkflowSession) :
  dict_get sid (sessions self) = Some session ->
  end_session_until_notify G svc sid self
  = (Val (Some (ended_event G)),
     mkController
       (dict_set sid
          (state_of (add_event G IDLE None (Some "Session ended") session))
          (sessions self))
       (event_listeners self),
     (if truthy (browser_session_id session)
      then [Called (Call_manage_session "end" (browser_session_id session))]
      else [])
     ++ [Appended (session_id session) (ended_event G)]).
Proof.
  intros H. unfold end_session_until_notify, bind at 1, get. simpl.
  rewrite (dict_get_is_in _ _ _ H). simpl.
  unfold bind at 1, session_at. rewrite H.
  unfold bind at 1.
  set (closing := if truthy (browser_session_id session) then _ else ret tt).
  assert (closing self
          = (Val tt, self,
             if truthy (browser_session_id session)
             then [Called (Call_manage_session "end" (browser_session_id session))]
             else [])) as ->.
  { unfold closing. destruct (truthy (browser_session_id session)).
    - unfold try_except, bind, await.
      now destruct (manage_session svc "end" (browser_session_id session)).
    - reflexivity. }
  unfold bind at 1. rewrite (zoom_run _ _ _ _ H). simpl.
  unfold bind at 1. erewrite zoom_run by apply dict_get_set_same.
  unfold events_last at 1 2 3. simpl. rewrite last_item_snoc. simpl.
  unfold ret, state_of. cbn. rewrite dict_set_set.
  reflexivity.
Qed.

(** [end_session] is its statements up to the notification followed by the
    notification and the deletion. *)
Lemma end_session_split (G : Globals) (svc : Services) (sid : string)
    (self : WorkflowController) :
  end_session G svc sid self
  = bind (end_session_until_notify G svc sid) (end_session_from_notify sid)
      self.
Proof.
  destruct (dict_get sid (sessions self)) as [session|] eqn:Hget.
  - rewrite (end_session_present _ _ _ _ _ Hget).
    unfold bind at 1.
    rewrite (end_session_until_notify_present _ _ _ _ _ Hget).
    unfold end_session_from_notify, remove, bind, get, modify, emit, ret,
      raise, _notify_listeners, dict_in, state_of.
    cbn. rewrite dict_get_set_same. cbn.
    rewrite dict_del_set, <- app_assoc. reflexivity.
  - assert (dict_in sid (sessions self) = false) as Hin
      by (unfold dict_in; now rewrite Hget).
    rewrite (end_session_missing _ _ _ _ Hin).
    unfold end_session_until_notify, bind, get. simpl. now rewrite Hin.
Qed.




(** C7.  After [create_session] and then [end_session] on the identifier it
    returned, no snapshot of [get_all_sessions] carries that identifier, and
    the trace of [end_session] is: the [IDLE] event appended to that session,
    its delivery to every listener, and only then the removal from the
    registry. *)
Theorem C7_create_then_end_session (G : Globals)
    (repr type_error_text : PyVal -> string) (svc : Services)
    (uuid4 : string) (self : WorkflowController) :
  reachable G repr type_error_text self ->
  let created := create_session G uuid4 self in
  let ended := end_session G svc uuid4 (state_of created) in
  result_of created
  = Val [("session_id", PStr uuid4); ("status", PStr "created")]
  /\ result_of ended
     = Val [("status", PStr "ended"); ("session_id", PStr uuid4)]
  /\ ~ In uuid4 (dict_keys (sessions (state_of ended)))
  /\ ~ In None (get_all_sessions (state_of ended))
  /\ (forall info,
         In (Some info) (get_all_sessions (state_of ended)) ->
         info_session_id info <> uuid4)
  /\ state (ended_event G) = IDLE
  /\ trace_of ended
     = Appended uuid4 (ended_event G)
         :: notify_loop (event_listeners self) (ended_event G)
         ++ [Deleted uuid4].
Proof.
  intros Hreach. cbv zeta.
  pose proof (reachable_RegInv _ _ _ _ Hreach) as Hreg.
  rewrite create_session_run.
  unfold result_of, state_of, trace_of. cbn [fst snd].
  set (self1 := mkController _ (event_listeners self)).
  assert (dict_get uuid4 (sessions self1) = Some (created_session G uuid4))
    as Hget by apply dict_get_set_same.
  rewrite (end_session_present G svc uuid4 self1 _ Hget). cbn [fst snd].
  assert (RegInv G (mkController (dict_del uuid4 (sessions self1))
                      (event_listeners self1))) as Hreg2.
  { apply RegInv_del. apply RegInv_set; [assumption|].
    apply Inv_created_session. }
  assert (~ In uuid4 (dict_keys (dict_del uuid4 (sessions self1)))) as Habsent.
  { apply dict_del_absent. simpl. apply dict_set_NoDup. apply Hreg. }
  split; [reflexivity|]. split; [reflexivity|].
  split; [exact Habsent|].
  split; [apply get_all_sessions_total|].
  split; [|split; reflexivity].
  intros info Hin Heq.
  apply get_all_sessions_In in Hin as (sid & s & Hin & Hid & _).
  destruct Hreg2 as [_ Hall]. destruct (Hall sid s Hin) as (Hsid & _).
  assert (sid = uuid4) as Hkey by congruence.
  apply Habsent. apply (in_map fst) in Hin. simpl in Hin.
  rewrite Hkey in Hin. exact Hin.
Qed.

Lemma C7_create_then_end_session_witness :
  let created := create_session example_globals "C" after_login in
  let ended :=
    end_session example_globals example_services "C" (state_of created) in
  result_of created
  = Val [("session_id", PStr "C"); ("status", PStr "created")]
  /\ result_of ended = Val [("status", PStr "ended"); ("session_id", PStr "C")]
  /\ ~ In "C" (dict_keys (sessions (state_of ended)))
  /\ ~ In None (get_all_sessions (state_of ended))
  /\ (forall info,
         In (Some info) (get_all_sessions (state_of ended)) ->
         info_session_id info <> "C")
  /\ state (ended_event example_globals) = IDLE
  /\ trace_of ended
     = Appended "C" (ended_event example_globals)
         :: notify_loop (event_listeners after_login)
              (ended_event example_globals)
         ++ [Deleted "C"].
Proof.
  apply (C7_create_then_end_session example_globals example_text example_text
           example_services "C" after_login).
  apply reachable_run, reachable_run, reachable_init.
Defined.

(** C8.  In the trace of every operation, each appended event is followed
    by its delivery to every registered listener, in the order of
    registration, whether or not listeners raise; a listener is registered
    at the end of the list; every operation returns a result; and neither
    the result nor the sessions it leaves depend on the listeners. *)
Theorem C8_listeners_notified_in_order (G : Globals)
    (repr type_error_text : PyVal -> string) (op : Op)
    (self : WorkflowController) (callback : Listener)
    (others : list Listener) (event : WorkflowEvent) :
  let outcome := perform G repr type_error_text op self in
  let outcome' :=
    perform G repr type_error_text op (mkController (sessions self) others) in
  observe (trace_of outcome)
  = expected (event_listeners self) (trace_of outcome)
  /\ observe (notify_loop (event_listeners self) event)
     = map (fun l => Notified (listener_name l) event) (event_listeners self)
  /\ event_listeners (state_of (register_event_listener callback self))
     = event_listeners self ++ [callback]
  /\ (exists result, result_of outcome = Val result)
  /\ result_of outcome = result_of outcome'
  /\ sessions (state_of outcome) = sessions (state_of outcome').
Proof.
  cbv zeta.
  destruct (perform_ok G repr type_error_text op self) as (Hres & Htrace & _).
  split; [exact Htrace|].
  split; [apply observe_notify_loop|].
  split; [reflexivity|].
  split; [exact Hres|].
  now apply perform_same.
Qed.

(** ** Dispatch *)

Lemma first_match_spec_rules (text : string) :
  first_match spec_rules text
  = if contains "login" text || contains "log in" text then Login
    else if contains "inbox" text || contains "emails" text then Inbox
    else if contains "read" text
            && (contains "email" text || contains "message" text)
    then ReadEmail
    else if contains "generate" text || contains "respond" text
            || contains "reply" text
    then Generate
    else if contains "submit" text || contains "send" text then Submit true
    else if contains "save" text && contains "draft" text then Submit false
    else Unknown.
Proof. reflexivity. Qed.

(** An append and its notification, then the rest of the coroutine. *)
Lemma add_notify_run {A} (G : Globals) (self : WorkflowController)
    (st : WorkflowState) (d : option PyDict) (m : option string)
    (k : M WorkflowSession A) (s : WorkflowSession) :
  (add_event G st d m ;; notify_last self ;; k) s
  = (result_of (k (state_of (add_event G st d m s))),
     state_of (k (state_of (add_event G st d m s))),
     Appended (session_id s) (WorkflowEvent_new G st d m)
       :: notify_loop (event_listeners self) (WorkflowEvent_new G st d m)
       ++ trace_of (k (state_of (add_event G st d m s)))).
Proof.
  unfold bind, notify_last, bind, events_last, _notify_listeners, emit,
    add_event, state_of, result_of, trace_of.
  cbn [fst snd events]. rewrite last_item_snoc.
  now destruct (k _) as [[r s2] t].
Qed.

(** The unknown-command branch appends one [ERROR] event, notifies, and
    returns the error result. *)
Lemma unknown_command_run (G : Globals) (self : WorkflowController)
    (command : string) (s : WorkflowSession) :
  let outcome :=
    (add_event G ERROR None (Some ("Unknown command: " +++ command)) ;;
     notify_last self ;;
     ret (error_result "Unknown command")) s in
  result_of outcome = Val (error_result "Unknown command")
  /\ current_state (state_of outcome) = ERROR
  /\ exists event,
       state event = ERROR
       /\ message event = Some ("Unknown command: " +++ command)
       /\ events (state_of outcome) = events s ++ [event]
       /\ trace_of outcome
          = Appended (session_id s) event
              :: notify_loop (event_listeners self) event.
Proof.
  cbv zeta. rewrite add_notify_run.
  unfold result_of, state_of, trace_of, ret. cbn [fst snd].
  split; [reflexivity|]. split; [reflexivity|].
  eexists. repeat split; try reflexivity.
  now rewrite app_nil_r.
Qed.

(** C2.  [_process_command] routes a command by the ordered keyword rules,
    matched on the command in lower case, the first matching rule deciding;
    a command matching no rule gets an [ERROR] event and the result
    "Unknown command"; "read my email and send it" goes to the read-email
    handler. *)
Theorem C2_dispatch_first_match_wins (G : Globals)
    (repr type_error_text : PyVal -> string) (self : WorkflowController)
    (svc : Services) (command : string) (s : WorkflowSession) :
  _process_command G repr type_error_text self svc command s
  = (add_event G PROCESSING_COMMAND (Some [("command", PStr command)])
       (Some ("Processing command: " +++ command)) ;;
     notify_last self ;;
     try_except
       (spec_dispatch G repr type_error_text self svc command
          (spec_classify command))
       (fun e =>
          add_event G ERROR None
            (Some ("Error processing command: " +++ exc_str type_error_text e)) ;;
          notify_last self ;;
          ret (error_result (exc_str type_error_text e)))) s
  /\ (forall other, lower other = lower command ->
        spec_classify other = spec_classify command)
  /\ match spec_classify command with
     | Unknown =>
         result_of (_process_command G repr type_error_text self svc command s)
         = Val (error_result "Unknown command")
         /\ current_state
              (state_of
                 (_process_command G repr type_error_text self svc command s))
            = ERROR
     | _ => True
     end
  /\ spec_classify "read my email and send it" = ReadEmail
  /\ spec_classify "Read and SEND this email" = ReadEmail
  /\ spec_classify "send it" = Submit true
  /\ spec_classify "save this draft" = Submit false
  /\ spec_classify "LOG IN and send the emails" = Login
  /\ spec_classify "what time is it" = Unknown.
Proof.
  assert (_process_command G repr type_error_text self svc command
          = (add_event G PROCESSING_COMMAND (Some [("command", PStr command)])
               (Some ("Processing command: " +++ command)) ;;
             notify_last self ;;
             try_except
               (spec_dispatch G repr type_error_text self svc command
                  (spec_classify command))
               (fun e =>
                  add_event G ERROR None
                    (Some ("Error processing command: "
                           +++ exc_str type_error_text e)) ;;
                  notify_last self ;;
                  ret (error_result (exc_str type_error_text e))))) as Heq.
  { unfold _process_command, spec_classify. cbv zeta.
    rewrite first_match_spec_rules.
    destruct (contains "login" (lower command)
              || contains "log in" (lower command)); [reflexivity|].
    destruct (contains "inbox" (lower command)
              || contains "emails" (lower command)); [reflexivity|].
    destruct (contains "read" (lower command)
              && (contains "email" (lower command)
                  || contains "message" (lower command))); [reflexivity|].
    destruct (contains "generate" (lower command)
              || contains "respond" (lower command)
              || contains "reply" (lower command)); [reflexivity|].
    destruct (contains "submit" (lower command)
              || contains "send" (lower command)); [reflexivity|].
    destruct (contains "save" (lower command)
              && contains "draft" (lower command)); reflexivity. }
  split; [now rewrite Heq|].
  split; [intros other Hother; unfold spec_classify; now rewrite Hother|].
  split; [|repeat split; reflexivity].
  destruct (spec_classify command) eqn:Hclass; try exact I.
  rewrite Heq. cbn [spec_dispatch]. rewrite add_notify_run.
  set (s1 := state_of (add_event G PROCESSING_COMMAND _ _ s)).
  destruct (unknown_command_run G self command s1) as (Hr & Hst & _).
  cbv zeta in Hr, Hst. unfold try_except, result_of, state_of in *.
  destruct ((add_event G ERROR None _ ;; _) s1) as [[r s2] t2].
  cbn [fst snd] in *. subst r. split; [reflexivity|exact Hst].
Qed.

(** ** Collaborator failures *)

Lemma bind_val {S A B} (m : M S A) (f : A -> M S B) (s s1 s2 : S) (a : A)
    (r : Res B) (t1 t2 : list Effect) :
  m s = (Val a, s1, t1) -> f a s1 = (r, s2, t2) ->
  bind m f s = (r, s2, t1 ++ t2).
Proof. intros Hm Hf. unfold bind. now rewrite Hm, Hf. Qed.

Lemma try_val {S A} (m : M S A) (h : PyExc -> M S A) (s s1 : S) (a : A)
    (t1 : list Effect) :
  m s = (Val a, s1, t1) -> try_except m h s = (Val a, s1, t1).
Proof. intros Hm. unfold try_except. now rewrite Hm. Qed.

Lemma try_exn {S A} (m : M S A) (h : PyExc -> M S A) (s s1 s2 : S)
    (e : PyExc) (r : Res A) (t1 t2 : list Effect) :
  m s = (Exn e, s1, t1) -> h e s1 = (r, s2, t2) ->
  try_except m h s = (r, s2, t1 ++ t2).
Proof. intros Hm Hh. unfold try_except. now rewrite Hm, Hh. Qed.

Lemma bind_exn {S A B} (m : M S A) (f : A -> M S B) (s s1 : S) (e : PyExc)
    (t1 : list Effect) :
  m s = (Exn e, s1, t1) -> bind m f s = (Exn e, s1, t1).
Proof. intros Hm. unfold bind. now rewrite Hm. Qed.

Lemma add_notify_val {A} (G : Globals) (self : WorkflowController)
    (st : WorkflowState) (d : option PyDict) (m : option string)
    (k : M WorkflowSession A) (s s2 : WorkflowSession) (r : Res A)
    (t : list Effect) :
  k (state_of (add_event G st d m s)) = (r, s2, t) ->
  (add_event G st d m ;; notify_last self ;; k) s
  = (r, s2,
     Appended (session_id s) (WorkflowEvent_new G st d m)
       :: notify_loop (event_listeners self) (WorkflowEvent_new G st d m) ++ t).
Proof. intros Hk. rewrite add_notify_run, Hk. reflexivity. Qed.

(** The login handler turns a failure reported by the collaborator into an
    [ERROR] event that carries the reported detail. *)
Lemma login_reported_failure (G : Globals)
    (repr type_error_text : PyVal -> string) (self : WorkflowController)
    (svc : Services) (detail : string) (s : WorkflowSession) :
  login_to_crm svc (SLATE_USERNAME G) (SLATE_PASSWORD G) "tanki online"
  = Returns [("status", PStr "error"); ("error", PStr detail)] ->
  exists s' t,
    _handle_login_command G repr type_error_text self svc s
    = (Val (error_result "Authentication failed"), s', t)
    /\ current_state s' = ERROR
    /\ option_map message (last_item (events s'))
       = Some (Some ("Authentication failed: " +++ detail)).
Proof.
  intros Hlogin. unfold _handle_login_command. do 2 eexists. split.
  - eapply add_notify_val, try_val, bind_val.
    { unfold await. rewrite Hlogin. reflexivity. }
    eapply bind_val; [reflexivity|].
    cbn [eq_str String.eqb Ascii.eqb Bool.eqb].
    eapply add_notify_val. reflexivity.
  - cbn [state_of add_event fst snd current_state events].
    split; [reflexivity|]. now rewrite last_item_snoc.
Qed.

(** The login handler turns a fault raised by the collaborator into an
    [ERROR] event that carries the text of the fault. *)
Lemma login_raised_fault (G : Globals)
    (repr type_error_text : PyVal -> string) (self : WorkflowController)
    (svc : Services) (detail : string) (s : WorkflowSession) :
  login_to_crm svc (SLATE_USERNAME G) (SLATE_PASSWORD G) "tanki online"
  = Raises (Fault detail) ->
  exists s' t,
    _handle_login_command G repr type_error_text self svc s
    = (Val (error_result detail), s', t)
    /\ current_state s' = ERROR
    /\ option_map message (last_item (events s'))
       = Some (Some ("Error during authentication: " +++ detail)).
Proof.
  intros Hlogin. unfold _handle_login_command. do 2 eexists. split.
  - eapply add_notify_val, try_exn.
    { eapply bind_exn. unfold await. rewrite Hlogin. reflexivity. }
    eapply add_notify_val. reflexivity.
  - cbn [state_of add_event fst snd current_state events].
    split; [reflexivity|]. now rewrite last_item_snoc.
Qed.

(** C3.  The submit handler does not look at what [submit_draft] returns:
    when the mail agent reports a failure, with any detail, the handler
    appends a [LISTENING] event and no [ERROR] event, clears the email and
    the draft, and returns status "success". *)
Theorem C3_submit_reports_success_on_failure (detail : string) (send : bool) :
  let svc :=
    mkServices (login_to_crm example_services)
      (navigate_to_inbox example_services) (manage_session example_services)
      (process_email example_services)
      (fun _ _ _ _ =>
         Returns [("status", PStr "error"); ("error", PStr detail)]) in
  let s :=
    mkSession "A" (PStr "browser-1") (PStr "email-1") REVIEWING
      (PStr "Dear applicant") 0%Z
      [WorkflowEvent_new example_globals REVIEWING None None] in
  let outcome :=
    _handle_submit_response_command example_globals example_text
      two_sessions svc send s in
  result_of outcome
  = Val (success_result
           (if send then "Response sent successfully"
            else "Response saved as draft successfully"))
  /\ map state (events (state_of outcome)) = [REVIEWING; SUBMITTING; LISTENING]
  /\ current_state (state_of outcome) = LISTENING
  /\ current_email_id (state_of outcome) = PNone
  /\ draft_response (state_of outcome) = PNone.
Proof.
  destruct send; vm_compute; repeat split.
Qed.

(** ** Time *)

(** Every registered session carries the start time that was computed when
    the module was imported, and so does every event its timestamp. *)
Lemma reachable_times (G : Globals) (repr type_error_text : PyVal -> string)
    (self : WorkflowController) (key : string) (s : WorkflowSession) :
  reachable G repr type_error_text self ->
  In (key, s) (sessions self) ->
  start_time s = WorkflowSession_start_time G
  /\ Forall (fun e => timestamp e = WorkflowEvent_timestamp G) (events s).
Proof.
  intros Hreach Hin.
  destruct (reachable_RegInv _ _ _ _ Hreach) as [_ Hall].
  now destruct (Hall key s Hin) as (_ & _ & _ & ? & ?).
Qed.

(** Hence the active session is the first one of the registry, that is the
    oldest registered one. *)
Lemma active_session_is_first (G : Globals)
    (repr type_error_text : PyVal -> string) (self : WorkflowController) :
  reachable G repr type_error_text self ->
  _get_active_session self = hd_error (sessions self).
Proof.
  intros Hreach.
  destruct (reachable_RegInv _ _ _ _ Hreach) as [_ Hall].
  assert (filter (fun entry =>
                    negb (WorkflowState_eqb (current_state (snd entry)) IDLE))
                 (sessions self)
          = sessions self) as Hfilter.
  { apply not_idle_filter. intros key s Hin.
    now destruct (Hall key s Hin) as (_ & ? & _). }
  unfold _get_active_session. rewrite Hfilter.
  destruct (sessions self) as [|entry rest] eqn:Hs; [reflexivity|].
  rewrite (sorted_reverse_constant _ (WorkflowSession_start_time G));
    [reflexivity|].
  apply Forall_forall. intros [key s] Hin. simpl.
  rewrite <- Hs in Hin.
  now destruct (reachable_times _ _ _ _ key s Hreach Hin).
Qed.

(** C4.  With session "A" created before session "B" and both not [IDLE],
    both carry the same [start_time], the stable sort leaves them in
    registry order, and a command without session identifier is processed
    on "A": its events go to "A" and "B" is left as it was. *)
Theorem C4_command_goes_to_oldest_session :
  map (fun entry => (fst entry, current_state (snd entry), start_time (snd entry)))
      (sessions two_sessions)
  = [("A", LISTENING, 0%Z); ("B", LISTENING, 0%Z)]
  /\ option_map fst (_get_active_session two_sessions) = Some "A"
  /\ map (fun entry => (fst entry, map state (events (snd entry))))
         (sessions after_login)
     = [("A", [LISTENING; PROCESSING_COMMAND; AUTHENTICATING; LISTENING]);
        ("B", [LISTENING])].
Proof. vm_compute. repeat split. Qed.

(** C9.  The module being imported when the clock read 0, the sessions
    created when it read 100 and 200 both have start time 0, and their
    events, appended when it read 100, 200 and 300, all have timestamp 0. *)
Theorem C9_timestamps_frozen_at_import :
  map (fun entry =>
         (fst entry, start_time (snd entry),
          map timestamp (events (snd entry))))
      (sessions after_login)
  = [("A", 0%Z, [0%Z; 0%Z; 0%Z; 0%Z]); ("B", 0%Z, [0%Z])].
Proof. vm_compute. reflexivity. Qed.

(** ** Worked examples *)

(** A listener that raises does not keep the next one from being called. *)
Example failing_listener_is_isolated (event : WorkflowEvent) :
  notify_loop [failing_listener; recording_listener] event
  = [ Notified "failing" event;
      ListenerError "failing" (Fault "listener failed");
      Notified "recording" event ].
Proof. reflexivity. Qed.

(** On the authenticated session, "read my email and send it" calls
    [process_email] and never [submit_draft]. *)
Example read_and_send_calls_process_email :
  filter (fun eff => match eff with Called _ => true | _ => false end)
    (trace_of
       (process_voice_command example_globals example_text example_text
          example_services "C" "read my email and send it" after_login))
  = [Called (Call_process_email (PStr "browser-1") PNone)].
Proof. vm_compute. reflexivity. Qed.

(** The scenario of the specification: a login with an authenticator that
    succeeds appends [AUTHENTICATING] then [LISTENING] and sets the browser
    session. *)
Example login_scenario :
  option_map
    (fun s => (current_state s, browser_session_id s, map state (events s)))
    (dict_get "A" (sessions after_login))
  = Some (LISTENING, PStr "browser-1",
          [LISTENING; PROCESSING_COMMAND; AUTHENTICATING; LISTENING]).
Proof. vm_compute. reflexivity. Qed.

(** "generate response" without a selected email: an error result, the
    session in [ERROR], and no collaborator called. *)
Example generate_without_email :
  let outcome :=
    process_voice_command example_globals example_text example_text
      example_services "C" "generate response" after_login in
  result_of outcome = Val (error_result "No email selected")
  /\ option_map current_state (dict_get "A" (sessions (state_of outcome)))
     = Some ERROR
  /\ filter (fun eff => match eff with Called _ => true | _ => false end)
       (trace_of outcome)
     = [].
Proof. vm_compute. repeat split. Qed.

(** * Further properties of the controller *)

(** ** Result and final state of a command *)

Section OutcomeSteps.
Variable G : Globals.
Variable self : WorkflowController.

Lemma entered_add_event (P : Assertion WorkflowSession) st d m E :
  triple P (add_event G st d m) (fun _ => Entered st) E.
Proof.
  intros s t0 _. unfold Entered. cbn -[last_item]. split; [reflexivity|].
  rewrite last_item_snoc. discriminate.
Qed.

Lemma entered_notify_last st E :
  triple (Entered st) (notify_last self) (fun _ => Entered st) E.
Proof.
  intros s t0 [Hst Hlast]. unfold notify_last, bind, events_last.
  destruct (last_item (events s)) as [event|] eqn:He; [|contradiction].
  simpl. split; [assumption|]. now rewrite He.
Qed.

Lemma entered_set_browser_session_id st v E :
  triple (Entered st) (set_browser_session_id v) (fun _ => Entered st) E.
Proof. intros s t0 H. exact H. Qed.

Lemma entered_set_current_email_id st v E :
  triple (Entered st) (set_current_email_id v) (fun _ => Entered st) E.
Proof. intros s t0 H. exact H. Qed.

Lemma entered_set_draft_response st v E :
  triple (Entered st) (set_draft_response v) (fun _ => Entered st) E.
Proof. intros s t0 H. exact H. Qed.

Lemma entered_await st c o :
  triple (Entered st) (await c o) (fun _ => Entered st) (fun _ => Entered st).
Proof. intros s t0 H. unfold await. now destruct o. Qed.

Lemma entered_ret_success st msg (extra : PyDict) E :
  st = LISTENING \/ st = REVIEWING ->
  triple (Entered st)
    (ret (("status", PStr "success") :: ("message", PStr msg) :: extra))
    (fun r s _ => outcome_consistent r s) E.
Proof.
  intros Hst s t0 [Hs _]. simpl. left. split; [reflexivity|].
  now rewrite Hs.
Qed.

Lemma entered_ret_error msg E :
  triple (Entered ERROR) (ret (error_result msg))
    (fun r s _ => outcome_consistent r s) E.
Proof. intros s t0 [Hs _]. simpl. right. now split. Qed.

End OutcomeSteps.

Ltac outcome_step :=
  first
    [ apply entered_ret_error
    | apply entered_ret_success; auto
    | apply triple_if
    | match goal with
      | |- triple ?P (try_except _ _) _ _ =>
          apply triple_try_except with (R := fun _ => P); [ | intros ? ]
      end
    | eapply triple_bind;
      [ first
          [ apply entered_add_event
          | apply entered_notify_last
          | apply triple_get
          | apply entered_set_browser_session_id
          | apply entered_set_current_email_id
          | apply entered_set_draft_response
          | apply entered_await
          | apply triple_subscript; now intros
          | apply triple_subscript_val; now intros ]
      | intros ? ] ].

Ltac outcome_triple := cbv zeta; repeat (cbv beta; outcome_step).

Section Outcomes.
Variable G : Globals.
Variables repr type_error_text : PyVal -> string.
Variable self : WorkflowController.
Variable svc : Services.

Let agree : PyDict -> Assertion WorkflowSession :=
  fun r s _ => outcome_consistent r s.

Lemma outcome_login st E :
  triple (Entered st) (_handle_login_command G repr type_error_text self svc)
    agree E.
Proof. unfold _handle_login_command, agree, success_result. outcome_triple. Qed.

Lemma outcome_inbox st E :
  triple (Entered st) (_handle_inbox_command G repr type_error_text self svc)
    agree E.
Proof. unfold _handle_inbox_command, agree, success_result. outcome_triple. Qed.

Lemma outcome_read_email st E :
  triple (Entered st)
    (_handle_read_email_command G repr type_error_text self svc) agree E.
Proof. unfold _handle_read_email_command, agree. outcome_triple. Qed.

Lemma outcome_generate_response st E :
  triple (Entered st)
    (_handle_generate_response_command G type_error_text self svc) agree E.
Proof. unfold _handle_generate_response_command, agree. outcome_triple. Qed.

Lemma outcome_submit_response st send E :
  triple (Entered st)
    (_handle_submit_response_command G type_error_text self svc send) agree E.
Proof.
  unfold _handle_submit_response_command, agree, success_result.
  outcome_triple.
Qed.

Lemma outcome_process_command command :
  triple (fun _ _ => True)
    (_process_command G repr type_error_text self svc command)
    agree (fun _ _ _ => False).
Proof.
  unfold _process_command, agree. cbv zeta.
  eapply triple_bind; [apply entered_add_event|intros ?].
  eapply triple_bind; [apply entered_notify_last|intros ?].
  apply triple_try_except with (R := fun _ => Entered PROCESSING_COMMAND).
  - repeat apply triple_if.
    + apply outcome_login.
    + apply outcome_inbox.
    + apply outcome_read_email.
    + apply outcome_generate_response.
    + apply outcome_submit_response.
    + apply outcome_submit_response.
    + outcome_triple.
  - intros e. outcome_triple.
Qed.

End Outcomes.

(** X1.  Whatever the command, the collaborators and the listeners do,
    [_process_command] returns a result and raises nothing; the result has
    status "success" or "error"; with "error" the session is left in
    [ERROR], with "success" in [LISTENING] or [REVIEWING]; it is never left
    in [PROCESSING_COMMAND] or another in-progress state. *)
Theorem X1_command_outcome (G : Globals)
    (repr type_error_text : PyVal -> string) (self : WorkflowController)
    (svc : Services) (command : string) (s : WorkflowSession) :
  let outcome := _process_command G repr type_error_text self svc command s in
  exists result,
    result_of outcome = Val result
    /\ ((dict_get "status" result = Some (PStr "success")
         /\ (current_state (state_of outcome) = LISTENING
             \/ current_state (state_of outcome) = REVIEWING))
        \/ (dict_get "status" result = Some (PStr "error")
            /\ current_state (state_of outcome) = ERROR)).
Proof.
  cbv zeta.
  pose proof (outcome_process_command G repr type_error_text self svc command
                s [] I) as H.
  destruct (_process_command _ _ _ _ _ _ s) as [[[r|e] s'] t];
    [|contradiction].
  exists r. split; [reflexivity|exact H].
Qed.

(** ** The event log only grows *)

(** [_process_command] as its prelude followed by the dispatched handler. *)
Lemma process_command_dispatch_eq (G : Globals)
    (repr type_error_text : PyVal -> string) (self : WorkflowController)
    (svc : Services) (command : string) :
  _process_command G repr type_error_text self svc command
  = (add_event G PROCESSING_COMMAND (Some [("command", PStr command)])
       (Some ("Processing command: " +++ command)) ;;
     notify_last self ;;
     try_except
       (spec_dispatch G repr type_error_text self svc command
          (spec_classify command))
       (fun e =>
          add_event G ERROR None
            (Some ("Error processing command: " +++ exc_str type_error_text e)) ;;
          notify_last self ;;
          ret (error_result (exc_str type_error_text e)))).
Proof.
  unfold _process_command, spec_classify. cbv zeta.
  rewrite first_match_spec_rules.
  repeat match goal with
         | |- context [if ?b then _ else _] => destruct b; [reflexivity|]
         end.
  reflexivity.
Qed.

Lemma triple_spec_dispatch (G : Globals)
    (repr type_error_text : PyVal -> string) (I : WorkflowSession -> Prop)
    (self : WorkflowController) (svc : Services) (command : string)
    (intent : Intent) :
  stable G I ->
  triple (Settled I (event_listeners self))
    (try_except
       (spec_dispatch G repr type_error_text self svc command intent)
       (fun e =>
          add_event G ERROR None
            (Some ("Error processing command: " +++ exc_str type_error_text e)) ;;
          notify_last self ;;
          ret (error_result (exc_str type_error_text e))))
    (fun _ => Settled I (event_listeners self)) (fun _ _ _ => False).
Proof.
  intros HI.
  apply triple_try_except with (R := fun _ => Settled I (event_listeners self)).
  - destruct intent; cbn [spec_dispatch].
    + now apply triple_login.
    + now apply triple_inbox.
    + now apply triple_read_email.
    + now apply triple_generate_response.
    + now apply triple_submit_response.
    + handler_triple.
  - intros e. handler_triple.
Qed.

(** X2.  [_process_command] never rewrites history: the events the session
    had are kept, the [PROCESSING_COMMAND] event of the command comes next,
    followed by at least one more event; the session keeps its identifier
    and its start time. *)
Theorem X2_command_appends_events (G : Globals)
    (repr type_error_text : PyVal -> string) (self : WorkflowController)
    (svc : Services) (command : string) (s : WorkflowSession) :
  let outcome := _process_command G repr type_error_text self svc command s in
  session_id (state_of outcome) = session_id s
  /\ start_time (state_of outcome) = start_time s
  /\ exists suffix,
       suffix <> []
       /\ events (state_of outcome)
          = events s
            ++ WorkflowEvent_new G PROCESSING_COMMAND
                 (Some [("command", PStr command)])
                 (Some ("Processing command: " +++ command))
            :: suffix.
Proof.
  cbv zeta.
  set (e0 := WorkflowEvent_new G PROCESSING_COMMAND _ _).
  pose proof (outcome_process_command G repr type_error_text self svc command
                s [] I) as Hout.
  rewrite process_command_dispatch_eq in *. rewrite add_notify_run in *.
  fold e0 in Hout |- *.
  set (s1 := state_of (add_event G PROCESSING_COMMAND _ _ s)) in *.
  set (k := try_except _ _) in *.
  set (J := fun s' : WorkflowSession =>
              session_id s' = session_id s
              /\ start_time s' = start_time s
              /\ session_ok s'
              /\ exists suffix, events s' = events s ++ e0 :: suffix).
  assert (stable G J) as HJ.
  { unfold J. repeat split; simpl; try tauto;
      try (destruct H as (? & ? & ? & ?); assumption);
      try (destruct H0 as (? & ? & ? & ?); assumption).
    - eexists. split; [apply last_item_snoc|reflexivity].
    - destruct H0 as (_ & _ & _ & suffix & ->).
      exists (suffix ++ [WorkflowEvent_new G st d m]).
      now rewrite <- app_assoc. }
  assert (J s1) as Hs1.
  { unfold J, s1. cbn. repeat split.
    - eexists. split; [apply last_item_snoc|reflexivity].
    - now exists []. }
  pose proof (triple_spec_dispatch G repr type_error_text J self svc command
                (spec_classify command) HJ s1 [] (conj Hs1 eq_refl)) as Hk.
  fold k in Hk.
  unfold result_of, state_of, trace_of in *.
  destruct (k s1) as [[[r|e] s'] t]; [|contradiction].
  cbn [fst snd] in *.
  destruct Hk as [(Hid & Hstart & (last & Hlast & Hstate) & suffix & Hev) _].
  split; [assumption|]. split; [assumption|].
  exists suffix. split; [|assumption].
  intros ->. rewrite Hev, last_item_snoc in Hlast. injection Hlast as <-.
  unfold e0 in Hstate. cbn in Hstate.
  destruct Hout as [[_ [H|H]]|[_ H]]; congruence.
Qed.

(** ** Guards of the handlers *)

Lemma service_calls_app (t1 t2 : list Effect) :
  service_calls (t1 ++ t2) = service_calls t1 ++ service_calls t2.
Proof. apply flat_map_app. Qed.

Lemma service_calls_notify_loop (ls : list Listener) (event : WorkflowEvent) :
  service_calls (notify_loop ls event) = [].
Proof.
  induction ls as [|l ls IH]; simpl; [reflexivity|].
  destruct (is_coroutine l), (call l event); simpl; exact IH.
Qed.

Lemma service_calls_append_notify (ls : list Listener) (sid : string)
    (event : WorkflowEvent) (t : list Effect) :
  service_calls (Appended sid event :: notify_loop ls event ++ t)
  = service_calls t.
Proof.
  change (Appended sid event :: notify_loop ls event ++ t)
    with ([Appended sid event] ++ notify_loop ls event ++ t).
  now rewrite !service_calls_app, service_calls_notify_loop.
Qed.

(** A refusal: one [ERROR] event, its notification, and the error result. *)
Lemma refuse_run (G : Globals) (self : WorkflowController)
    (text msg : string) (s : WorkflowSession) :
  (add_event G ERROR None (Some text) ;;
   notify_last self ;;
   ret (error_result msg)) s
  = (Val (error_result msg),
     state_of (add_event G ERROR None (Some text) s),
     Appended (session_id s) (WorkflowEvent_new G ERROR None (Some text))
       :: notify_loop (event_listeners self)
            (WorkflowEvent_new G ERROR None (Some text)) ++ []).
Proof. now apply add_notify_val. Qed.

Lemma refuse_refused (G : Globals) (self : WorkflowController)
    (text msg : string) (s : WorkflowSession) :
  refused G text msg s
    ((add_event G ERROR None (Some text) ;;
      notify_last self ;;
      ret (error_result msg)) s).
Proof.
  rewrite refuse_run. unfold refused, result_of, state_of, trace_of.
  cbn [fst snd]. repeat split.
  now rewrite service_calls_append_notify.
Qed.

(** X3.  Without a browser session (the field is [None] or otherwise
    falsy) the inbox and read-email handlers refuse: the result is the error
    "Not authenticated", one [ERROR] event is appended, no collaborator is
    called and the other fields of the session are untouched. *)
Theorem X3_browser_handlers_require_authentication (G : Globals)
    (repr type_error_text : PyVal -> string) (self : WorkflowController)
    (svc : Services) (s : WorkflowSession) :
  truthy (browser_session_id s) = false ->
  refused G "Cannot navigate to inbox: Not authenticated" "Not authenticated" s
    (_handle_inbox_command G repr type_error_text self svc s)
  /\ refused G "Cannot read email: Not authenticated" "Not authenticated" s
       (_handle_read_email_command G repr type_error_text self svc s).
Proof.
  intros Hb. unfold _handle_inbox_command, _handle_read_email_command.
  rewrite !bind_get_run, Hb. cbn [negb].
  split; apply refuse_refused.
Qed.

Lemma X3_browser_handlers_require_authentication_witness :
  let s := created_session example_globals "A" in
  refused example_globals "Cannot navigate to inbox: Not authenticated"
    "Not authenticated" s
    (_handle_inbox_command example_globals example_text example_text
       two_sessions example_services s)
  /\ refused example_globals "Cannot read email: Not authenticated"
       "Not authenticated" s
       (_handle_read_email_command example_globals example_text example_text
          two_sessions example_services s).
Proof.
  apply (X3_browser_handlers_require_authentication example_globals
           example_text example_text two_sessions example_services
           (created_session example_globals "A")).
  reflexivity.
Defined.

(** X4.  Without a selected email the generate and submit handlers refuse
    with "No email selected": one [ERROR] event is appended, no collaborator
    is called and the other fields of the session are untouched. *)
Theorem X4_email_handlers_require_email (G : Globals)
    (type_error_text : PyVal -> string) (self : WorkflowController)
    (svc : Services) (send : bool) (s : WorkflowSession) :
  truthy (current_email_id s) = false ->
  refused G "Cannot generate response: No email selected"
    "No email selected" s
    (_handle_generate_response_command G type_error_text self svc s)
  /\ refused G "Cannot submit response: No email selected"
       "No email selected" s
       (_handle_submit_response_command G type_error_text self svc send s).
Proof.
  unfold _handle_generate_response_command, _handle_submit_response_command.
  rewrite !bind_get_run. intros ->. cbn [negb]. split; apply refuse_refused.
Qed.

Lemma X4_email_handlers_require_email_witness :
  let s := created_session example_globals "A" in
  refused example_globals "Cannot generate response: No email selected"
    "No email selected" s
    (_handle_generate_response_command example_globals example_text
       two_sessions example_services s)
  /\ refused example_globals "Cannot submit response: No email selected"
       "No email selected" s
       (_handle_submit_response_command example_globals example_text
          two_sessions example_services true s).
Proof.
  apply (X4_email_handlers_require_email example_globals example_text
           two_sessions example_services true
           (created_session example_globals "A")).
  reflexivity.
Defined.

(** X5.  With a selected email but without a draft the submit handler
    refuses with "No draft response created": one [ERROR] event, no call to
    [submit_draft], and the selected email is kept. *)
Theorem X5_submit_requires_draft (G : Globals)
    (type_error_text : PyVal -> string) (self : WorkflowController)
    (svc : Services) (send : bool) (s : WorkflowSession) :
  truthy (current_email_id s) = true ->
  truthy (draft_response s) = false ->
  refused G "Cannot submit response: No draft response created"
    "No draft response created" s
    (_handle_submit_response_command G type_error_text self svc send s).
Proof.
  unfold _handle_submit_response_command.
  rewrite !bind_get_run. intros -> ->. cbn [negb]. apply refuse_refused.
Qed.

Lemma X5_submit_requires_draft_witness :
  let s :=
    mkSession "A" (PStr "browser-1") (PStr "email-1") LISTENING PNone 0%Z
      [created_event example_globals] in
  refused example_globals "Cannot submit response: No draft response created"
    "No draft response created" s
    (_handle_submit_response_command example_globals example_text
       two_sessions example_services false s).
Proof.
  apply (X5_submit_requires_draft example_globals example_text two_sessions
           example_services false
           (mkSession "A" (PStr "browser-1") (PStr "email-1") LISTENING PNone
              0%Z [created_event example_globals])); reflexivity.
Defined.

(** ** The handlers, case by case *)

Lemma subscript_some {S} (d : PyDict) (key : string) (v : PyVal) (s : S) :
  dict_get key d = Some v -> subscript d key s = (Val v, s, []).
Proof. intros H. unfold subscript. now rewrite H. Qed.

Lemma subscript_none {S} (d : PyDict) (key : string) (s : S) :
  dict_get key d = None -> subscript d key s = (Exn (KeyError key), s, []).
Proof. intros H. unfold subscript. now rewrite H. Qed.

Lemma await_returns {S} (c : ServiceCall) (o : Outcome) (d : PyDict) (s : S) :
  o = Returns d -> await c o s = (Val d, s, [Called c]).
Proof. now intros ->. Qed.

Lemma await_raises {S} (c : ServiceCall) (o : Outcome) (e : PyExc) (s : S) :
  o = Raises e -> await c o s = (Exn e, s, [Called c]).
Proof. now intros ->. Qed.

Lemma service_calls_called (c : ServiceCall) (t : list Effect) :
  service_calls (Called c :: t) = c :: service_calls t.
Proof. reflexivity. Qed.

Lemma service_calls_nil : service_calls [] = [].
Proof. reflexivity. Qed.

Create Rewrite HintDb calls.
#[local] Hint Rewrite service_calls_app service_calls_append_notify
  service_calls_notify_loop service_calls_called service_calls_nil : calls.

Lemma map_state_snoc2 (l : list WorkflowEvent) (e1 e2 : WorkflowEvent) :
  map state ((l ++ [e1]) ++ [e2]) = map state l ++ [state e1; state e2].
Proof. now rewrite <- app_assoc, map_app. Qed.

(** After a run equation [Hrun], read the result, the fields and the calls
    off the final session and the trace. *)
Ltac read_off Hrun :=
  rewrite Hrun; unfold result_of, state_of, trace_of; cbn [fst snd];
  repeat split;
  try (autorewrite with calls; reflexivity);
  try (cbn; rewrite ?map_state_snoc2; reflexivity);
  try (now eexists).

(** X6.  The login handler calls [login_to_crm] exactly once.  When the
    answer has status "success" and carries a "session_id", that identifier
    becomes the browser session, [AUTHENTICATING] then [LISTENING] are
    appended and the result is a success.  In every other case (another
    status, a missing key, a raised fault) [AUTHENTICATING] then [ERROR]
    are appended, the result is an error and the browser session is what it
    was.  The selected email and the draft are never touched. *)
Theorem X6_login_outcome (G : Globals)
    (repr type_error_text : PyVal -> string) (self : WorkflowController)
    (svc : Services) (s : WorkflowSession) :
  let answer :=
    login_to_crm svc (SLATE_USERNAME G) (SLATE_PASSWORD G) "tanki online" in
  let outcome := _handle_login_command G repr type_error_text self svc s in
  service_calls (trace_of outcome)
  = [Call_login_to_crm (SLATE_USERNAME G) (SLATE_PASSWORD G) "tanki online"]
  /\ current_email_id (state_of outcome) = current_email_id s
  /\ draft_response (state_of outcome) = draft_response s
  /\ match granted_session answer with
     | Some v =>
         result_of outcome = Val (success_result "Authentication successful")
         /\ browser_session_id (state_of outcome) = v
         /\ current_state (state_of outcome) = LISTENING
         /\ map state (events (state_of outcome))
            = map state (events s) ++ [AUTHENTICATING; LISTENING]
     | None =>
         (exists msg, result_of outcome = Val (error_result msg))
         /\ browser_session_id (state_of outcome) = browser_session_id s
         /\ current_state (state_of outcome) = ERROR
         /\ map state (events (state_of outcome))
            = map state (events s) ++ [AUTHENTICATING; ERROR]
     end.
Proof.
  cbv zeta. unfold granted_session.
  set (handler := _handle_login_command G repr type_error_text self svc).
  destruct (login_to_crm svc _ _ _) as [d|e] eqn:Hans;
    [destruct (dict_get "status" d) as [st|] eqn:Hst;
     [destruct (eq_str st "success") eqn:Heq;
      [destruct (dict_get "session_id" d) as [v|] eqn:Hsid|]|]|].
  all: eassert (Hrun : handler s = (_, _, _));
    [unfold handler, _handle_login_command; eapply add_notify_val|].
  - eapply try_val, bind_val; [eapply await_returns; eassumption|].
    eapply bind_val; [eapply subscript_some; eassumption|]. rewrite Heq.
    eapply bind_val; [eapply subscript_some; eassumption|].
    eapply bind_val; [reflexivity|]. now apply add_notify_val.
  - read_off Hrun.
  - eapply try_exn; [|now apply add_notify_val].
    eapply bind_val; [eapply await_returns; eassumption|].
    eapply bind_val; [eapply subscript_some; eassumption|]. rewrite Heq.
    eapply bind_exn. eapply subscript_none; eassumption.
  - read_off Hrun.
  - eapply try_val, bind_val; [eapply await_returns; eassumption|].
    eapply bind_val; [eapply subscript_some; eassumption|]. rewrite Heq.
    now apply add_notify_val.
  - read_off Hrun.
  - eapply try_exn; [|now apply add_notify_val].
    eapply bind_val; [eapply await_returns; eassumption|].
    eapply bind_exn. eapply subscript_none; eassumption.
  - read_off Hrun.
  - eapply try_exn; [|now apply add_notify_val].
    eapply bind_exn. eapply await_raises; eassumption.
  - read_off Hrun.
Qed.

(** X7.  On an authenticated session, when [process_email] returns an email
    that has an "email_id" and a "subject", the read-email handler makes
    that identifier the selected email, appends [READING_EMAIL] then
    [LISTENING] (the latter carrying the email as data and the subject in its
    message), returns the email with status "success", and has called
    [process_email] once, with no email identifier. *)
Theorem X7_read_email_success (G : Globals)
    (repr type_error_text : PyVal -> string) (self : WorkflowController)
    (svc : Services) (s : WorkflowSession) (d e : PyDict)
    (email_id subject : PyVal) :
  truthy (browser_session_id s) = true ->
  process_email svc (browser_session_id s) PNone = Returns d ->
  dict_get "email" d = Some (PDict e) ->
  dict_get "email_id" e = Some email_id ->
  dict_get "subject" e = Some subject ->
  let outcome := _handle_read_email_command G repr type_error_text self svc s in
  result_of outcome
  = Val [("status", PStr "success");
         ("message", PStr "Email read successfully");
         ("email", PDict e)]
  /\ current_email_id (state_of outcome) = email_id
  /\ current_state (state_of outcome) = LISTENING
  /\ browser_session_id (state_of outcome) = browser_session_id s
  /\ draft_response (state_of outcome) = draft_response s
  /\ events (state_of outcome)
     = (events s
        ++ [WorkflowEvent_new G READING_EMAIL None (Some "Reading email")])
       ++ [WorkflowEvent_new G LISTENING (Some [("email", PDict e)])
             (Some ("Email read: " +++ py_str repr subject))]
  /\ service_calls (trace_of outcome)
     = [Call_process_email (browser_session_id s) PNone].
Proof.
  intros Hb Hans Hemail Hid Hsubject. cbv zeta.
  set (handler := _handle_read_email_command G repr type_error_text self svc).
  eassert (Hrun : handler s = (_, _, _)).
  { unfold handler, _handle_read_email_command.
    rewrite bind_get_run, Hb. cbn [negb].
    eapply add_notify_val, try_val, bind_val;
      [eapply await_returns; eassumption|].
    eapply bind_val; [eapply subscript_some; eassumption|].
    eapply bind_val; [cbn [subscript_val]; eapply subscript_some; eassumption|].
    eapply bind_val; [reflexivity|].
    eapply bind_val; [cbn [subscript_val]; eapply subscript_some; eassumption|].
    now apply add_notify_val. }
  read_off Hrun.
Qed.

Lemma X7_read_email_success_witness :
  let s :=
    mkSession "A" (PStr "browser-1") PNone LISTENING PNone 0%Z
      [created_event example_globals] in
  let e :=
    [("email_id", PStr "email-1"); ("subject", PStr "Application status")] in
  let outcome :=
    _handle_read_email_command example_globals example_text example_text
      two_sessions example_services s in
  result_of outcome
  = Val [("status", PStr "success");
         ("message", PStr "Email read successfully");
         ("email", PDict e)]
  /\ current_email_id (state_of outcome) = PStr "email-1"
  /\ current_state (state_of outcome) = LISTENING
  /\ browser_session_id (state_of outcome) = browser_session_id s
  /\ draft_response (state_of outcome) = draft_response s
  /\ events (state_of outcome)
     = (events s
        ++ [WorkflowEvent_new example_globals READING_EMAIL None
              (Some "Reading email")])
       ++ [WorkflowEvent_new example_globals LISTENING
             (Some [("email", PDict e)])
             (Some ("Email read: "
                    +++ py_str example_text (PStr "Application status")))]
  /\ service_calls (trace_of outcome)
     = [Call_process_email (browser_session_id s) PNone].
Proof.
  cbv zeta.
  eapply (X7_read_email_success example_globals example_text example_text
            two_sessions example_services); reflexivity.
Defined.

(** X8.  A failing read can still change the selected email: when the email
    returned by [process_email] has an "email_id" but no "subject", the
    handler has already stored the identifier when the missing key is
    found; the result is the error "'subject'", the session is in [ERROR],
    and [current_email_id] is the new identifier. *)
Theorem X8_read_email_partial_update (G : Globals)
    (repr type_error_text : PyVal -> string) (self : WorkflowController)
    (svc : Services) (s : WorkflowSession) (d e : PyDict) (email_id : PyVal) :
  truthy (browser_session_id s) = true ->
  process_email svc (browser_session_id s) PNone = Returns d ->
  dict_get "email" d = Some (PDict e) ->
  dict_get "email_id" e = Some email_id ->
  dict_get "subject" e = None ->
  let outcome := _handle_read_email_command G repr type_error_text self svc s in
  result_of outcome = Val (error_result "'subject'")
  /\ current_email_id (state_of outcome) = email_id
  /\ current_state (state_of outcome) = ERROR
  /\ map state (events (state_of outcome))
     = map state (events s) ++ [READING_EMAIL; ERROR].
Proof.
  intros Hb Hans Hemail Hid Hsubject. cbv zeta.
  set (handler := _handle_read_email_command G repr type_error_text self svc).
  eassert (Hrun : handler s = (_, _, _)).
  { unfold handler, _handle_read_email_command.
    rewrite bind_get_run, Hb. cbn [negb].
    eapply add_notify_val, try_exn; [|now apply add_notify_val].
    eapply bind_val; [eapply await_returns; eassumption|].
    eapply bind_val; [eapply subscript_some; eassumption|].
    eapply bind_val; [cbn [subscript_val]; eapply subscript_some; eassumption|].
    eapply bind_val; [reflexivity|].
    eapply bind_exn. cbn [subscript_val]. eapply subscript_none; eassumption. }
  read_off Hrun.
Qed.

Lemma X8_read_email_partial_update_witness :
  let s :=
    mkSession "A" (PStr "browser-1") (PStr "email-0") LISTENING PNone 0%Z
      [created_event example_globals] in
  let svc :=
    mkServices (login_to_crm example_services)
      (navigate_to_inbox example_services) (manage_session example_services)
      (fun _ _ => Returns [("email", PDict [("email_id", PStr "email-9")])])
      (submit_draft example_services) in
  let outcome :=
    _handle_read_email_command example_globals example_text example_text
      two_sessions svc s in
  result_of outcome = Val (error_result "'subject'")
  /\ current_email_id (state_of outcome) = PStr "email-9"
  /\ current_state (state_of outcome) = ERROR
  /\ map state (events (state_of outcome))
     = map state (events s) ++ [READING_EMAIL; ERROR].
Proof.
  cbv zeta.
  eapply (X8_read_email_partial_update example_globals example_text
            example_text two_sessions); reflexivity.
Defined.

(** X9.  With an email selected, the generate handler calls [process_email]
    once, for that email.  When the answer carries a "suggested_response",
    it becomes the draft, [GENERATING_RESPONSE] then [REVIEWING] are
    appended and the result carries the draft; otherwise (a missing key or a
    raised fault) [GENERATING_RESPONSE] then [ERROR] are appended, the
    result is an error and the draft is what it was.  The selected email
    and the browser session are kept in both cases. *)
Theorem X9_generate_outcome (G : Globals)
    (type_error_text : PyVal -> string) (self : WorkflowController)
    (svc : Services) (s : WorkflowSession) :
  truthy (current_email_id s) = true ->
  let answer :=
    process_email svc (browser_session_id s) (current_email_id s) in
  let outcome :=
    _handle_generate_response_command G type_error_text self svc s in
  service_calls (trace_of outcome)
  = [Call_process_email (browser_session_id s) (current_email_id s)]
  /\ current_email_id (state_of outcome) = current_email_id s
  /\ browser_session_id (state_of outcome) = browser_session_id s
  /\ match suggested_response answer with
     | Some draft =>
         result_of outcome
         = Val [("status", PStr "success");
                ("message", PStr "Response generated");
                ("draft_response", draft)]
         /\ draft_response (state_of outcome) = draft
         /\ current_state (state_of outcome) = REVIEWING
         /\ map state (events (state_of outcome))
            = map state (events s) ++ [GENERATING_RESPONSE; REVIEWING]
     | None =>
         (exists msg, result_of outcome = Val (error_result msg))
         /\ draft_response (state_of outcome) = draft_response s
         /\ current_state (state_of outcome) = ERROR
         /\ map state (events (state_of outcome))
            = map state (events s) ++ [GENERATING_RESPONSE; ERROR]
     end.
Proof.
  intros Hemail. cbv zeta. unfold suggested_response.
  set (handler := _handle_generate_response_command G type_error_text self svc).
  destruct (process_email svc _ _) as [d|e] eqn:Hans;
    [destruct (dict_get "suggested_response" d) as [draft|] eqn:Hdraft|].
  all: eassert (Hrun : handler s = (_, _, _));
    [unfold handler, _handle_generate_response_command;
     rewrite bind_get_run, Hemail; cbn [negb]; eapply add_notify_val|].
  - eapply try_val, bind_val; [eapply await_returns; eassumption|].
    eapply bind_val; [eapply subscript_some; eassumption|].
    eapply bind_val; [reflexivity|]. now apply add_notify_val.
  - read_off Hrun.
  - eapply try_exn; [|now apply add_notify_val].
    eapply bind_val; [eapply await_returns; eassumption|].
    eapply bind_exn. eapply subscript_none; eassumption.
  - read_off Hrun.
  - eapply try_exn; [|now apply add_notify_val].
    eapply bind_exn. eapply await_raises; eassumption.
  - read_off Hrun.
Qed.

Lemma X9_generate_outcome_witness :
  let s :=
    mkSession "A" (PStr "browser-1") (PStr "email-1") LISTENING PNone 0%Z
      [created_event example_globals] in
  let outcome :=
    _handle_generate_response_command example_globals example_text
      two_sessions example_services s in
  result_of outcome
  = Val [("status", PStr "success"); ("message", PStr "Response generated");
         ("draft_response", PStr "Dear applicant")]
  /\ draft_response (state_of outcome) = PStr "Dear applicant"
  /\ current_state (state_of outcome) = REVIEWING.
Proof.
  cbv zeta.
  pose proof (X9_generate_outcome example_globals example_text two_sessions
                example_services
                (mkSession "A" (PStr "browser-1") (PStr "email-1") LISTENING
                   PNone 0%Z [created_event example_globals])
                eq_refl) as (_ & _ & _ & Hresult & Hdraft & Hstate & _).
  exact (conj Hresult (conj Hdraft Hstate)).
Defined.

(** X10.  With an email selected and a draft present, the submit handler
    calls [submit_draft] once, with that email, the browser session, the
    draft and the [send] flag.  When the call returns, the selected email
    and the draft are cleared and the session is back in [LISTENING]; when
    it raises, both are kept, the session is in [ERROR] and the result is
    the error carrying the text of the fault. *)
Theorem X10_submit_outcome (G : Globals)
    (type_error_text : PyVal -> string) (self : WorkflowController)
    (svc : Services) (send : bool) (s : WorkflowSession) :
  truthy (current_email_id s) = true ->
  truthy (draft_response s) = true ->
  let answer :=
    submit_draft svc (current_email_id s) (browser_session_id s)
      (draft_response s) send in
  let outcome :=
    _handle_submit_response_command G type_error_text self svc send s in
  service_calls (trace_of outcome)
  = [Call_submit_draft (current_email_id s) (browser_session_id s)
       (draft_response s) send]
  /\ browser_session_id (state_of outcome) = browser_session_id s
  /\ match answer with
     | Returns _ =>
         result_of outcome
         = Val (success_result
                  ("Response " +++ (if send then "sent" else "saved as draft")
                   +++ " successfully"))
         /\ current_email_id (state_of outcome) = PNone
         /\ draft_response (state_of outcome) = PNone
         /\ current_state (state_of outcome) = LISTENING
         /\ map state (events (state_of outcome))
            = map state (events s) ++ [SUBMITTING; LISTENING]
     | Raises e =>
         result_of outcome = Val (error_result (exc_str type_error_text e))
         /\ current_email_id (state_of outcome) = current_email_id s
         /\ draft_response (state_of outcome) = draft_response s
         /\ current_state (state_of outcome) = ERROR
         /\ map state (events (state_of outcome))
            = map state (events s) ++ [SUBMITTING; ERROR]
     end.
Proof.
  intros Hemail Hdraft. cbv zeta.
  set (handler := _handle_submit_response_command G type_error_text self svc send).
  destruct (submit_draft svc _ _ _ _) as [d|e] eqn:Hans.
  all: eassert (Hrun : handler s = (_, _, _));
    [unfold handler, _handle_submit_response_command;
     rewrite bind_get_run, Hemail, Hdraft; cbn [negb]; eapply add_notify_val|].
  - eapply try_val, bind_val; [eapply await_returns; eassumption|].
    cbv zeta. eapply add_notify_val.
    eapply bind_val; [reflexivity|]. eapply bind_val; reflexivity.
  - read_off Hrun.
  - eapply try_exn; [|now apply add_notify_val].
    eapply bind_exn. eapply await_raises; eassumption.
  - read_off Hrun.
Qed.

Lemma X10_submit_outcome_witness :
  let s :=
    mkSession "A" (PStr "browser-1") (PStr "email-1") REVIEWING
      (PStr "Dear applicant") 0%Z [created_event example_globals] in
  let outcome :=
    _handle_submit_response_command example_globals example_text two_sessions
      example_services true s in
  result_of outcome = Val (success_result "Response sent successfully")
  /\ current_email_id (state_of outcome) = PNone
  /\ draft_response (state_of outcome) = PNone
  /\ current_state (state_of outcome) = LISTENING.
Proof.
  cbv zeta.
  pose proof (X10_submit_outcome example_globals example_text two_sessions
                example_services true
                (mkSession "A" (PStr "browser-1") (PStr "email-1") REVIEWING
                   (PStr "Dear applicant") 0%Z [created_event example_globals])
                eq_refl eq_refl)
    as (_ & _ & Hresult & Hemail & Hdraft & Hstate & _).
  exact (conj Hresult (conj Hemail (conj Hdraft Hstate))).
Defined.

Lemma submit_returned_clears (G : Globals)
    (type_error_text : PyVal -> string) (self : WorkflowController)
    (svc : Services) (send : bool) (s : WorkflowSession) (d : PyDict) :
  truthy (current_email_id s) = true ->
  truthy (draft_response s) = true ->
  submit_draft svc (current_email_id s) (browser_session_id s)
    (draft_response s) send = Returns d ->
  current_email_id
    (state_of (_handle_submit_response_command G type_error_text self svc
                 send s)) = PNone.
Proof.
  intros Hemail Hdraft Hans.
  set (handler := _handle_submit_response_command G type_error_text self svc send).
  eassert (Hrun : handler s = (_, _, _)).
  { unfold handler, _handle_submit_response_command.
    rewrite bind_get_run, Hemail, Hdraft. cbn [negb].
    eapply add_notify_val, try_val, bind_val;
      [eapply await_returns; eassumption|].
    cbv zeta. eapply add_notify_val.
    eapply bind_val; [reflexivity|]. eapply bind_val; reflexivity. }
  now rewrite Hrun.
Qed.

(** X11.  A response is submitted at most once: after a submit whose call
    to [submit_draft] returned, a second submit (sending or saving) on the
    same session is refused with "No email selected" and calls no
    collaborator. *)
Theorem X11_submit_twice_is_refused (G : Globals)
    (type_error_text : PyVal -> string) (self : WorkflowController)
    (svc svc' : Services) (send send' : bool) (s : WorkflowSession)
    (d : PyDict) :
  truthy (current_email_id s) = true ->
  truthy (draft_response s) = true ->
  submit_draft svc (current_email_id s) (browser_session_id s)
    (draft_response s) send = Returns d ->
  let first :=
    _handle_submit_response_command G type_error_text self svc send s in
  refused G "Cannot submit response: No email selected" "No email selected"
    (state_of first)
    (_handle_submit_response_command G type_error_text self svc' send'
       (state_of first)).
Proof.
  intros Hemail Hdraft Hans. cbv zeta.
  pose proof (submit_returned_clears G type_error_text self svc send s d
                Hemail Hdraft Hans) as Hcleared.
  set (s1 := state_of _) in *.
  unfold _handle_submit_response_command at 1.
  rewrite bind_get_run, Hcleared. cbn [truthy negb]. apply refuse_refused.
Qed.

Lemma X11_submit_twice_is_refused_witness :
  let s :=
    mkSession "A" (PStr "browser-1") (PStr "email-1") REVIEWING
      (PStr "Dear applicant") 0%Z [created_event example_globals] in
  let first :=
    _handle_submit_response_command example_globals example_text two_sessions
      example_services true s in
  refused example_globals "Cannot submit response: No email selected"
    "No email selected" (state_of first)
    (_handle_submit_response_command example_globals example_text two_sessions
       example_services false (state_of first)).
Proof.
  cbv zeta.
  eapply (X11_submit_twice_is_refused example_globals example_text
            two_sessions example_services example_services true false);
    reflexivity.
Defined.

(** X12.  On an authenticated session the inbox handler calls
    [navigate_to_inbox] once, with the browser session.  It answers
    "success" and returns to [LISTENING] exactly when the collaborator
    returns status "success"; otherwise the session is in [ERROR] and the
    result is an error.  The browser session, the selected email and the
    draft are kept in both cases. *)
Theorem X12_inbox_outcome (G : Globals)
    (repr type_error_text : PyVal -> string) (self : WorkflowController)
    (svc : Services) (s : WorkflowSession) :
  truthy (browser_session_id s) = true ->
  let answer := navigate_to_inbox svc (browser_session_id s) in
  let outcome := _handle_inbox_command G repr type_error_text self svc s in
  service_calls (trace_of outcome)
  = [Call_navigate_to_inbox (browser_session_id s)]
  /\ browser_session_id (state_of outcome) = browser_session_id s
  /\ current_email_id (state_of outcome) = current_email_id s
  /\ draft_response (state_of outcome) = draft_response s
  /\ if navigated answer then
       result_of outcome = Val (success_result "Navigation successful")
       /\ current_state (state_of outcome) = LISTENING
       /\ map state (events (state_of outcome))
          = map state (events s) ++ [NAVIGATING; LISTENING]
     else
       (exists msg, result_of outcome = Val (error_result msg))
       /\ current_state (state_of outcome) = ERROR
       /\ map state (events (state_of outcome))
          = map state (events s) ++ [NAVIGATING; ERROR].
Proof.
  intros Hb. cbv zeta. unfold navigated.
  set (handler := _handle_inbox_command G repr type_error_text self svc).
  destruct (navigate_to_inbox svc _) as [d|e] eqn:Hans;
    [destruct (dict_get "status" d) as [st|] eqn:Hst;
     [destruct (eq_str st "success") eqn:Heq|]|].
  all: eassert (Hrun : handler s = (_, _, _));
    [unfold handler, _handle_inbox_command;
     rewrite bind_get_run, Hb; cbn [negb]; eapply add_notify_val|].
  - eapply try_val, bind_val; [eapply await_returns; eassumption|].
    eapply bind_val; [eapply subscript_some; eassumption|]. rewrite Heq.
    now apply add_notify_val.
  - read_off Hrun.
  - eapply try_val, bind_val; [eapply await_returns; eassumption|].
    eapply bind_val; [eapply subscript_some; eassumption|]. rewrite Heq.
    now apply add_notify_val.
  - read_off Hrun.
  - eapply try_exn; [|now apply add_notify_val].
    eapply bind_val; [eapply await_returns; eassumption|].
    eapply bind_exn. eapply subscript_none; eassumption.
  - read_off Hrun.
  - eapply try_exn; [|now apply add_notify_val].
    eapply bind_exn. eapply await_raises; eassumption.
  - read_off Hrun.
Qed.

Lemma X12_inbox_outcome_witness :
  let s :=
    mkSession "A" (PStr "browser-1") PNone LISTENING PNone 0%Z
      [created_event example_globals] in
  let outcome :=
    _handle_inbox_command example_globals example_text example_text
      two_sessions example_services s in
  result_of outcome = Val (success_result "Navigation successful")
  /\ current_state (state_of outcome) = LISTENING.
Proof.
  cbv zeta.
  pose proof (X12_inbox_outcome example_globals example_text example_text
                two_sessions example_services
                (mkSession "A" (PStr "browser-1") PNone LISTENING PNone 0%Z
                   [created_event example_globals])
                eq_refl) as (_ & _ & _ & _ & Hresult & Hstate & _).
  exact (conj Hresult Hstate).
Defined.

(** ** The registry and its snapshots *)

Lemma get_session_unknown (self : WorkflowController) (sid : string) :
  dict_get sid (sessions self) = None -> get_session self sid = None.
Proof. intros H. unfold get_session, dict_in. now rewrite H. Qed.

Lemma dict_get_del_other {V} (k key : string) (d : list (string * V)) :
  k <> key -> dict_get k (dict_del key d) = dict_get k d.
Proof.
  intros Hne. induction d as [|[k0 v0] d IH]; simpl; [reflexivity|].
  destruct (String.eqb_spec key k0) as [->|Hk]; simpl.
  - destruct (String.eqb_spec k k0); [contradiction|reflexivity].
  - now rewrite IH.
Qed.

Lemma snapshots_of_registry (registry : list (string * WorkflowSession))
    (listeners : list Listener) :
  NoDup (dict_keys registry) ->
  get_all_sessions (mkController registry listeners)
  = map (fun entry => Some (snapshot_of (snd entry))) registry.
Proof.
  intros Hnd. unfold get_all_sessions, dict_keys. cbn [sessions].
  rewrite map_map. apply map_ext_in. intros [k s] Hin. cbn [fst snd].
  apply get_session_snapshot. cbn [sessions].
  induction registry as [|[k0 s0] rest IH]; [contradiction|].
  inversion Hnd as [|? ? Hnotin Hnd']; subst. simpl.
  destruct (String.eqb_spec k k0) as [->|Hne].
  - destruct Hin as [[= ->]|Hin]; [reflexivity|].
    exfalso. apply Hnotin. now apply (in_map fst) in Hin.
  - destruct Hin as [[= -> ->]|Hin]; [contradiction|]. now apply IH.
Qed.

(** X13.  Right after [create_session], whatever the controller held,
    [get_session] on the returned identifier gives the snapshot of a fresh
    session: state [LISTENING], no browser session, no email, no draft, one
    event, which is the last event. *)
Theorem X13_get_session_after_create (G : Globals) (uuid4 : string)
    (self : WorkflowController) :
  get_session (state_of (create_session G uuid4 self)) uuid4
  = Some (mkInfo uuid4 PNone LISTENING PNone false
            (WorkflowSession_start_time G) 1 (Some (created_event G))).
Proof.
  rewrite create_session_run. unfold state_of. cbn [fst snd].
  erewrite get_session_snapshot by (cbn [sessions]; apply dict_get_set_same).
  reflexivity.
Qed.

(** X14.  In every state the controller can be in between two operations,
    [get_all_sessions] lists exactly one snapshot per registered session,
    in the order of the registry, each being the snapshot of that session;
    and [get_session] answers [None] exactly for the identifiers that are
    not registered. *)
Theorem X14_snapshots_follow_registry (G : Globals)
    (repr type_error_text : PyVal -> string) (self : WorkflowController) :
  reachable G repr type_error_text self ->
  get_all_sessions self
  = map (fun entry => Some (snapshot_of (snd entry))) (sessions self)
  /\ map (option_map info_session_id) (get_all_sessions self)
     = map Some (dict_keys (sessions self))
  /\ forall sid,
       get_session self sid = None <-> ~ In sid (dict_keys (sessions self)).
Proof.
  intros Hreach. destruct (reachable_RegInv _ _ _ _ Hreach) as [Hnd Hall].
  assert (get_all_sessions self
          = map (fun entry => Some (snapshot_of (snd entry))) (sessions self))
    as Hsnap.
  { destruct self as [registry listeners]. now apply snapshots_of_registry. }
  split; [exact Hsnap|]. split.
  - rewrite Hsnap. unfold dict_keys. rewrite !map_map.
    apply map_ext_in. intros [k s] Hin. cbn.
    now destruct (Hall k s Hin) as (-> & _).
  - intros sid. rewrite <- dict_get_None. split.
    + intros Hnone.
      destruct (dict_get sid (sessions self)) as [s|] eqn:Hget; [|reflexivity].
      rewrite (get_session_snapshot _ _ _ Hget) in Hnone. discriminate.
    + apply get_session_unknown.
Qed.

Lemma X14_snapshots_follow_registry_witness :
  get_all_sessions after_login
  = map (fun entry => Some (snapshot_of (snd entry))) (sessions after_login)
  /\ map (option_map info_session_id) (get_all_sessions after_login)
     = map Some (dict_keys (sessions after_login))
  /\ forall sid,
       get_session after_login sid = None
       <-> ~ In sid (dict_keys (sessions after_login)).
Proof.
  apply (X14_snapshots_follow_registry example_globals example_text
           example_text after_login).
  apply reachable_run, reachable_run, reachable_init.
Defined.

(** X15.  Ending a registered session removes that entry and nothing else:
    every other identifier still maps to the session it mapped to, and the
    listeners are kept.  If the session has a browser session,
    [manage_session] is asked once to end it, before the [IDLE] event, and
    whatever it answers, or raises, the session is removed and the result is
    "ended"; without a browser session no collaborator is called. *)
Theorem X15_end_session_removes_one_entry (G : Globals) (svc : Services)
    (sid : string) (self : WorkflowController) (s : WorkflowSession) :
  dict_get sid (sessions self) = Some s ->
  let outcome := end_session G svc sid self in
  result_of outcome
  = Val [("status", PStr "ended"); ("session_id", PStr sid)]
  /\ sessions (state_of outcome) = dict_del sid (sessions self)
  /\ (forall k, k <> sid ->
        dict_get k (sessions (state_of outcome)) = dict_get k (sessions self))
  /\ event_listeners (state_of outcome) = event_listeners self
  /\ service_calls (trace_of outcome)
     = (if truthy (browser_session_id s)
        then [Call_manage_session "end" (browser_session_id s)]
        else [])
  /\ trace_of outcome
     = (if truthy (browser_session_id s)
        then [Called (Call_manage_session "end" (browser_session_id s))]
        else [])
       ++ Appended (session_id s) (ended_event G)
       :: notify_loop (event_listeners self) (ended_event G)
       ++ [Deleted sid].
Proof.
  intros Hget. cbv zeta. rewrite (end_session_present G svc sid self s Hget).
  unfold result_of, state_of, trace_of. cbn [fst snd sessions event_listeners].
  repeat split.
  - intros k Hne. now apply dict_get_del_other.
  - autorewrite with calls.
    destruct (truthy (browser_session_id s)); reflexivity.
Qed.

Lemma X15_end_session_removes_one_entry_witness :
  exists s,
    dict_get "A" (sessions after_login) = Some s
    /\ let outcome := end_session example_globals example_services "A"
                        after_login in
       result_of outcome
       = Val [("status", PStr "ended"); ("session_id", PStr "A")]
       /\ dict_keys (sessions (state_of outcome)) = ["B"]
       /\ service_calls (trace_of outcome)
          = [Call_manage_session "end" (PStr "browser-1")].
Proof.
  destruct (dict_get "A" (sessions after_login)) as [s|] eqn:Hget;
    [|vm_compute in Hget; discriminate Hget].
  exists s. split; [reflexivity|]. cbv zeta.
  pose proof (X15_end_session_removes_one_entry example_globals
                example_services "A" after_login s Hget)
    as (Hresult & Hsessions & _ & _ & Hcalls & _).
  split; [exact Hresult|]. split.
  - rewrite Hsessions. reflexivity.
  - rewrite Hcalls. vm_compute in Hget. injection Hget as <-. reflexivity.
Defined.

(** X16.  A command without session identifier changes at most one entry of
    the registry.  From a state reached by the operations of the controller:
    with an empty registry one session is created, under the drawn
    identifier; otherwise the identifiers and their order are kept and every
    session but the first registered one is left exactly as it was.  The
    listeners are kept. *)
Theorem X16_command_changes_one_session (G : Globals)
    (repr type_error_text : PyVal -> string) (svc : Services)
    (uuid4 command : string) (self : WorkflowController) :
  reachable G repr type_error_text self ->
  let outcome :=
    process_voice_command G repr type_error_text svc uuid4 command self in
  event_listeners (state_of outcome) = event_listeners self
  /\ match sessions self with
     | [] => dict_keys (sessions (state_of outcome)) = [uuid4]
     | (key, _) :: _ =>
         dict_keys (sessions (state_of outcome)) = dict_keys (sessions self)
         /\ forall k, k <> key ->
              dict_get k (sessions (state_of outcome))
              = dict_get k (sessions self)
     end.
Proof.
  intros Hreach. cbv zeta.
  pose proof (active_session_is_first _ _ _ _ Hreach) as Hact.
  destruct (sessions self) as [|[key s0] rest] eqn:Hs; cbn [hd_error] in Hact.
  - rewrite (process_voice_command_fresh _ _ _ _ _ _ _ Hact).
    rewrite create_session_run. unfold state_of. cbn [fst snd sessions].
    rewrite Hs. cbn [dict_set]. rewrite String.eqb_refl. now split.
  - assert (dict_get key (sessions self) = Some s0) as Hget.
    { rewrite Hs. cbn [dict_get]. now rewrite String.eqb_refl. }
    rewrite (process_voice_command_active _ _ _ _ _ _ _ _ _ _ Hact Hget).
    unfold state_of at 1 2 3. cbn [fst snd sessions event_listeners].
    split; [reflexivity|]. rewrite Hs. split.
    + cbn [dict_set]. now rewrite String.eqb_refl.
    + intros k Hne. now apply dict_get_set_other.
Qed.

Lemma X16_command_changes_one_session_witness :
  let outcome :=
    process_voice_command example_globals example_text example_text
      example_services "C" "read my email" after_login in
  event_listeners (state_of outcome) = event_listeners after_login
  /\ dict_keys (sessions (state_of outcome)) = ["A"; "B"]
  /\ dict_get "B" (sessions (state_of outcome))
     = dict_get "B" (sessions after_login).
Proof.
  cbv zeta.
  pose proof (X16_command_changes_one_session example_globals example_text
                example_text example_services "C" "read my email" after_login)
    as H.
  assert (reachable example_globals example_text example_text after_login)
    as Hreach by apply reachable_run, reachable_run, reachable_init.
  specialize (H Hreach). cbv zeta in H.
  destruct H as [Hls H]. split; [exact Hls|].
  change (sessions after_login)
    with (("A", snd (hd ("", created_session example_globals "")
                       (sessions after_login)))
          :: tl (sessions after_login)) in H at 1.
  cbv beta iota in H. destruct H as [Hkeys Hother].
  split; [rewrite Hkeys; reflexivity|].
  apply Hother. discriminate.
Defined.

(** X17.  The voice bridge and the programmatic entry point differ only when
    no session exists.  From a state reached by the operations of the
    controller: with a non-empty registry a detected command is processed
    exactly as [process_voice_command] processes it; with an empty registry
    it is dropped, nothing changes and no session is created, whereas
    [process_voice_command] creates one.  A detected wake word does what
    [create_session] does. *)
Theorem X17_voice_bridge (G : Globals)
    (repr type_error_text : PyVal -> string) (svc : Services)
    (uuid4 command : string) (self : WorkflowController) :
  reachable G repr type_error_text self ->
  let bridge event :=
    _handle_voice_event G repr type_error_text svc uuid4 event self in
  let direct :=
    process_voice_command G repr type_error_text svc uuid4 command self in
  state_of (bridge wake_word_detected) = state_of (create_session G uuid4 self)
  /\ trace_of (bridge wake_word_detected)
     = trace_of (create_session G uuid4 self)
  /\ match sessions self with
     | [] =>
         bridge (command_detected command) = (Val tt, self, [])
         /\ dict_keys (sessions (state_of direct)) = [uuid4]
     | _ :: _ =>
         state_of (bridge (command_detected command)) = state_of direct
         /\ trace_of (bridge (command_detected command)) = trace_of direct
     end.
Proof.
  intros Hreach. cbv zeta.
  pose proof (active_session_is_first _ _ _ _ Hreach) as Hact.
  cbn [_handle_voice_event].
  rewrite (bind_ret_state _ (fun _ => tt)), (bind_ret_trace _ (fun _ => tt)).
  split; [reflexivity|]. split; [reflexivity|].
  rewrite bind_get_run.
  destruct (sessions self) as [|[key s0] rest] eqn:Hs; cbn [hd_error] in Hact.
  - rewrite Hact. split; [reflexivity|].
    rewrite (process_voice_command_fresh _ _ _ _ _ _ _ Hact).
    rewrite create_session_run. unfold state_of. cbn [fst snd sessions].
    rewrite Hs. cbn [dict_set]. now rewrite String.eqb_refl.
  - rewrite Hact.
    rewrite (bind_ret_state _ (fun _ => tt)), (bind_ret_trace _ (fun _ => tt)).
    unfold process_voice_command. rewrite bind_get_run, Hact.
    now split.
Qed.

Lemma X17_voice_bridge_witness :
  _handle_voice_event example_globals example_text example_text
    example_services "C" (command_detected "login") WorkflowController_init
  = (Val tt, WorkflowController_init, [])
  /\ dict_keys
       (sessions
          (state_of
             (process_voice_command example_globals example_text example_text
                example_services "C" "login" WorkflowController_init)))
     = ["C"].
Proof.
  pose proof (X17_voice_bridge example_globals example_text example_text
                example_services "C" "login" WorkflowController_init
                (reachable_init _ _ _)) as (_ & _ & H).
  exact H.
Defined.

(** ** The HTTP routes *)

Lemma bind_ret_run {S A B} (a : A) (f : A -> M S B) (s : S) :
  bind (ret a) f s = f a s.
Proof. unfold bind, ret. now destruct (f a s) as [[r s2] t2]. Qed.

Lemma guarded_val {A} (type_error_text : PyVal -> string) (prefix : string)
    (op : M WorkflowController A) (self : WorkflowController) (a : A) :
  result_of (op self) = Val a ->
  response_of (guarded type_error_text prefix op self) = Response a.
Proof.
  unfold guarded, response_of, result_of.
  destruct (op self) as [[r self'] t]. cbn [fst snd]. now intros ->.
Qed.

(** X18.  The workflow routes never answer with an error of the server: no
    fault of a collaborator or of a listener reaches them.  The command
    route answers with the result of [process_voice_command] and its
    [session_id] field has no effect at all; the create route answers with
    the new identifier; the end route answers normally also for an unknown
    identifier, with the body "Session not found"; only the get route turns
    an unknown identifier into a 404, and answers with the snapshot of the
    session otherwise. *)
Theorem X18_workflow_routes (G : Globals)
    (repr type_error_text : PyVal -> string) (svc : Services)
    (uuid4 sid : string) (request : CommandRequest)
    (self : WorkflowController) :
  (exists body,
      response_of
        (route_process_command G repr type_error_text svc uuid4 request self)
      = Response body
      /\ result_of
           (process_voice_command G repr type_error_text svc uuid4
              (request_command request) self)
         = Val body)
  /\ route_process_command G repr type_error_text svc uuid4 request self
     = route_process_command G repr type_error_text svc uuid4
         (mkCommandRequest (request_command request) None) self
  /\ response_of (route_create_session G type_error_text uuid4 self)
     = Response [("session_id", PStr uuid4); ("status", PStr "created")]
  /\ (exists body,
         response_of (route_end_session G type_error_text svc sid self)
         = Response body
         /\ (dict_get sid (sessions self) = None ->
             body = error_result "Session not found"))
  /\ route_get_session sid self
     = match dict_get sid (sessions self) with
       | Some s => Response (snapshot_of s)
       | None => HTTPException 404 ("Session " +++ sid +++ " not found")
       end.
Proof.
  assert (forall request',
             route_process_command G repr type_error_text svc uuid4 request'
               self
             = guarded type_error_text "Error processing command: "
                 (process_voice_command G repr type_error_text svc uuid4
                    (request_command request')) self) as Hroute.
  { intros request'. unfold route_process_command, guarded.
    destruct (request_session_id request') as [hint|];
      [destruct (negb (String.eqb hint ""))|]; now rewrite bind_ret_run. }
  split; [|split; [|split; [|split]]].
  - destruct (process_voice_command_ok G repr type_error_text svc uuid4
                (request_command request) self) as ([body Hbody] & _).
    exists body. split; [|exact Hbody].
    rewrite Hroute. now apply guarded_val.
  - now rewrite !Hroute.
  - apply guarded_val. now rewrite create_session_run.
  - destruct (end_session_ok G svc sid self) as ([body Hbody] & _).
    exists body. split; [now apply guarded_val|].
    intros Hnone. rewrite end_session_missing in Hbody
      by (unfold dict_in; now rewrite Hnone).
    now injection Hbody as <-.
  - unfold route_get_session.
    destruct (dict_get sid (sessions self)) as [s|] eqn:Hget.
    + now rewrite (get_session_snapshot _ _ _ Hget).
    + now rewrite (get_session_unknown _ _ Hget).
Qed.

(** ** The controller with the placeholder services *)

Lemma command_on_first_session (G : Globals)
    (repr type_error_text : PyVal -> string) (svc : Services)
    (uuid4 command : string) (listeners : list Listener) :
  let self := mkController [] listeners in
  let self1 := mkController [(uuid4, created_session G uuid4)] listeners in
  let pc :=
    _process_command G repr type_error_text self1 svc command
      (created_session G uuid4) in
  state_of
    (process_voice_command G repr type_error_text svc uuid4 command self)
  = mkController [(uuid4, state_of pc)] listeners.
Proof.
  cbv zeta.
  rewrite (process_voice_command_fresh G repr type_error_text svc uuid4
             command (mkController [] listeners) eq_refl).
  rewrite create_session_run. unfold state_of. cbn [fst snd sessions dict_set].
  now rewrite String.eqb_refl.
Qed.

Lemma command_on_single_session (G : Globals)
    (repr type_error_text : PyVal -> string) (svc : Services)
    (uuid4 command key : string) (s : WorkflowSession)
    (listeners : list Listener) :
  current_state s <> IDLE ->
  let self := mkController [(key, s)] listeners in
  state_of
    (process_voice_command G repr type_error_text svc uuid4 command self)
  = mkController
      [(key, state_of (_process_command G repr type_error_text self svc
                         command s))]
      listeners.
Proof.
  intros Hidle. cbv zeta.
  assert (_get_active_session (mkController [(key, s)] listeners)
          = Some (key, s)) as Hact.
  { unfold _get_active_session. cbn.
    now destruct (current_state s). }
  assert (dict_get key (sessions (mkController [(key, s)] listeners)) = Some s)
    as Hget by (cbn; now rewrite String.eqb_refl).
  rewrite (process_voice_command_active _ _ _ _ _ _ _ _ _ _ Hact Hget).
  unfold state_of. cbn [fst snd sessions dict_set].
  now rewrite String.eqb_refl.
Qed.

(** X19.  The controller with the collaborators as delivered, on a
    controller without sessions and with any listeners: the commands
    "login to Slate", "read the first email", "generate a response" and
    "send it" are all processed on the one session that the first command
    creates.  After the second command the selected email is "email123"
    (the placeholder's default); after the third the draft is the
    placeholder's suggested reply, the text that [process_email] returns
    under "suggested_response", and the session is in [REVIEWING]; after
    the fourth the email and the draft are cleared, the browser session is
    the one granted at login, and the session is in [LISTENING] with
    thirteen events. *)
Theorem X19_conversation_with_placeholder_services (G : Globals)
    (repr type_error_text : PyVal -> string) (confidence : PyVal)
    (listeners : list Listener) (session_uuid start_uuid : string)
    (c : ascii) (rest : string) (t1 t2 t3 t4 : datetime) :
  let login_uuid := String c rest in
  let svc := placeholder_services confidence login_uuid start_uuid in
  let schedule :=
    [ (t1, Op_process_voice_command svc session_uuid "login to Slate");
      (t2, Op_process_voice_command svc session_uuid "read the first email");
      (t3, Op_process_voice_command svc session_uuid "generate a response");
      (t4, Op_process_voice_command svc session_uuid "send it") ] in
  let after n :=
    map (fun entry =>
           (fst entry, browser_session_id (snd entry),
            current_email_id (snd entry), current_state (snd entry)))
        (sessions
           (run G repr type_error_text (firstn n schedule)
              (mkController [] listeners))) in
  let final :=
    run G repr type_error_text schedule (mkController [] listeners) in
  after 1 = [(session_uuid, PStr login_uuid, PNone, LISTENING)]
  /\ after 2 = [(session_uuid, PStr login_uuid, PStr "email123", LISTENING)]
  /\ after 3 = [(session_uuid, PStr login_uuid, PStr "email123", REVIEWING)]
  /\ after 4 = [(session_uuid, PStr login_uuid, PNone, LISTENING)]
  /\ map (fun entry => truthy (draft_response (snd entry)))
       (sessions (run G repr type_error_text (firstn 3 schedule)
                    (mkController [] listeners)))
     = [true]
  /\ map (fun entry => Some (draft_response (snd entry)))
       (sessions (run G repr type_error_text (firstn 3 schedule)
                    (mkController [] listeners)))
     = [dict_get "suggested_response"
          (EmailService_process_email confidence (PStr login_uuid)
             (PStr "email123"))]
  /\ map (fun entry => draft_response (snd entry))
       (sessions (run G repr type_error_text (firstn 3 schedule)
                    (mkController [] listeners)))
     = [PStr "Thank you for your inquiry. I can confirm that we have received your application and it is currently being reviewed by our admissions committee. You can expect to hear back from us within the next 2-3 weeks. If you have any other questions, please don't hesitate to ask."]
  /\ map (fun entry =>
            (draft_response (snd entry), map state (events (snd entry))))
       (sessions final)
     = [(PNone,
         [LISTENING;
          PROCESSING_COMMAND; AUTHENTICATING; LISTENING;
          PROCESSING_COMMAND; READING_EMAIL; LISTENING;
          PROCESSING_COMMAND; GENERATING_RESPONSE; REVIEWING;
          PROCESSING_COMMAND; SUBMITTING; LISTENING])].
Proof.
  cbv zeta. cbn [run perform firstn].
  rewrite !(bind_ret_state _ Some).
  rewrite command_on_first_session.
  set (s1 := state_of (_process_command _ _ _ _ _ "login to Slate" _)).
  vm_compute in s1. subst s1.
  rewrite command_on_single_session by discriminate.
  set (s2 := state_of (_process_command _ _ _ _ _ "read the first email" _)).
  vm_compute in s2. subst s2.
  rewrite command_on_single_session by discriminate.
  set (s3 := state_of (_process_command _ _ _ _ _ "generate a response" _)).
  vm_compute in s3. subst s3.
  rewrite command_on_single_session by discriminate.
  set (s4 := state_of (_process_command _ _ _ _ _ "send it" _)).
  vm_compute in s4. subst s4.
  repeat split.
Qed.

(** ** The placeholder inbox *)

Lemma range_from_one (n : Z) :
  range 1 (n + 1) = map (fun k => (1 + Z.of_nat k)%Z) (seq 0 (Z.to_nat n)).
Proof. unfold range. now replace (n + 1 - 1)%Z with n by lia. Qed.

Lemma firstn_seq_min (n start len : nat) :
  firstn n (seq start len) = seq start (Nat.min n len).
Proof.
  revert start len. induction n as [|n IH]; intros start [|len]; simpl;
    try reflexivity.
  now rewrite IH.
Qed.

(** X20 ([EmailService.list_emails]): whatever the limit, the listing is the
    first [limit] entries of the same five placeholder emails, "email1" to
    "email5", of which the even-numbered ones are read; a limit of zero or
    less gives the empty listing and a limit above five gives all five. *)
Theorem X20_list_emails_prefix_of_five (session_id other : PyVal) (limit : Z) :
  EmailService_list_emails session_id limit
  = firstn (Z.to_nat limit) (EmailService_list_emails other 5)
  /\ length (EmailService_list_emails session_id limit)
     = Z.to_nat (Z.min limit 5)
  /\ map (dict_get "email_id") (EmailService_list_emails other 5)
     = map (fun s => Some (PStr s))
         ["email1"; "email2"; "email3"; "email4"; "email5"]
  /\ map (dict_get "read") (EmailService_list_emails other 5)
     = map (fun b => Some (PBool b)) [false; true; false; true; false].
Proof.
  assert (Hfive : (Z.min (5 + 1) 6 = 5 + 1)%Z) by lia.
  assert (Hmin : (Z.min (limit + 1) 6 = Z.min limit 5 + 1)%Z) by lia.
  unfold EmailService_list_emails.
  rewrite Hfive, Hmin, !range_from_one.
  split; [|split; [|split; reflexivity]].
  - rewrite !firstn_map, firstn_seq_min. do 2 f_equal.
    rewrite Z2Nat.inj_min. reflexivity.
  - now rewrite !length_map, length_seq.
Qed.

(** ** Service monitoring *)

Import Monitoring.

Section MetricsFacts.
Context {float : Type}.
Implicit Types (m : ServiceMetrics float) (r : Request float)
  (requests : list (Request float)).

Lemma record_requests_snoc requests r m :
  record_requests (requests ++ [r]) m
  = ServiceMetrics_record_request (request_now r) (request_success r)
      (request_response_time r) (request_error r)
      (record_requests requests m).
Proof. unfold record_requests. now rewrite fold_left_app. Qed.

Lemma filter_snoc {A} (f : A -> bool) (xs : list A) (x : A) :
  filter f (xs ++ [x]) = if f x then filter f xs ++ [x] else filter f xs.
Proof.
  rewrite filter_app. simpl. destruct (f x); [reflexivity|apply app_nil_r].
Qed.

Lemma record_requests_counters requests m :
  let m' := record_requests requests m in
  requests_total m' = (requests_total m + Z.of_nat (length requests))%Z
  /\ requests_success m'
     = (requests_success m
        + Z.of_nat (length (filter request_success requests)))%Z
  /\ requests_error m'
     = (requests_error m + Z.of_nat (length (filter request_failed requests)))%Z
  /\ service_name m' = service_name m
  /\ start_time m' = start_time m.
Proof.
  induction requests as [|r requests IH] using rev_ind; cbv zeta.
  - cbn. repeat split; lia.
  - destruct IH as (Ht & Hs & He & Hn & Hst).
    rewrite record_requests_snoc, !filter_snoc, length_app.
    unfold request_failed at 1.
    unfold ServiceMetrics_record_request.
    destruct (request_success r); cbn [negb requests_total requests_success
      requests_error service_name start_time length];
      rewrite ?length_app; cbn [length];
      repeat split; try assumption; lia.
Qed.

Lemma tl_skipn {A} (k : nat) (xs : list A) :
  tl (skipn k xs) = skipn (S k) xs.
Proof.
  revert xs. induction k as [|k IH]; intros [|x xs]; try reflexivity.
  exact (IH xs).
Qed.

(** Popping the oldest of more than [n] samples keeps the last [n]. *)
Lemma window_step {A} (n : nat) (samples : list A) (x : A) :
  0 < n ->
  let times := skipn (length samples - n) samples ++ [x] in
  (if Nat.ltb n (length times) then tl times else times)
  = skipn (length (samples ++ [x]) - n) (samples ++ [x]).
Proof.
  intros Hn. cbv zeta. rewrite !length_app, length_skipn. cbn [length].
  destruct (Nat.ltb_spec n (length samples - (length samples - n) + 1))
    as [Hlt|Hge].
  - assert (Hlen : n <= length samples) by lia.
    replace (length samples + 1 - n) with (S (length samples - n)) by lia.
    rewrite skipn_app.
    replace (S (length samples - n) - length samples) with 0 by lia.
    change (skipn 0 [x]) with [x].
    rewrite <- tl_skipn.
    destruct (skipn (length samples - n) samples) as [|y ys] eqn:Hsk;
      [|reflexivity].
    apply (f_equal (@length A)) in Hsk. rewrite length_skipn in Hsk.
    cbn in Hsk. lia.
  - replace (length samples - n) with 0 by lia.
    replace (length samples + 1 - n) with 0 by lia.
    reflexivity.
Qed.

Lemma record_requests_window requests now name :
  response_times (record_requests requests (ServiceMetrics_new now name))
  = skipn (length requests - 100) (map request_response_time requests).
Proof.
  induction requests as [|r requests IH] using rev_ind; [reflexivity|].
  rewrite record_requests_snoc, map_app. cbn [map].
  pose proof (window_step 100 (map request_response_time requests)
                (request_response_time r) ltac:(lia)) as Hw.
  cbv zeta in Hw. rewrite length_map, <- IH in Hw.
  replace (length (requests ++ [r]))
    with (length (map request_response_time requests
                  ++ [request_response_time r]))
    by now rewrite !length_app, length_map.
  rewrite <- Hw.
  unfold ServiceMetrics_record_request.
  now destruct (request_success r).
Qed.

End MetricsFacts.

(** X21 ([ServiceMetrics.record_request], [success_rate]): on metrics that
    start fresh, the total is the number of requests recorded, the success
    and error counts are the numbers of requests that succeeded and failed,
    so the total is always their sum; the name and the start time never
    change, and the success rate is undefined exactly when nothing has been
    recorded. *)
Theorem X21_request_counters {float : Type} (percent : Z -> Z -> float)
    (now : datetime) (name : string) (requests : list (Request float)) :
  let m := record_requests requests (ServiceMetrics_new now name) in
  requests_total m = Z.of_nat (length requests)
  /\ requests_success m
     = Z.of_nat (length (filter request_success requests))
  /\ requests_error m
     = Z.of_nat (length (filter request_failed requests))
  /\ requests_total m = (requests_success m + requests_error m)%Z
  /\ service_name m = name
  /\ start_time m = now
  /\ success_rate percent m
     = match requests with
       | [] => None
       | _ => Some (percent
                      (Z.of_nat (length (filter request_success requests)))
                      (Z.of_nat (length requests)))
       end.
Proof.
  cbv zeta.
  destruct (record_requests_counters requests (ServiceMetrics_new now name))
    as (Ht & Hs & He & Hn & Hst).
  cbn [ServiceMetrics_new requests_total requests_success requests_error
       service_name start_time] in *.
    unfold success_rate. rewrite Ht, Hs, He.
  repeat split; try assumption.
  - enough (length requests
            = length (filter request_success requests)
              + length (filter request_failed requests)) by lia.
    clear. induction requests as [|r requests IH]; [reflexivity|].
    cbn [filter]. unfold request_failed at 1.
    destruct (request_success r); cbn [negb length]; lia.
  - destruct requests as [|r requests]; [reflexivity|].
    cbn [length]. now destruct (Z.eqb_spec (0 + Z.of_nat (S (length requests))) 0); [lia|].
Qed.

(** X22 ([ServiceMetrics.record_request], [avg_response_time]): the response
    times kept are the last hundred recorded, oldest first, so never more
    than a hundred; the average is undefined exactly when nothing has been
    recorded and is otherwise taken over that window only. *)
Theorem X22_response_times_keep_last_hundred {float : Type}
    (mean : list float -> float) (now : datetime) (name : string)
    (requests : list (Request float)) :
  let m := record_requests requests (ServiceMetrics_new now name) in
  response_times m
  = skipn (length requests - 100) (map request_response_time requests)
  /\ length (response_times m) = Nat.min (length requests) 100
  /\ avg_response_time mean m
     = match requests with
       | [] => None
       | _ => Some (mean (skipn (length requests - 100)
                            (map request_response_time requests)))
       end.
Proof.
  cbv zeta. unfold avg_response_time.
  rewrite record_requests_window.
  split; [reflexivity|split].
  - rewrite length_skipn, length_map. lia.
  - destruct requests as [|r requests]; [reflexivity|].
    destruct (skipn _ _) as [|x xs] eqn:Hsk; [|reflexivity].
    apply (f_equal (@length float)) in Hsk.
    rewrite length_skipn, length_map in Hsk. cbn [length] in Hsk. lia.
Qed.

(** X23 ([ServiceMetrics.record_request]): the last error and its time are
    those of the most recent failed request, whatever succeeded since; they
    are unset only while no request has failed.  A failure recorded without
    an error text leaves the text unset but still sets the time. *)
Theorem X23_last_error_survives_successes {float : Type} (now : datetime)
    (name : string) (requests : list (Request float)) :
  let m := record_requests requests (ServiceMetrics_new now name) in
  match last_item (filter request_failed requests) with
  | None => last_error m = None /\ last_error_time m = None
  | Some r =>
      last_error m = request_error r
      /\ last_error_time m = Some (request_now r)
  end.
Proof.
  induction requests as [|r requests IH] using rev_ind; cbv zeta.
  - cbn. now split.
  - rewrite record_requests_snoc, filter_snoc. unfold request_failed at 1.
    unfold ServiceMetrics_record_request.
    destruct (request_success r); cbn [negb last_error last_error_time].
    + exact IH.
    + rewrite last_item_snoc. now split.
Qed.

Section MonitorFacts.
Context {float : Type}.
Implicit Types (self : ServiceMonitor float) (m : ServiceMetrics float)
  (d : list (string * ServiceMetrics float)).

Lemma dict_set_absent {V} (k : string) (v : V) (d : list (string * V)) :
  dict_in k d = false -> dict_set k v d = d ++ [(k, v)].
Proof.
  unfold dict_in. induction d as [|[k0 v0] d IH]; simpl; [reflexivity|].
  destruct (String.eqb_spec k k0); [discriminate|].
  intros H. now rewrite IH.
Qed.

Lemma dict_in_set {V} (k key : string) (v : V) (d : list (string * V)) :
  dict_in k (dict_set key v d) = (String.eqb k key || dict_in k d)%bool.
Proof.
  unfold dict_in. destruct (String.eqb_spec k key) as [->|Hne].
  - now rewrite dict_get_set_same.
  - now rewrite dict_get_set_other.
Qed.

Lemma sum_totals_set (name : string) m d :
  fold_right Z.add 0%Z
      (map (fun e => requests_total (snd e)) (dict_set name m d))
  = (fold_right Z.add 0%Z
      (map (fun e => requests_total (snd e)) d)
     - match dict_get name d with Some m0 => requests_total m0 | None => 0 end
     + requests_total m)%Z.
Proof.
  induction d as [|[k0 m0] d IH]; simpl; [lia|].
  destruct (String.eqb_spec name k0) as [->|Hne]; simpl; [lia|].
  rewrite IH. lia.
Qed.

Lemma register_service_fresh now name self :
  dict_in name (services self) = false ->
  register_service now name self
  = (mkMonitor (services self ++ [(name, ServiceMetrics_new now name)])
       (monitor_start_time self),
     Some (ServiceMetrics_new now name)).
Proof.
  intros Hin. unfold register_service. rewrite Hin.
  cbn [services]. rewrite dict_get_set_same.
  now rewrite dict_set_absent.
Qed.

Lemma register_service_known now name self :
  dict_in name (services self) = true ->
  register_service now name self = (self, dict_get name (services self)).
Proof. intros Hin. unfold register_service. now rewrite Hin. Qed.

(** What one recorded request does to the registry. *)
Lemma monitor_record_services registered_at now name success response_time
    error self :
  let before :=
    match dict_get name (services self) with
    | Some m => m
    | None => ServiceMetrics_new registered_at name
    end in
  ServiceMonitor_record_request registered_at now name success response_time
    error self
  = mkMonitor
      (dict_set name
         (ServiceMetrics_record_request now success response_time error
            before)
         (services self))
      (monitor_start_time self).
Proof.
  cbv zeta. unfold ServiceMonitor_record_request.
  destruct (dict_in name (services self)) eqn:Hin; cbn [negb].
  - unfold dict_in in Hin.
    destruct (dict_get name (services self)); [reflexivity|discriminate].
  - rewrite register_service_fresh by assumption. cbn [fst services monitor_start_time].
    rewrite <- dict_set_absent by assumption.
    rewrite dict_get_set_same.
    unfold dict_in in Hin.
    destruct (dict_get name (services self)); [discriminate|].
    f_equal. clear Hin.
    induction (services self) as [|[k0 v0] d IH]; simpl.
    + now rewrite String.eqb_refl.
    + destruct (String.eqb_spec name k0); simpl.
      * now rewrite e, String.eqb_refl.
      * destruct (String.eqb_spec name k0); [contradiction|]. now rewrite IH.
Qed.

Lemma record_request_total m now success response_time error :
  requests_total
    (ServiceMetrics_record_request now success response_time error m)
  = (requests_total m + 1)%Z.
Proof. unfold ServiceMetrics_record_request. now destruct success. Qed.

Lemma monitor_record_counted registered_at now name success response_time
    error self (key : string) :
  requests_counted key
    (ServiceMonitor_record_request registered_at now name success
       response_time error self)
  = (requests_counted key self
     + if String.eqb key name then 1 else 0)%Z.
Proof.
  rewrite monitor_record_services.
  unfold requests_counted, get_service_metrics. cbn [services].
  destruct (String.eqb_spec key name) as [->|Hne].
  - rewrite dict_get_set_same, record_request_total.
    now destruct (dict_get name (services self)).
  - rewrite dict_get_set_other by assumption. lia.
Qed.

Lemma monitor_record_sum registered_at now name success response_time
    error self :
  fold_right Z.add 0%Z
    (map (fun e => requests_total (snd e))
       (services
          (ServiceMonitor_record_request registered_at now name success
             response_time error self)))
  = (fold_right Z.add 0%Z
      (map (fun e => requests_total (snd e)) (services self)) + 1)%Z.
Proof.
  rewrite monitor_record_services. cbn [services].
  rewrite sum_totals_set, record_request_total.
  destruct (dict_get name (services self)); cbn; lia.
Qed.

Lemma monitor_record_keys registered_at now name success response_time
    error self :
  dict_keys
    (services
       (ServiceMonitor_record_request registered_at now name success
          response_time error self))
  = if dict_in name (services self) then dict_keys (services self)
    else dict_keys (services self) ++ [name].
Proof. rewrite monitor_record_services. apply dict_set_keys. Qed.

Lemma monitor_requests_snoc (calls : list (string * datetime * Request float)) c self :
  monitor_requests (calls ++ [c]) self
  = (let '(name, registered_at, r) := c in
     ServiceMonitor_record_request registered_at (request_now r) name
       (request_success r) (request_response_time r) (request_error r)
       (monitor_requests calls self)).
Proof. unfold monitor_requests. now rewrite fold_left_app. Qed.

End MonitorFacts.

Section MonitorRuns.
Context {float : Type}.
Implicit Types (self : ServiceMonitor float)
  (calls : list (string * datetime * Request float)).

Lemma monitor_requests_counted calls self (key : string) :
  requests_counted key (monitor_requests calls self)
  = (requests_counted key self
     + Z.of_nat (length (filter (String.eqb key) (requested calls))))%Z.
Proof.
  induction calls as [|[[name registered_at] r] calls IH] using rev_ind.
  - cbn. lia.
  - rewrite monitor_requests_snoc, monitor_record_counted, IH.
    unfold requested. rewrite map_app. cbn [map fst]. rewrite filter_snoc.
    destruct (String.eqb key name); rewrite ?length_app; cbn [length]; lia.
Qed.

Lemma monitor_requests_sum calls self :
  fold_right Z.add 0%Z
    (map (fun e => requests_total (snd e))
       (services (monitor_requests calls self)))
  = (fold_right Z.add 0%Z
       (map (fun e => requests_total (snd e)) (services self))
     + Z.of_nat (length calls))%Z.
Proof.
  induction calls as [|[[name registered_at] r] calls IH] using rev_ind.
  - cbn. lia.
  - rewrite monitor_requests_snoc, monitor_record_sum, IH, length_app.
    cbn [length]. lia.
Qed.

Lemma monitor_requests_registered calls self (key : string) :
  dict_in key (services (monitor_requests calls self))
  = (dict_in key (services self)
     || existsb (String.eqb key) (requested calls))%bool.
Proof.
  induction calls as [|[[name registered_at] r] calls IH] using rev_ind.
  - cbn. now rewrite orb_false_r.
  - rewrite monitor_requests_snoc, monitor_record_services.
    cbn [services]. rewrite dict_in_set, IH.
    unfold requested. rewrite map_app, existsb_app. cbn [map fst existsb].
    now destruct (String.eqb key name), (dict_in key (services self)),
      (existsb _ _).
Qed.

Lemma monitor_requests_start_time calls self :
  monitor_start_time (monitor_requests calls self) = monitor_start_time self.
Proof.
  induction calls as [|[[name registered_at] r] calls IH] using rev_ind;
    [reflexivity|].
  now rewrite monitor_requests_snoc, monitor_record_services.
Qed.

Lemma monitor_requests_count calls self :
  length (services self) <= length (services (monitor_requests calls self)).
Proof.
  induction calls as [|[[name registered_at] r] calls IH] using rev_ind;
    [apply le_n|].
  rewrite monitor_requests_snoc.
  etransitivity; [exact IH|].
  unfold dict_keys.
  rewrite <- (length_map fst (services (ServiceMonitor_record_request _ _ _ _ _ _ _))).
  change (map fst ?d) with (dict_keys d).
  rewrite monitor_record_keys. unfold dict_keys.
  destruct (dict_in name _); rewrite ?length_app, length_map; lia.
Qed.

Lemma monitor_requests_keys calls self :
  exists added,
    dict_keys (services (monitor_requests calls self))
    = dict_keys (services self) ++ added.
Proof.
  induction calls as [|[[name registered_at] r] calls IH] using rev_ind.
  - exists []. now rewrite app_nil_r.
  - destruct IH as [added IH].
    rewrite monitor_requests_snoc, monitor_record_keys, IH.
    destruct (dict_in name _).
    + now exists added.
    + exists (added ++ [name]). now rewrite app_assoc.
Qed.

End MonitorRuns.

(** X24 ([ServiceMonitor.register_service]): registering never fails to
    return metrics, and they are the ones then found under the name.
    Registering a name again changes nothing and returns the metrics of the
    first registration, so neither the start time nor the counters are
    reset; a new name goes last with fresh metrics, and no other service is
    affected. *)
Theorem X24_register_service_idempotent {float : Type} (now later : datetime)
    (name : string) (self : ServiceMonitor float) :
  let first := register_service now name self in
  let again := register_service later name (fst first) in
  again = first
  /\ snd first = get_service_metrics name (fst first)
  /\ snd first
     = Some match get_service_metrics name self with
            | Some metrics => metrics
            | None => ServiceMetrics_new now name
            end
  /\ services (fst first)
     = (if dict_in name (services self) then services self
        else services self ++ [(name, ServiceMetrics_new now name)])
  /\ monitor_start_time (fst first) = monitor_start_time self
  /\ forall other, other <> name ->
       get_service_metrics other (fst first) = get_service_metrics other self.
Proof.
  cbv zeta. unfold get_service_metrics.
  destruct (dict_in name (services self)) eqn:Hin.
  - rewrite (register_service_known now) by assumption. cbn [fst snd].
    rewrite (register_service_known later) by assumption.
    unfold dict_in in Hin.
    destruct (dict_get name (services self)); [|discriminate].
    now repeat split.
  - rewrite (register_service_fresh now) by assumption.
    cbn [fst snd services monitor_start_time].
    rewrite <- dict_set_absent by assumption.
    rewrite register_service_known
      by (cbn [services]; unfold dict_in; now rewrite dict_get_set_same).
    cbn [services]. rewrite dict_get_set_same.
    unfold dict_in in Hin.
    destruct (dict_get name (services self)); [discriminate|].
    repeat split. intros other Hne. now apply dict_get_set_other.
Qed.

(** X25 ([ServiceMonitor.record_request]): a request is recorded on the
    metrics registered under the name, or on fresh ones registered on the
    spot when the name is unknown, in which case the name joins the
    registry last; the metrics of every other service and the monitor's
    start time are untouched. *)
Theorem X25_record_request_registers_unknown_service {float : Type}
    (registered_at now : datetime) (name : string) (success : bool)
    (response_time : float) (error : option string)
    (self : ServiceMonitor float) :
  let before :=
    match get_service_metrics name self with
    | Some metrics => metrics
    | None => ServiceMetrics_new registered_at name
    end in
  let self' :=
    ServiceMonitor_record_request registered_at now name success
      response_time error self in
  get_service_metrics name self'
  = Some (ServiceMetrics_record_request now success response_time error
            before)
  /\ (forall other, other <> name ->
        get_service_metrics other self' = get_service_metrics other self)
  /\ dict_keys (services self')
     = (if dict_in name (services self) then dict_keys (services self)
        else dict_keys (services self) ++ [name])
  /\ monitor_start_time self' = monitor_start_time self.
Proof.
  cbv zeta. rewrite monitor_record_keys, monitor_record_services.
  unfold get_service_metrics. cbn [services monitor_start_time].
  rewrite dict_get_set_same.
  repeat split. intros other Hne. now apply dict_get_set_other.
Qed.

(** X26 ([ServiceMonitor.record_request], [get_system_metrics]): after any
    run of requests the system total has grown by the number of requests,
    each service's count by the number of requests that named it, and the
    services registered are those registered before together with those
    the requests named: none is ever dropped, and the monitor's start time
    stays. *)
Theorem X26_system_metrics_count_every_request {float : Type}
    (seconds_between : datetime -> datetime -> float) (clock : datetime)
    (calls : list (string * datetime * Request float))
    (self : ServiceMonitor float) :
  let self' := monitor_requests calls self in
  total_requests (get_system_metrics seconds_between clock self')
  = (total_requests (get_system_metrics seconds_between clock self)
     + Z.of_nat (length calls))%Z
  /\ (forall name,
        requests_counted name self'
        = (requests_counted name self
           + Z.of_nat (length (filter (String.eqb name) (requested calls))))%Z)
  /\ (forall name,
        dict_in name (services self')
        = (dict_in name (services self)
           || existsb (String.eqb name) (requested calls))%bool)
  /\ services_count (get_system_metrics seconds_between clock self)
     <= services_count (get_system_metrics seconds_between clock self')
  /\ system_start_time (get_system_metrics seconds_between clock self')
     = system_start_time (get_system_metrics seconds_between clock self).
Proof.
  cbv zeta. unfold get_system_metrics.
  cbn [total_requests services_count system_start_time].
  split; [apply monitor_requests_sum|].
  split; [intros name; apply monitor_requests_counted|].
  split; [intros name; apply monitor_requests_registered|].
  split; [apply monitor_requests_count|apply monitor_requests_start_time].
Qed.


(** X28 (the module-level [service_monitor]): whatever requests are recorded
    on the monitor created at import, "voice", "browser", "email" and
    "workflow" remain its first four services in that order, the system
    total is the number of requests recorded, each service's count is the
    number of requests that named it, and the start time reported is the
    time of creation. *)
Theorem X28_module_monitor_keeps_core_services {float : Type}
    (seconds_between : datetime -> datetime -> float)
    (clock created voice_at browser_at email_at workflow_at : datetime)
    (calls : list (string * datetime * Request float)) :
  let monitor :=
    monitor_requests calls
      (service_monitor created voice_at browser_at email_at workflow_at) in
  firstn 4 (dict_keys (services monitor))
  = ["voice"; "browser"; "email"; "workflow"]
  /\ total_requests (get_system_metrics seconds_between clock monitor)
     = Z.of_nat (length calls)
  /\ (forall name,
        requests_counted name monitor
        = Z.of_nat (length (filter (String.eqb name) (requested calls))))
  /\ system_start_time (get_system_metrics seconds_between clock monitor)
     = created.
Proof.
  cbv zeta. unfold get_system_metrics.
  cbn [total_requests system_start_time].
  split; [|split; [|split]].
  - destruct (monitor_requests_keys calls
                (service_monitor created voice_at browser_at email_at
                   workflow_at)) as [added ->].
    reflexivity.
  - rewrite monitor_requests_sum. reflexivity.
  - intros name. rewrite monitor_requests_counted.
    unfold requests_counted, get_service_metrics.
    cbn [service_monitor ServiceMonitor_new register_service services fst
         dict_in dict_get dict_set].
    vm_compute service_monitor.
    cbn [services dict_get].
    repeat (destruct (String.eqb name _); [reflexivity|]).
    reflexivity.
  - rewrite monitor_requests_start_time. reflexivity.
Qed.
